(** * Calendly license monitor: a shallow embedding of
      [calendly_license_monitor.py] and the properties of its specification.

    The script fetches two sets of e-mail addresses over paginated HTTP
    APIs, intersects them, compares the size of the intersection with a
    constant and posts a text message to a webhook.

    Layout of the development:
    - [Py]: the Python values that flow through the script (what
      [response.json()] can return) and the primitive operations the script
      applies to them, each with the exception it raises;
    - the reconciler [calculate_license_counts] and the two message
      templates of [main];
    - [Section Run]: the effectful part.  The outside world (process
      environment, HTTP peer, standard output) is an explicit state; the
      script is written in a state-and-exception monad over it.  The two
      [while url:] loops take a fuel argument: running out of fuel is a
      third outcome, distinct from returning and from raising;
    - the theorems, one per property of the specification. *)

From stdpp Require Import gmap strings list pretty.
From Stdlib Require Import ZArith Ascii.

Set Warnings "-register-all".

Local Open Scope string_scope.
Local Open Scope list_scope.
Local Open Scope Z_scope.

(** ** Python values and primitives *)

Module Py.

(** The values [json.loads] produces, which are also the only values the
    script handles.  A [dict] keeps its items in insertion order, as an
    association list (keys of a parsed object are pairwise distinct; the
    lookups below are defined on any list and return the first binding).
    JSON numbers are kept as integers: the script only ever tests them for
    truth. *)
Inductive value : Type :=
| VNone
| VBool (b : bool)
| VInt (n : Z)
| VStr (s : string)
| VList (l : list value)
| VDict (d : list (string * value)).

Inductive exn : Type :=
| ValueError (msg : string)
| KeyError (key : string)
| TypeError
| AttributeError
| JSONDecodeError
| HTTPError (status : Z)
| RequestException.

(** Outcome of running a piece of the script. [Diverged] is only produced
    by the fuel-bounded loops. *)
Inductive result (A : Type) : Type :=
| Ok (a : A)
| Raise (e : exn)
| Diverged.
Arguments Ok {A} a.
Arguments Raise {A} e.
Arguments Diverged {A}.

Definition rbind {A B} (m : result A) (k : A -> result B) : result B :=
  match m with
  | Ok a => k a
  | Raise e => Raise e
  | Diverged => Diverged
  end.

(** Truth value of an object, as tested by [while url:] and [all([...])]. *)
Definition truthy (v : value) : bool :=
  match v with
  | VNone => false
  | VBool b => b
  | VInt n => negb (Z.eqb n 0)
  | VStr s => negb (String.eqb s "")
  | VList l => match l with [] => false | _ => true end
  | VDict d => match d with [] => false | _ => true end
  end.

Fixpoint assoc (k : string) (d : list (string * value)) : option value :=
  match d with
  | [] => None
  | (k', v) :: d' => if String.eqb k k' then Some v else assoc k d'
  end.

(** [obj.get(key, default)]: only a [dict] has the method. *)
Definition get (obj : value) (key : string) (default : value) : result value :=
  match obj with
  | VDict d => Ok (match assoc key d with Some v => v | None => default end)
  | _ => Raise AttributeError
  end.

(** [obj[key]] with a string key. *)
Definition getitem (obj : value) (key : string) : result value :=
  match obj with
  | VDict d =>
      match assoc key d with
      | Some v => Ok v
      | None => Raise (KeyError key)
      end
  | _ => Raise TypeError
  end.

(** [str.lower].  A Python [str] is a sequence of Unicode code points; it is
    represented here by its UTF-8 encoding (a lone surrogate, which a JSON
    escape can produce, by the three bytes of the same scheme).  Lower-casing
    follows CPython: a string of ASCII characters takes the byte-wise path,
    where the letters A-Z are mapped to a-z and every other character is
    kept; any other string is decoded and lower-cased code point by code
    point with the tables of the Unicode database. *)
Definition lower_ascii (c : ascii) : ascii :=
  let n := N_of_ascii c in
  if ((65 <=? n) && (n <=? 90))%N then ascii_of_N (n + 32) else c.

Fixpoint lower_ascii_str (s : string) : string :=
  match s with
  | EmptyString => EmptyString
  | String c s' => String (lower_ascii c) (lower_ascii_str s')
  end.

Fixpoint is_ascii (s : string) : bool :=
  match s with
  | EmptyString => true
  | String c s' => (N_of_ascii c <? 128)%N && is_ascii s'
  end.

(** The simple lower-case mappings of Unicode 14.0 (the database of
    CPython 3.11), as runs [(first, last, step, image of first)]: the code
    points [first], [first + step], ..., [last] are mapped to consecutive
    images.  U+0130 and U+03A3 are handled apart. *)
Definition lower_table : list (N * N * N * N) :=
  [(65, 90, 1, 97); (192, 214, 1, 224); (216, 222, 1, 248); (256, 302, 2, 257);
   (306, 310, 2, 307); (313, 327, 2, 314); (330, 374, 2, 331); (376, 376, 1, 255);
   (377, 381, 2, 378); (385, 385, 1, 595); (386, 388, 2, 387); (390, 390, 1, 596);
   (391, 391, 1, 392); (393, 394, 1, 598); (395, 395, 1, 396); (398, 398, 1, 477);
   (399, 399, 1, 601); (400, 400, 1, 603); (401, 401, 1, 402); (403, 403, 1, 608);
   (404, 404, 1, 611); (406, 406, 1, 617); (407, 407, 1, 616); (408, 408, 1, 409);
   (412, 412, 1, 623); (413, 413, 1, 626); (415, 415, 1, 629); (416, 420, 2, 417);
   (422, 422, 1, 640); (423, 423, 1, 424); (425, 425, 1, 643); (428, 428, 1, 429);
   (430, 430, 1, 648); (431, 431, 1, 432); (433, 434, 1, 650); (435, 437, 2, 436);
   (439, 439, 1, 658); (440, 440, 1, 441); (444, 444, 1, 445); (452, 452, 1, 454);
   (453, 453, 1, 454); (455, 455, 1, 457); (456, 456, 1, 457); (458, 458, 1, 460);
   (459, 475, 2, 460); (478, 494, 2, 479); (497, 497, 1, 499); (498, 500, 2, 499);
   (502, 502, 1, 405); (503, 503, 1, 447); (504, 542, 2, 505); (544, 544, 1, 414);
   (546, 562, 2, 547); (570, 570, 1, 11365); (571, 571, 1, 572); (573, 573, 1, 410);
   (574, 574, 1, 11366); (577, 577, 1, 578); (579, 579, 1, 384); (580, 580, 1, 649);
   (581, 581, 1, 652); (582, 590, 2, 583); (880, 882, 2, 881); (886, 886, 1, 887);
   (895, 895, 1, 1011); (902, 902, 1, 940); (904, 906, 1, 941); (908, 908, 1, 972);
   (910, 911, 1, 973); (913, 929, 1, 945); (932, 939, 1, 964); (975, 975, 1, 983);
   (984, 1006, 2, 985); (1012, 1012, 1, 952); (1015, 1015, 1, 1016); (1017, 1017, 1, 1010);
   (1018, 1018, 1, 1019); (1021, 1023, 1, 891); (1024, 1039, 1, 1104); (1040, 1071, 1, 1072);
   (1120, 1152, 2, 1121); (1162, 1214, 2, 1163); (1216, 1216, 1, 1231); (1217, 1229, 2, 1218);
   (1232, 1326, 2, 1233); (1329, 1366, 1, 1377); (4256, 4293, 1, 11520); (4295, 4295, 1, 11559);
   (4301, 4301, 1, 11565); (5024, 5103, 1, 43888); (5104, 5109, 1, 5112); (7312, 7354, 1, 4304);
   (7357, 7359, 1, 4349); (7680, 7828, 2, 7681); (7838, 7838, 1, 223); (7840, 7934, 2, 7841);
   (7944, 7951, 1, 7936); (7960, 7965, 1, 7952); (7976, 7983, 1, 7968); (7992, 7999, 1, 7984);
   (8008, 8013, 1, 8000); (8025, 8031, 2, 8017); (8040, 8047, 1, 8032); (8072, 8079, 1, 8064);
   (8088, 8095, 1, 8080); (8104, 8111, 1, 8096); (8120, 8121, 1, 8112); (8122, 8123, 1, 8048);
   (8124, 8124, 1, 8115); (8136, 8139, 1, 8050); (8140, 8140, 1, 8131); (8152, 8153, 1, 8144);
   (8154, 8155, 1, 8054); (8168, 8169, 1, 8160); (8170, 8171, 1, 8058); (8172, 8172, 1, 8165);
   (8184, 8185, 1, 8056); (8186, 8187, 1, 8060); (8188, 8188, 1, 8179); (8486, 8486, 1, 969);
   (8490, 8490, 1, 107); (8491, 8491, 1, 229); (8498, 8498, 1, 8526); (8544, 8559, 1, 8560);
   (8579, 8579, 1, 8580); (9398, 9423, 1, 9424); (11264, 11311, 1, 11312); (11360, 11360, 1, 11361);
   (11362, 11362, 1, 619); (11363, 11363, 1, 7549); (11364, 11364, 1, 637); (11367, 11371, 2, 11368);
   (11373, 11373, 1, 593); (11374, 11374, 1, 625); (11375, 11375, 1, 592); (11376, 11376, 1, 594);
   (11378, 11378, 1, 11379); (11381, 11381, 1, 11382); (11390, 11391, 1, 575); (11392, 11490, 2, 11393);
   (11499, 11501, 2, 11500); (11506, 11506, 1, 11507); (42560, 42604, 2, 42561); (42624, 42650, 2, 42625);
   (42786, 42798, 2, 42787); (42802, 42862, 2, 42803); (42873, 42875, 2, 42874); (42877, 42877, 1, 7545);
   (42878, 42886, 2, 42879); (42891, 42891, 1, 42892); (42893, 42893, 1, 613); (42896, 42898, 2, 42897);
   (42902, 42920, 2, 42903); (42922, 42922, 1, 614); (42923, 42923, 1, 604); (42924, 42924, 1, 609);
   (42925, 42925, 1, 620); (42926, 42926, 1, 618); (42928, 42928, 1, 670); (42929, 42929, 1, 647);
   (42930, 42930, 1, 669); (42931, 42931, 1, 43859); (42932, 42946, 2, 42933); (42948, 42948, 1, 42900);
   (42949, 42949, 1, 642); (42950, 42950, 1, 7566); (42951, 42953, 2, 42952); (42960, 42960, 1, 42961);
   (42966, 42968, 2, 42967); (42997, 42997, 1, 42998); (65313, 65338, 1, 65345); (66560, 66599, 1, 66600);
   (66736, 66771, 1, 66776); (66928, 66938, 1, 66967); (66940, 66954, 1, 66979); (66956, 66962, 1, 66995);
   (66964, 66965, 1, 67003); (68736, 68786, 1, 68800); (71840, 71871, 1, 71872); (93760, 93791, 1, 93792);
   (125184, 125217, 1, 125218)]%N.

(** The code points with the property Cased that are not Case_Ignorable. *)
Definition cased_table : list (N * N) :=
  [(65, 90); (97, 122); (170, 170); (181, 181); (186, 186); (192, 214);
   (216, 246); (248, 442); (444, 447); (452, 659); (661, 687); (880, 883);
   (886, 887); (891, 893); (895, 895); (902, 902); (904, 906); (908, 908);
   (910, 929); (931, 1013); (1015, 1153); (1162, 1327); (1329, 1366); (1376, 1416);
   (4256, 4293); (4295, 4295); (4301, 4301); (4304, 4346); (4349, 4351); (5024, 5109);
   (5112, 5117); (7296, 7304); (7312, 7354); (7357, 7359); (7424, 7467); (7531, 7543);
   (7545, 7578); (7680, 7957); (7960, 7965); (7968, 8005); (8008, 8013); (8016, 8023);
   (8025, 8025); (8027, 8027); (8029, 8029); (8031, 8061); (8064, 8116); (8118, 8124);
   (8126, 8126); (8130, 8132); (8134, 8140); (8144, 8147); (8150, 8155); (8160, 8172);
   (8178, 8180); (8182, 8188); (8450, 8450); (8455, 8455); (8458, 8467); (8469, 8469);
   (8473, 8477); (8484, 8484); (8486, 8486); (8488, 8488); (8490, 8493); (8495, 8500);
   (8505, 8505); (8508, 8511); (8517, 8521); (8526, 8526); (8544, 8575); (8579, 8580);
   (9398, 9449); (11264, 11387); (11390, 11492); (11499, 11502); (11506, 11507); (11520, 11557);
   (11559, 11559); (11565, 11565); (42560, 42605); (42624, 42651); (42786, 42863); (42865, 42887);
   (42891, 42894); (42896, 42954); (42960, 42961); (42963, 42963); (42965, 42969); (42997, 42998);
   (43002, 43002); (43824, 43866); (43872, 43880); (43888, 43967); (64256, 64262); (64275, 64279);
   (65313, 65338); (65345, 65370); (66560, 66639); (66736, 66771); (66776, 66811); (66928, 66938);
   (66940, 66954); (66956, 66962); (66964, 66965); (66967, 66977); (66979, 66993); (66995, 67001);
   (67003, 67004); (68736, 68786); (68800, 68850); (71840, 71903); (93760, 93823); (119808, 119892);
   (119894, 119964); (119966, 119967); (119970, 119970); (119973, 119974); (119977, 119980); (119982, 119993);
   (119995, 119995); (119997, 120003); (120005, 120069); (120071, 120074); (120077, 120084); (120086, 120092);
   (120094, 120121); (120123, 120126); (120128, 120132); (120134, 120134); (120138, 120144); (120146, 120485);
   (120488, 120512); (120514, 120538); (120540, 120570); (120572, 120596); (120598, 120628); (120630, 120654);
   (120656, 120686); (120688, 120712); (120714, 120744); (120746, 120770); (120772, 120779); (122624, 122633);
   (122635, 122654); (125184, 125251); (127280, 127305); (127312, 127337); (127344, 127369)]%N.

(** The code points with the property Case_Ignorable. *)
Definition case_ignorable_table : list (N * N) :=
  [(39, 39); (46, 46); (58, 58); (94, 94); (96, 96); (168, 168);
   (173, 173); (175, 175); (180, 180); (183, 184); (688, 879); (884, 885);
   (890, 890); (900, 901); (903, 903); (1155, 1161); (1369, 1369); (1375, 1375);
   (1425, 1469); (1471, 1471); (1473, 1474); (1476, 1477); (1479, 1479); (1524, 1524);
   (1536, 1541); (1552, 1562); (1564, 1564); (1600, 1600); (1611, 1631); (1648, 1648);
   (1750, 1757); (1759, 1768); (1770, 1773); (1807, 1807); (1809, 1809); (1840, 1866);
   (1958, 1968); (2027, 2037); (2042, 2042); (2045, 2045); (2070, 2093); (2137, 2139);
   (2184, 2184); (2192, 2193); (2200, 2207); (2249, 2306); (2362, 2362); (2364, 2364);
   (2369, 2376); (2381, 2381); (2385, 2391); (2402, 2403); (2417, 2417); (2433, 2433);
   (2492, 2492); (2497, 2500); (2509, 2509); (2530, 2531); (2558, 2558); (2561, 2562);
   (2620, 2620); (2625, 2626); (2631, 2632); (2635, 2637); (2641, 2641); (2672, 2673);
   (2677, 2677); (2689, 2690); (2748, 2748); (2753, 2757); (2759, 2760); (2765, 2765);
   (2786, 2787); (2810, 2815); (2817, 2817); (2876, 2876); (2879, 2879); (2881, 2884);
   (2893, 2893); (2901, 2902); (2914, 2915); (2946, 2946); (3008, 3008); (3021, 3021);
   (3072, 3072); (3076, 3076); (3132, 3132); (3134, 3136); (3142, 3144); (3146, 3149);
   (3157, 3158); (3170, 3171); (3201, 3201); (3260, 3260); (3263, 3263); (3270, 3270);
   (3276, 3277); (3298, 3299); (3328, 3329); (3387, 3388); (3393, 3396); (3405, 3405);
   (3426, 3427); (3457, 3457); (3530, 3530); (3538, 3540); (3542, 3542); (3633, 3633);
   (3636, 3642); (3654, 3662); (3761, 3761); (3764, 3772); (3782, 3782); (3784, 3789);
   (3864, 3865); (3893, 3893); (3895, 3895); (3897, 3897); (3953, 3966); (3968, 3972);
   (3974, 3975); (3981, 3991); (3993, 4028); (4038, 4038); (4141, 4144); (4146, 4151);
   (4153, 4154); (4157, 4158); (4184, 4185); (4190, 4192); (4209, 4212); (4226, 4226);
   (4229, 4230); (4237, 4237); (4253, 4253); (4348, 4348); (4957, 4959); (5906, 5908);
   (5938, 5939); (5970, 5971); (6002, 6003); (6068, 6069); (6071, 6077); (6086, 6086);
   (6089, 6099); (6103, 6103); (6109, 6109); (6155, 6159); (6211, 6211); (6277, 6278);
   (6313, 6313); (6432, 6434); (6439, 6440); (6450, 6450); (6457, 6459); (6679, 6680);
   (6683, 6683); (6742, 6742); (6744, 6750); (6752, 6752); (6754, 6754); (6757, 6764);
   (6771, 6780); (6783, 6783); (6823, 6823); (6832, 6862); (6912, 6915); (6964, 6964);
   (6966, 6970); (6972, 6972); (6978, 6978); (7019, 7027); (7040, 7041); (7074, 7077);
   (7080, 7081); (7083, 7085); (7142, 7142); (7144, 7145); (7149, 7149); (7151, 7153);
   (7212, 7219); (7222, 7223); (7288, 7293); (7376, 7378); (7380, 7392); (7394, 7400);
   (7405, 7405); (7412, 7412); (7416, 7417); (7468, 7530); (7544, 7544); (7579, 7679);
   (8125, 8125); (8127, 8129); (8141, 8143); (8157, 8159); (8173, 8175); (8189, 8190);
   (8203, 8207); (8216, 8217); (8228, 8228); (8231, 8231); (8234, 8238); (8288, 8292);
   (8294, 8303); (8305, 8305); (8319, 8319); (8336, 8348); (8400, 8432); (11388, 11389);
   (11503, 11505); (11631, 11631); (11647, 11647); (11744, 11775); (11823, 11823); (12293, 12293);
   (12330, 12333); (12337, 12341); (12347, 12347); (12441, 12446); (12540, 12542); (40981, 40981);
   (42232, 42237); (42508, 42508); (42607, 42610); (42612, 42621); (42623, 42623); (42652, 42655);
   (42736, 42737); (42752, 42785); (42864, 42864); (42888, 42890); (42994, 42996); (43000, 43001);
   (43010, 43010); (43014, 43014); (43019, 43019); (43045, 43046); (43052, 43052); (43204, 43205);
   (43232, 43249); (43263, 43263); (43302, 43309); (43335, 43345); (43392, 43394); (43443, 43443);
   (43446, 43449); (43452, 43453); (43471, 43471); (43493, 43494); (43561, 43566); (43569, 43570);
   (43573, 43574); (43587, 43587); (43596, 43596); (43632, 43632); (43644, 43644); (43696, 43696);
   (43698, 43700); (43703, 43704); (43710, 43711); (43713, 43713); (43741, 43741); (43756, 43757);
   (43763, 43764); (43766, 43766); (43867, 43871); (43881, 43883); (44005, 44005); (44008, 44008);
   (44013, 44013); (64286, 64286); (64434, 64450); (65024, 65039); (65043, 65043); (65056, 65071);
   (65106, 65106); (65109, 65109); (65279, 65279); (65287, 65287); (65294, 65294); (65306, 65306);
   (65342, 65342); (65344, 65344); (65392, 65392); (65438, 65439); (65507, 65507); (65529, 65531);
   (66045, 66045); (66272, 66272); (66422, 66426); (67456, 67461); (67463, 67504); (67506, 67514);
   (68097, 68099); (68101, 68102); (68108, 68111); (68152, 68154); (68159, 68159); (68325, 68326);
   (68900, 68903); (69291, 69292); (69446, 69456); (69506, 69509); (69633, 69633); (69688, 69702);
   (69744, 69744); (69747, 69748); (69759, 69761); (69811, 69814); (69817, 69818); (69821, 69821);
   (69826, 69826); (69837, 69837); (69888, 69890); (69927, 69931); (69933, 69940); (70003, 70003);
   (70016, 70017); (70070, 70078); (70089, 70092); (70095, 70095); (70191, 70193); (70196, 70196);
   (70198, 70199); (70206, 70206); (70367, 70367); (70371, 70378); (70400, 70401); (70459, 70460);
   (70464, 70464); (70502, 70508); (70512, 70516); (70712, 70719); (70722, 70724); (70726, 70726);
   (70750, 70750); (70835, 70840); (70842, 70842); (70847, 70848); (70850, 70851); (71090, 71093);
   (71100, 71101); (71103, 71104); (71132, 71133); (71219, 71226); (71229, 71229); (71231, 71232);
   (71339, 71339); (71341, 71341); (71344, 71349); (71351, 71351); (71453, 71455); (71458, 71461);
   (71463, 71467); (71727, 71735); (71737, 71738); (71995, 71996); (71998, 71998); (72003, 72003);
   (72148, 72151); (72154, 72155); (72160, 72160); (72193, 72202); (72243, 72248); (72251, 72254);
   (72263, 72263); (72273, 72278); (72281, 72283); (72330, 72342); (72344, 72345); (72752, 72758);
   (72760, 72765); (72767, 72767); (72850, 72871); (72874, 72880); (72882, 72883); (72885, 72886);
   (73009, 73014); (73018, 73018); (73020, 73021); (73023, 73029); (73031, 73031); (73104, 73105);
   (73109, 73109); (73111, 73111); (73459, 73460); (78896, 78904); (92912, 92916); (92976, 92982);
   (92992, 92995); (94031, 94031); (94095, 94111); (94176, 94177); (94179, 94180); (110576, 110579);
   (110581, 110587); (110589, 110590); (113821, 113822); (113824, 113827); (118528, 118573); (118576, 118598);
   (119143, 119145); (119155, 119170); (119173, 119179); (119210, 119213); (119362, 119364); (121344, 121398);
   (121403, 121452); (121461, 121461); (121476, 121476); (121499, 121503); (121505, 121519); (122880, 122886);
   (122888, 122904); (122907, 122913); (122915, 122916); (122918, 122922); (123184, 123197); (123566, 123566);
   (123628, 123631); (125136, 125142); (125252, 125259); (127995, 127999); (917505, 917505); (917536, 917631);
   (917760, 917999)]%N.

Definition in_ranges (c : N) (table : list (N * N)) : bool :=
  existsb (fun r => (fst r <=? c)%N && (c <=? snd r)%N) table.

Definition in_run (c : N) (run : N * N * N * N) : bool :=
  let '(first, last, step, _) := run in
  ((first <=? c) && (c <=? last) && ((c - first) mod step =? 0))%N.

Definition to_lower (c : N) : N :=
  match List.find (in_run c) lower_table with
  | Some (first, _, _, image) => (image + (c - first))%N
  | None => c
  end.

(** The second half of the Final_Sigma condition: skipping case-ignorable
    code points, the next one is cased. *)
Fixpoint next_cased (rest : list N) : bool :=
  match rest with
  | [] => false
  | c :: rest' =>
      if in_ranges c case_ignorable_table then next_cased rest'
      else in_ranges c cased_table
  end.

(** [do_lower prev_cased cps]: [prev_cased] tells whether, skipping
    case-ignorable code points backwards, the previous one is cased.  A
    capital sigma becomes a final sigma when it ends a word; U+0130 becomes
    two code points. *)
Fixpoint do_lower (prev_cased : bool) (cps : list N) : list N :=
  match cps with
  | [] => []
  | c :: rest =>
      let out :=
        if (c =? 931)%N then
          [if prev_cased && negb (next_cased rest) then 962%N else 963%N]
        else if (c =? 304)%N then [105%N; 775%N]
        else [to_lower c] in
      let prev_cased' :=
        if in_ranges c case_ignorable_table then prev_cased
        else in_ranges c cased_table in
      out ++ do_lower prev_cased' rest
  end.

(** UTF-8.  A byte that does not start a well-formed shortest sequence is
    kept apart, as the number [raw_byte + byte], so that it is written back
    unchanged. *)
Definition raw_byte : N := 1114112.

Definition is_cont (b : N) : bool := ((128 <=? b) && (b <=? 191))%N.

Fixpoint decode (s : string) : list N :=
  match s with
  | EmptyString => []
  | String c0 s1 =>
      let b0 := N_of_ascii c0 in
      let raw := fun _ : unit => (raw_byte + b0)%N :: decode s1 in
      if (b0 <? 128)%N then b0 :: decode s1
      else
        match s1 with
        | EmptyString => raw tt
        | String c1 s2 =>
            let b1 := N_of_ascii c1 in
            if negb (is_cont b1) then raw tt
            else if ((194 <=? b0) && (b0 <=? 223))%N then
              ((b0 - 192) * 64 + (b1 - 128))%N :: decode s2
            else
              match s2 with
              | EmptyString => raw tt
              | String c2 s3 =>
                  let b2 := N_of_ascii c2 in
                  if negb (is_cont b2) then raw tt
                  else if ((224 <=? b0) && (b0 <=? 239))%N then
                    let cp := ((b0 - 224) * 4096 + (b1 - 128) * 64 + (b2 - 128))%N in
                    if (2048 <=? cp)%N then cp :: decode s3 else raw tt
                  else
                    match s3 with
                    | EmptyString => raw tt
                    | String c3 s4 =>
                        let b3 := N_of_ascii c3 in
                        if is_cont b3 && ((240 <=? b0) && (b0 <=? 244))%N then
                          let cp := ((b0 - 240) * 262144 + (b1 - 128) * 4096
                                     + (b2 - 128) * 64 + (b3 - 128))%N in
                          if ((65536 <=? cp) && (cp <=? 1114111))%N
                          then cp :: decode s4 else raw tt
                        else raw tt
                    end
              end
        end
  end.

Definition encode_one (cp : N) : string :=
  let byte (n : N) := ascii_of_N n in
  if (cp <? 128)%N then String (byte cp) EmptyString
  else if (cp <? 2048)%N then
    String (byte (192 + cp / 64)%N) (String (byte (128 + cp mod 64)%N) EmptyString)
  else if (cp <? 65536)%N then
    String (byte (224 + cp / 4096)%N)
      (String (byte (128 + (cp / 64) mod 64)%N)
         (String (byte (128 + cp mod 64)%N) EmptyString))
  else if (cp <? raw_byte)%N then
    String (byte (240 + cp / 262144)%N)
      (String (byte (128 + (cp / 4096) mod 64)%N)
         (String (byte (128 + (cp / 64) mod 64)%N)
            (String (byte (128 + cp mod 64)%N) EmptyString)))
  else String (byte (cp - raw_byte)%N) EmptyString.

Fixpoint encode (cps : list N) : string :=
  match cps with
  | [] => EmptyString
  | cp :: rest => String.append (encode_one cp) (encode rest)
  end.

Definition lower_str (s : string) : string :=
  if is_ascii s then lower_ascii_str s
  else encode (do_lower false (decode s)).

(** [obj.lower()]: only a [str] has the method. *)
Definition lower (obj : value) : result string :=
  match obj with
  | VStr s => Ok (lower_str s)
  | _ => Raise AttributeError
  end.

(** The characters of a string, each as a string of one code point. *)
Definition chars (s : string) : list value :=
  (fun cp => VStr (encode_one cp)) <$> decode s.

(** The items produced by iterating over an object ([for x in obj],
    [list.extend(obj)]): the elements of a list, the keys of a dict, the
    characters of a string; anything else is not iterable. *)
Definition iter (obj : value) : result (list value) :=
  match obj with
  | VList l => Ok l
  | VDict d => Ok (map (fun kv => VStr (fst kv)) d)
  | VStr s => Ok (chars s)
  | _ => Raise TypeError
  end.

End Py.
Import Py.

Declare Scope py_scope.
Delimit Scope py_scope with py.
Notation "x <~ m ;; k" := (rbind m (fun x => k))
  (at level 100, m at next level, right associativity) : py_scope.

(** ** The reconciler *)

(** Total allocated licenses *)
Definition TOTAL_LICENSES : Z := 65.

(** The dict returned by [calculate_license_counts], with its three keys. *)
Record license_counts : Type := {
  total_licenses : Z;
  licenses_used : Z;
  licenses_available : Z
}.

Definition calculate_license_counts (calendly_users okta_users : gset string)
  : license_counts :=
  let matched_users := calendly_users ∩ okta_users in
  let licenses_used := Z.of_nat (size matched_users) in
  let licenses_available := TOTAL_LICENSES - licenses_used in
  {| total_licenses := TOTAL_LICENSES;
     licenses_used := licenses_used;
     licenses_available := licenses_available |}.

(** ** The alert message of [main] *)

Definition nl : string := String (ascii_of_nat 10) EmptyString.

(** [f"{n}"] for an [int]. *)
Definition fmt_int (n : Z) : string := pretty n.

(** The first branch of the [if] of [main]. *)
Definition overage_message (lc : license_counts) : string :=
  ":rotating_light:calendly: *Calendly License Alert* :calendly::rotating_light:" +:+ nl +:+
  "Used Licenses: " +:+ fmt_int (licenses_used lc) +:+ nl +:+
  "Total Licenses: " +:+ fmt_int (total_licenses lc) +:+ nl +:+
  "Overage: " +:+ fmt_int (licenses_used lc - TOTAL_LICENSES) +:+ nl +:+
  "*Immediate action required to resolve the overage.*".

(** The [else] branch. *)
Definition normal_message (lc : license_counts) : string :=
  ":calendly: *Calendly License Report* :calendly:" +:+ nl +:+
  "Used Licenses: " +:+ fmt_int (licenses_used lc) +:+ nl +:+
  "Total Licenses: " +:+ fmt_int (total_licenses lc) +:+ nl +:+
  "Available Licenses: " +:+ fmt_int (licenses_available lc) +:+ nl +:+
  "*All licenses are within the allocated limit.*".

Definition alert_message (lc : license_counts) : string :=
  if licenses_used lc >? TOTAL_LICENSES
  then overage_message lc
  else normal_message lc.

(** [needle in haystack] for strings. *)
Definition contains (haystack needle : string) : Prop :=
  exists pre post : string, haystack = pre +:+ needle +:+ post.

(** ** The outside world: HTTP and the process environment *)

Inductive http_method : Type := GET | POST.

(** What the script hands to [requests.get] / [requests.post].  The URL is a
    [value]: the loop of [fetch_calendly_users] passes on whatever object the
    response body holds under [pagination.next_page]. *)
Record request : Type := {
  req_method : http_method;
  req_url : value;
  req_headers : list (string * string);
  req_json : option value
}.

(** What the script reads from a [requests.Response]: the status code, the
    decoded body ([None] when the body is not JSON and [response.json()]
    raises) and [response.links], the parsed [Link] header, keyed by the
    [rel] of each link. *)
Record response : Type := {
  status_code : Z;
  json_body : option value;
  links : list (string * list (string * string))
}.

(** A call into [requests] either raises (no connection, bad URL, ...) or
    hands back a response. *)
Definition outcome : Type := exn + response.

(** Observable actions of a run, in order. *)
Inductive event : Type :=
| EvPrint (line : string)
| EvHttp (rq : request) (out : outcome).

Definition is_http (ev : event) : bool :=
  match ev with EvHttp _ _ => true | EvPrint _ => false end.

Definition is_post (ev : event) : bool :=
  match ev with
  | EvHttp rq _ => match req_method rq with POST => true | GET => false end
  | EvPrint _ => false
  end.

(** The status codes of client and server errors. *)
Definition is_error_status (code : Z) : bool :=
  (400 <=? code) && (code <? 600).

(** A fetch of either source that was answered with a status for which
    [raise_for_status] raises. *)
Definition is_failed_get (ev : event) : bool :=
  match ev with
  | EvHttp rq (inr r) =>
      match req_method rq with
      | GET => is_error_status (status_code r)
      | POST => false
      end
  | _ => false
  end.

(** [response.raise_for_status()]: raises for 4xx and 5xx status codes. *)
Definition raise_for_status (r : response) : result unit :=
  if is_error_status (status_code r)
  then Raise (HTTPError (status_code r))
  else Ok tt.

(** [response.json()] *)
Definition json (r : response) : result value :=
  match json_body r with
  | Some v => Ok v
  | None => Raise JSONDecodeError
  end.

Fixpoint assoc_str {A : Type} (k : string) (d : list (string * A)) : option A :=
  match d with
  | [] => None
  | (k', v) :: d' => if String.eqb k k' then Some v else assoc_str k d'
  end.

(** [response.links.get("next", {}).get("url")] *)
Definition links_next_url (r : response) : value :=
  let next := match assoc_str "next" (links r) with
              | Some link => link
              | None => []
              end in
  match assoc_str "url" next with
  | Some u => VStr u
  | None => VNone
  end.

(** The set comprehension [{u["user"]["email"].lower() for u in users}]:
    members are visited in order and the first failing one aborts. *)
Fixpoint calendly_emails (users : list value) : result (gset string) :=
  match users with
  | [] => Ok ∅
  | u :: users' =>
      (usr <~ getitem u "user" ;;
       em <~ getitem usr "email" ;;
       e <~ lower em ;;
       rest <~ calendly_emails users' ;;
       Ok ({[ e ]} ∪ rest))%py
  end.

(** The body of the loop of [fetch_okta_group_members] over the members of
    one page: [for user in data: ...; users[email] = user]. *)
Fixpoint okta_collect (data : list value) (users : gmap string value)
  : result (gmap string value) :=
  match data with
  | [] => Ok users
  | user :: data' =>
      (profile <~ getitem user "profile" ;;
       em <~ getitem profile "email" ;;
       email <~ lower em ;;
       okta_collect data' (<[ email := user ]> users))%py
  end.

(** What [os.getenv] returns is [None] or a [str]; the three ways the script
    uses such an object: its truth value (in [all([...])]), its rendering
    inside an f-string, and the object itself (the webhook URL). *)
Definition env_truthy (o : option string) : bool :=
  match o with
  | Some s => negb (String.eqb s "")
  | None => false
  end.

Definition fstr (o : option string) : string :=
  match o with
  | Some s => s
  | None => "None"
  end.

Definition env_value (o : option string) : value :=
  match o with
  | Some s => VStr s
  | None => VNone
  end.

(** The six variables [main] reads. *)
Definition required_env : list string :=
  ["CALENDLY_API_TOKEN"; "CALENDLY_ORG_URL"; "OKTA_API_TOKEN";
   "OKTA_BASE_URL"; "OKTA_CALENDLY_GROUP_ID"; "SLACK_WEBHOOK_URL"].

Declare Scope io_scope.
Delimit Scope io_scope with io.

Section Run.

(** The HTTP peers are a state machine: one request in, one outcome out. *)
Context {server : Type}.
Variable transport : server -> request -> outcome * server.

Record world : Type := {
  environ : gmap string string;
  peer : server;
  trace : list event
}.

(** State and exceptions: the final world is kept whatever the outcome. *)
Definition io (A : Type) : Type := world -> result A * world.

Definition ret {A} (a : A) : io A := fun w => (Ok a, w).

Definition bind {A B} (m : io A) (k : A -> io B) : io B :=
  fun w =>
    match m w with
    | (Ok a, w') => k a w'
    | (Raise e, w') => (Raise e, w')
    | (Diverged, w') => (Diverged, w')
    end.

Definition lift {A} (r : result A) : io A := fun w => (r, w).

Definition raise {A} (e : exn) : io A := lift (Raise e).

Notation "x <- m ;; k" := (bind m (fun x => k))
  (at level 100, m at next level, right associativity) : io_scope.
Local Open Scope io_scope.

Definition emit (ev : event) (w : world) : world :=
  {| environ := environ w; peer := peer w; trace := trace w ++ [ev] |}.

(** [print(line)] *)
Definition print (line : string) : io unit :=
  fun w => (Ok tt, emit (EvPrint line) w).

(** [os.getenv(name)] *)
Definition getenv (name : string) : io (option string) :=
  fun w => (Ok (environ w !! name), w).

Definition http (rq : request) : io response :=
  fun w =>
    let (out, peer') := transport (peer w) rq in
    let w' := {| environ := environ w; peer := peer';
                 trace := trace w ++ [EvHttp rq out] |} in
    match out with
    | inl e => (Raise e, w')
    | inr r => (Ok r, w')
    end.

(** [requests.get(url, headers=headers)] *)
Definition requests_get (url : value) (headers : list (string * string))
  : io response :=
  http {| req_method := GET; req_url := url;
          req_headers := headers; req_json := None |}.

(** [requests.post(url, json=payload)] *)
Definition requests_post (url : value) (payload : value) : io response :=
  http {| req_method := POST; req_url := url;
          req_headers := []; req_json := Some payload |}.

(** ** The script *)

(** [fetch_calendly_users]: the [while url:] loop, [fuel] bounding the
    number of pages requested. *)
Fixpoint calendly_loop (fuel : nat) (headers : list (string * string))
    (url : value) (users : list value) : io (list value) :=
  if truthy url then
    match fuel with
    | O => lift Diverged
    | S fuel' =>
        response <- requests_get url headers ;;
        _ <- lift (raise_for_status response) ;;
        data <- lift (json response) ;;
        collection <- lift (get data "collection" (VList [])) ;;
        items <- lift (iter collection) ;;
        pagination <- lift (get data "pagination" (VDict [])) ;;
        next_page <- lift (get pagination "next_page" VNone) ;;
        calendly_loop fuel' headers next_page (users ++ items)
    end
  else ret users.

(** Fetch all users in the Calendly organization. *)
Definition fetch_calendly_users (fuel : nat)
    (calendly_token calendly_org_url : option string) : io (gset string) :=
  let headers := [("Authorization", "Bearer " +:+ fstr calendly_token);
                  ("Content-Type", "application/json")] in
  let url := "https://api.calendly.com/organization_memberships?organization="
             +:+ fstr calendly_org_url in
  users <- calendly_loop fuel headers (VStr url) [] ;;
  lift (calendly_emails users).

(** [fetch_okta_group_members]: the [while url:] loop. *)
Fixpoint okta_loop (fuel : nat) (headers : list (string * string))
    (url : value) (users : gmap string value) : io (gmap string value) :=
  if truthy url then
    match fuel with
    | O => lift Diverged
    | S fuel' =>
        response <- requests_get url headers ;;
        _ <- lift (raise_for_status response) ;;
        data <- lift (json response) ;;
        members <- lift (iter data) ;;
        users' <- lift (okta_collect members users) ;;
        okta_loop fuel' headers (links_next_url response) users'
    end
  else ret users.

(** Fetch all users in the specified Okta group. *)
Definition fetch_okta_group_members (fuel : nat)
    (okta_token okta_base_url group_id : option string) : io (gset string) :=
  let headers := [("Authorization", "SSWS " +:+ fstr okta_token);
                  ("Accept", "application/json")] in
  let url := fstr okta_base_url +:+ "/groups/" +:+ fstr group_id +:+ "/users" in
  users <- okta_loop fuel headers (VStr url) ∅ ;;
  ret (dom users).

(** Send a message to Slack via webhook. *)
Definition post_to_slack (webhook_url : option string) (message : string)
  : io unit :=
  let payload := VDict [("text", VStr message)] in
  response <- requests_post (env_value webhook_url) payload ;;
  lift (raise_for_status response).

(** Main function to monitor Calendly licenses and send Slack alerts. *)
Definition main (fuel : nat) : io unit :=
  calendly_token <- getenv "CALENDLY_API_TOKEN" ;;
  calendly_org_url <- getenv "CALENDLY_ORG_URL" ;;
  okta_token <- getenv "OKTA_API_TOKEN" ;;
  okta_base_url <- getenv "OKTA_BASE_URL" ;;
  group_id <- getenv "OKTA_CALENDLY_GROUP_ID" ;;
  slack_webhook_url <- getenv "SLACK_WEBHOOK_URL" ;;
  if negb (forallb env_truthy [calendly_token; calendly_org_url; okta_token;
                               okta_base_url; group_id; slack_webhook_url])
  then raise (ValueError "Missing required environment variables.")
  else
    _ <- print "Fetching Calendly users..." ;;
    calendly_users <- fetch_calendly_users fuel calendly_token calendly_org_url ;;
    _ <- print "Fetching Okta group members..." ;;
    okta_users <- fetch_okta_group_members fuel okta_token okta_base_url group_id ;;
    _ <- print "Calculating license counts..." ;;
    let license_counts := calculate_license_counts calendly_users okta_users in
    let alert_message := alert_message license_counts in
    _ <- print "Sending alert to Slack..." ;;
    post_to_slack slack_webhook_url alert_message.

End Run.

Arguments world : clear implicits.

(** ** Vocabulary of the specification *)

(** The string stored in a member record under two nested keys
    ([user.email] for Calendly, [profile.email] for Okta), when the record
    has it. *)
Definition nested_str (k1 k2 : string) (m : value) : option string :=
  match m with
  | VDict dm =>
      match assoc k1 dm with
      | Some (VDict di) =>
          match assoc k2 di with
          | Some (VStr e) => Some e
          | _ => None
          end
      | _ => None
      end
  | _ => None
  end.

Definition raw_emails (k1 k2 : string) (members : list value) : list string :=
  omap (nested_str k1 k2) members.

(** The e-mail addresses of one page, case-normalised. *)
Definition page_emails (k1 k2 : string) (members : list value) : gset string :=
  list_to_set (lower_str <$> raw_emails k1 k2 members).

Definition has_email (k1 k2 : string) (m : value) : bool :=
  match nested_str k1 k2 m with Some _ => true | None => false end.

(** A Calendly page as the API documents it, every part optional: an object
    whose [collection], when present, is an array and whose [pagination],
    when present, is an object.  The view is the member records and the
    continuation pointer ([None] standing for an absent one). *)
Definition calendly_collection (d : list (string * value)) : option (list value) :=
  match assoc "collection" d with
  | None => Some []
  | Some (VList members) => Some members
  | Some _ => None
  end.

Definition calendly_pointer (d : list (string * value)) : option value :=
  match assoc "pagination" d with
  | None => Some VNone
  | Some (VDict p) =>
      match assoc "next_page" p with
      | None => Some VNone
      | Some v => Some v
      end
  | Some _ => None
  end.

Definition calendly_page (r : response) : option (list value * value) :=
  if is_error_status (status_code r) then None
  else
    match json_body r with
    | Some (VDict d) =>
        match calendly_collection d, calendly_pointer d with
        | Some members, Some next => Some (members, next)
        | _, _ => None
        end
    | _ => None
    end.

(** An Okta page: a JSON array of member records; the continuation pointer
    is the URL of the [rel="next"] link. *)
Definition okta_page (r : response) : option (list value * value) :=
  if is_error_status (status_code r) then None
  else
    match json_body r with
    | Some (VList members) => Some (members, links_next_url r)
    | _ => None
    end.

(** In a member record, each of [user] and [user.email] is either missing
    or of the documented type (an object, a string). *)
Definition member_shape (m : value) : bool :=
  match m with
  | VDict dm =>
      match assoc "user" dm with
      | None => true
      | Some (VDict du) =>
          match assoc "email" du with
          | None | Some (VStr _) => true
          | Some _ => false
          end
      | Some _ => false
      end
  | _ => false
  end.

Definition get_request (url : value) (headers : list (string * string))
  : request :=
  {| req_method := GET; req_url := url;
     req_headers := headers; req_json := None |}.

(** [walk view headers s url pages s']: starting in peer state [s], the
    GET of [url] and of every continuation pointer after it are answered by
    well-formed pages whose member lists are [pages], in order; the pointer
    of the last one is absent or empty (false as a condition); [s'] is the
    peer state after the last answer. *)
Inductive walk {server : Type}
    (transport : server -> request -> outcome * server)
    (view : response -> option (list value * value))
    (headers : list (string * string))
  : server -> value -> list (list value) -> server -> Prop :=
| walk_last s url r members next s' :
    truthy url = true ->
    transport s (get_request url headers) = (inr r, s') ->
    view r = Some (members, next) ->
    truthy next = false ->
    walk transport view headers s url [members] s'
| walk_more s url r members next s' pages s'' :
    truthy url = true ->
    transport s (get_request url headers) = (inr r, s') ->
    view r = Some (members, next) ->
    truthy next = true ->
    walk transport view headers s' next pages s'' ->
    walk transport view headers s url (members :: pages) s''.

Definition calendly_headers (calendly_token : option string)
  : list (string * string) :=
  [("Authorization", "Bearer " +:+ fstr calendly_token);
   ("Content-Type", "application/json")].

Definition calendly_url (calendly_org_url : option string) : value :=
  VStr ("https://api.calendly.com/organization_memberships?organization="
        +:+ fstr calendly_org_url).

Definition okta_headers (okta_token : option string)
  : list (string * string) :=
  [("Authorization", "SSWS " +:+ fstr okta_token);
   ("Accept", "application/json")].

Definition okta_url (okta_base_url group_id : option string) : value :=
  VStr (fstr okta_base_url +:+ "/groups/" +:+ fstr group_id +:+ "/users").

(** The events a computation added to the trace. *)
Definition new_events {server : Type} (w w' : world server) (evs : list event)
  : Prop :=
  trace w' = trace w ++ evs.

(** ** A scripted peer

    The peer used by the examples: a table from URL to response; its state
    counts the requests served. *)
Definition fixture (table : list (string * response)) (n : nat) (rq : request)
  : outcome * nat :=
  (match req_url rq with
   | VStr u =>
       match assoc_str u table with
       | Some r => inr r
       | None => inl RequestException
       end
   | _ => inl RequestException
   end, S n).

Definition json_page (status : Z) (body : value) (next : option string)
  : response :=
  {| status_code := status;
     json_body := Some body;
     links := match next with
              | Some u => [("next", [("url", u); ("rel", "next")])]
              | None => []
              end |}.

Definition calendly_member (email : string) : value :=
  VDict [("user", VDict [("email", VStr email); ("name", VStr "n")]);
         ("role", VStr "user")].

Definition okta_member (email status : string) : value :=
  VDict [("id", VStr "00u"); ("status", VStr status);
         ("profile", VDict [("login", VStr email); ("email", VStr email)])].

Definition calendly_body (emails : list string) (next : option string) : value :=
  VDict [("collection", VList (calendly_member <$> emails));
         ("pagination", VDict (match next with
                               | Some u => [("count", VInt 1); ("next_page", VStr u)]
                               | None => [("count", VInt 1); ("next_page", VNone)]
                               end))].

Definition env_all : gmap string string :=
  list_to_map [("CALENDLY_API_TOKEN", "tok"); ("CALENDLY_ORG_URL", "org");
               ("OKTA_API_TOKEN", "otok"); ("OKTA_BASE_URL", "https://okta");
               ("OKTA_CALENDLY_GROUP_ID", "g1");
               ("SLACK_WEBHOOK_URL", "https://hooks/x")].

Definition url_c1 : string :=
  "https://api.calendly.com/organization_memberships?organization=org".
Definition url_o1 : string := "https://okta/groups/g1/users".
Definition url_hook : string := "https://hooks/x".

Definition start (env : gmap string string) : world nat :=
  {| environ := env; peer := O; trace := [] |}.

(** The message of the ValueError of [main]. *)
Definition missing_env_error : exn :=
  ValueError "Missing required environment variables.".

(** Seventy distinct addresses. *)
Definition seventy : gset string :=
  list_to_set ((fun n : nat => "u" +:+ pretty n +:+ "@x.com") <$> seq 0 70).

(** The world after the peer has answered [rq] with [out] and moved to
    state [s']. *)
Definition answered {server : Type} (w : world server) (rq : request)
    (out : outcome) (s' : server) : world server :=
  {| environ := environ w; peer := s';
     trace := trace w ++ [EvHttp rq out] |}.

Definition all_have_email (k1 k2 : string) (pages : list (list value)) : bool :=
  forallb (forallb (has_email k1 k2)) pages.

(** A three-page fixture for each source. *)
Definition calendly_three : list (string * response) :=
  [(url_c1, json_page 200 (calendly_body ["Ann@x.com"; "bob@x.com"] (Some "c/2")) None);
   ("c/2", json_page 200 (calendly_body ["cy@x.com"] (Some "c/3")) None);
   ("c/3", json_page 200 (calendly_body ["Dee@X.com"; "bob@x.com"] None) None)].

Definition okta_three : list (string * response) :=
  [(url_o1, json_page 200 (VList [okta_member "ann@x.com" "ACTIVE"]) (Some "o/2"));
   ("o/2", json_page 200 (VList [okta_member "Eve@x.com" "SUSPENDED";
                                 okta_member "dee@x.com" "ACTIVE"]) (Some "o/3"));
   ("o/3", json_page 200 (VList [okta_member "fay@x.com" "ACTIVE"]) None)].

Definition calendly_three_members : list (list value) :=
  [calendly_member <$> ["Ann@x.com"; "bob@x.com"];
   calendly_member <$> ["cy@x.com"];
   calendly_member <$> ["Dee@X.com"; "bob@x.com"]].

Definition okta_three_members : list (list value) :=
  [[okta_member "ann@x.com" "ACTIVE"];
   [okta_member "Eve@x.com" "SUSPENDED"; okta_member "dee@x.com" "ACTIVE"];
   [okta_member "fay@x.com" "ACTIVE"]].

(** [fetch_safe m]: whatever the world, [m] issues no POST, and if one of
    its GETs is answered with an error status then [m] raises HTTPError. *)
Definition fetch_safe {server A : Type} (m : world server -> result A * world server)
  : Prop :=
  forall w, exists evs,
    new_events w (snd (m w)) evs
    /\ existsb is_post evs = false
    /\ (existsb is_failed_get evs = true ->
        exists code, fst (m w) = Raise (HTTPError code)).

(** [no_partial_alert m]: if one of the GETs of [m] is answered with an
    error status then [m] raises HTTPError and has issued no POST. *)
Definition no_partial_alert {server A : Type}
    (m : world server -> result A * world server) : Prop :=
  forall w, exists evs,
    new_events w (snd (m w)) evs
    /\ (existsb is_failed_get evs = true ->
        (exists code, fst (m w) = Raise (HTTPError code))
        /\ existsb is_post evs = false).

(** A run in which the second Okta page is answered with status 500. *)
Definition okta_fails : list (string * response) :=
  [(url_c1, json_page 200 (calendly_body ["ann@x.com"] None) None);
   (url_o1, json_page 200 (VList [okta_member "ann@x.com" "ACTIVE"]) (Some "o/2"));
   ("o/2", json_page 500 (VDict [("errorCode", VStr "E0000009")]) None);
   (url_hook, json_page 200 VNone None)].

(** An address is lowered when it is what [str.lower] returns for some
    string. *)
Definition lowered (e : string) : Prop := exists raw, e = lower_str raw.

(** Case-insensitive equality of ASCII addresses, stated without
    [str.lower]: two characters are the same letter up to case when they are
    equal, or one is a capital A-Z and the other is the small letter 32
    places after it; two addresses are the same up to case when they have
    the same length and agree character by character in that sense. *)
Definition is_upper (n : N) : bool := ((65 <=? n) && (n <=? 90))%N.

Definition same_letter (c d : ascii) : bool :=
  let n := N_of_ascii c in
  let m := N_of_ascii d in
  ((n =? m) || (is_upper n && (m =? n + 32)) || (is_upper m && (n =? m + 32)))%N.

Fixpoint same_address (a b : string) : bool :=
  match a, b with
  | EmptyString, EmptyString => true
  | String c a', String d b' => same_letter c d && same_address a' b'
  | _, _ => false
  end.

(** No capital letter A-Z occurs in the string. *)
Fixpoint no_upper (s : string) : bool :=
  match s with
  | EmptyString => true
  | String c s' => negb (is_upper (N_of_ascii c)) && no_upper s'
  end.

(** [returns m P]: whenever [m] returns a value, the value satisfies [P]. *)
Definition returns {server A : Type}
    (m : world server -> result A * world server) (P : A -> Prop) : Prop :=
  forall w a w', m w = (Ok a, w') -> P a.

(** One page per source, the same mailbox spelled in two ways. *)
Definition case_peer : list (string * response) :=
  [(url_c1, json_page 200 (calendly_body ["User@X.com"] None) None);
   (url_o1, json_page 200 (VList [okta_member "user@x.com" "ACTIVE"]) None);
   (url_hook, json_page 200 VNone None)].

(** Responses without the optional parts: an empty object, and a member
    record that has a [user] without [email]. *)
Definition bare_peer : list (string * response) :=
  [(url_c1, json_page 200 (VDict []) None)].

Definition no_email_member : value :=
  VDict [("user", VDict [("name", VStr "n")]); ("role", VStr "user")].

Definition no_email_peer : list (string * response) :=
  [(url_c1, json_page 200
              (VDict [("collection", VList [calendly_member "ann@x.com";
                                            no_email_member])])
              None)].

(** [n] distinct addresses. *)
Definition addresses (n : nat) : gset string :=
  list_to_set ((fun i : nat => "m" +:+ pretty i +:+ "@x.com") <$> seq 0 n).

(** In an Okta member record, each of [profile] and [profile.email] is
    either missing or of the documented type. *)
Definition okta_member_shape (m : value) : bool :=
  match m with
  | VDict dm =>
      match assoc "profile" dm with
      | None => true
      | Some (VDict dp) =>
          match assoc "email" dp with
          | None | Some (VStr _) => true
          | Some _ => false
          end
      | Some _ => false
      end
  | _ => false
  end.

(** A peer whose every answer is one more page: a body with one member and
    a continuation pointer, in the body and in the [Link] header. *)
Definition endless_page : response :=
  {| status_code := 200;
     json_body := Some (VDict [("collection", VList [calendly_member "a@x.com"]);
                               ("pagination", VDict [("next_page", VStr "https://next")])]);
     links := [("next", [("url", "https://next"); ("rel", "next")])] |}.

Definition endless_list_page : response :=
  {| status_code := 200;
     json_body := Some (VList [okta_member "a@x.com" "ACTIVE"]);
     links := [("next", [("url", "https://next"); ("rel", "next")])] |}.

Definition endless (page : response) (n : nat) (rq : request) : outcome * nat :=
  (inr page, S n).

(** A page with status 503, and a page whose body is not JSON. *)
Definition unavailable_peer : list (string * response) :=
  [(url_c1, json_page 503 (VDict []) None);
   (url_o1, json_page 503 (VDict []) None)].

Definition html_page : response :=
  {| status_code := 200; json_body := None; links := [] |}.

Definition html_peer : list (string * response) :=
  [(url_c1, html_page); (url_o1, html_page)].

(** An Okta page whose second record has no [profile.email]. *)
Definition okta_no_email_member : value :=
  VDict [("id", VStr "00u"); ("profile", VDict [("login", VStr "x")])].

Definition okta_no_email_peer : list (string * response) :=
  [(url_o1, json_page 200 (VList [okta_member "ann@x.com" "ACTIVE";
                                  okta_no_email_member])
                      (Some "o/2"));
   ("o/2", json_page 200 (VList [okta_member "bob@x.com" "ACTIVE"]) None)].

(** Two Calendly pages, the first with a record without [user.email]. *)
Definition calendly_late_failure : list (string * response) :=
  [(url_c1, json_page 200
              (VDict [("collection", VList [no_email_member]);
                      ("pagination", VDict [("next_page", VStr "c/2")])])
              None);
   ("c/2", json_page 200 (calendly_body ["bob@x.com"] None) None)].

(** [is_get_of headers ev]: the event is a GET request carrying exactly
    [headers] (and no body). *)
Definition is_get_of (headers : list (string * string)) (ev : event) : Prop :=
  exists url out, ev = EvHttp (get_request url headers) out.

(** [only_gets headers m]: whatever the world, every event [m] adds to the
    trace is a GET request carrying [headers]. *)
Definition only_gets {server A : Type} (headers : list (string * string))
    (m : world server -> result A * world server) : Prop :=
  forall w, exists evs,
    new_events w (snd (m w)) evs /\ Forall (is_get_of headers) evs.

(** The request [post_to_slack] sends. *)
Definition post_request (url : value) (message : string) : request :=
  {| req_method := POST; req_url := url; req_headers := [];
     req_json := Some (VDict [("text", VStr message)]) |}.

(** What a call into [requests] followed by [raise_for_status] gives. *)
Definition checked (out : outcome) : result unit :=
  match out with
  | inl e => Raise e
  | inr r => raise_for_status r
  end.

(** The configuration check of [main] on a world. *)
Definition configured {server : Type} (w : world server) : bool :=
  forallb env_truthy ((fun name => environ w !! name) <$> required_env).

(** A peer for a complete run: two Calendly pages, two Okta pages, and a
    webhook that accepts or refuses the message. *)
Definition full_peer (hook_status : Z) : list (string * response) :=
  [(url_c1, json_page 200 (calendly_body ["Ann@x.com"; "bob@x.com"] (Some "c/2")) None);
   ("c/2", json_page 200 (calendly_body ["cy@x.com"] None) None);
   (url_o1, json_page 200 (VList [okta_member "ann@x.com" "ACTIVE"]) (Some "o/2"));
   ("o/2", json_page 200 (VList [okta_member "CY@x.com" "SUSPENDED"]) None);
   (url_hook, json_page hook_status VNone None)].

(** The continuation pointer each loop reads in a response: the object
    under [pagination.next_page] of the body for Calendly ([None] when the
    body does not have that shape), the URL of the [next] link for Okta. *)
Definition calendly_next (r : response) : option value :=
  match json_body r with
  | Some (VDict d) => calendly_pointer d
  | _ => None
  end.

Definition okta_next (r : response) : option value := Some (links_next_url r).

(** [url_chain headers next url evs]: the events are GET requests carrying
    [headers]; the first one goes to [url], and each later one goes to the
    continuation pointer of the response to the one before it. *)
Inductive url_chain (headers : list (string * string))
    (next : response -> option value) : value -> list event -> Prop :=
| chain_nil url :
    url_chain headers next url []
| chain_stop url out :
    url_chain headers next url [EvHttp (get_request url headers) out]
| chain_cons url r url' evs :
    next r = Some url' ->
    url_chain headers next url' evs ->
    url_chain headers next url (EvHttp (get_request url headers) (inr r) :: evs).

(** * Properties *)

(** ** The reconciler and the message templates *)

Lemma used_is_intersection_size (A B : gset string) :
  licenses_used (calculate_license_counts A B) = Z.of_nat (size (A ∩ B)).
Proof. reflexivity. Qed.

Lemma available_is_total_minus_used (A B : gset string) :
  licenses_available (calculate_license_counts A B)
  = TOTAL_LICENSES - licenses_used (calculate_license_counts A B).
Proof. reflexivity. Qed.

Lemma templates_differ (lc lc' : license_counts) :
  overage_message lc <> normal_message lc'.
Proof.
  unfold overage_message, normal_message.
  cbn [String.append]. discriminate.
Qed.

(** C1: for all sets of e-mails A and B, [calculate_license_counts A B] is
    exactly the triple total = 65, used = |A ∩ B|, available = 65 - |A ∩ B|
    (a function of its two arguments only); for A = {a@x.com, b@x.com} and
    B = {b@x.com, c@x.com} it gives used = 1 and available = 64. *)
Theorem calculate_license_counts_spec :
  (forall A B : gset string,
      calculate_license_counts A B
      = {| total_licenses := 65;
           licenses_used := Z.of_nat (size (A ∩ B));
           licenses_available := 65 - Z.of_nat (size (A ∩ B)) |})
  /\ calculate_license_counts {[ "a@x.com"; "b@x.com" ]} {[ "b@x.com"; "c@x.com" ]}
     = {| total_licenses := 65; licenses_used := 1; licenses_available := 64 |}.
Proof.
  split.
  - intros A B. reflexivity.
  - vm_compute. reflexivity.
Qed.

(** C6: the used count is symmetric in its two arguments and at most
    min(|A|, |B|). *)
Theorem licenses_used_symmetric_bounded (A B : gset string) :
  licenses_used (calculate_license_counts A B)
  = licenses_used (calculate_license_counts B A)
  /\ licenses_used (calculate_license_counts A B)
     <= Z.of_nat (Nat.min (size A) (size B)).
Proof.
  rewrite !used_is_intersection_size. split.
  - now rewrite (comm_L (∩) A B).
  - apply Nat2Z.inj_le, Nat.min_glb; apply subseteq_size.
    + apply intersection_subseteq_l.
    + apply intersection_subseteq_r.
Qed.

(** C2: for every computed tally, available is negative exactly when used
    exceeds 65; in that case [main] builds the overage message, and when
    used is at most 65 it builds the normal message; one of the two is always
    built, and the two templates never produce the same text. *)
Theorem template_selection (A B : gset string) :
  let lc := calculate_license_counts A B in
  (licenses_available lc < 0 <-> licenses_used lc > 65)
  /\ (licenses_available lc < 0 -> alert_message lc = overage_message lc)
  /\ (licenses_used lc <= 65 -> alert_message lc = normal_message lc)
  /\ (alert_message lc = overage_message lc \/ alert_message lc = normal_message lc)
  /\ ~ (alert_message lc = overage_message lc /\ alert_message lc = normal_message lc).
Proof.
  intros lc.
  assert (Hav : licenses_available lc = 65 - licenses_used lc) by reflexivity.
  unfold alert_message, TOTAL_LICENSES.
  destruct (Z.gtb_spec (licenses_used lc) 65) as [Hgt | Hle].
  - repeat split; try lia; auto.
    intros [_ Heq]. exact (templates_differ _ _ Heq).
  - repeat split; try lia; auto.
    intros [Heq _]. symmetry in Heq. exact (templates_differ _ _ Heq).
Qed.

(** C7: when the intersection has exactly 70 e-mails, used = 70,
    available = -5, the message of [main] is the overage one and it contains
    the text "Overage: 5". *)
Theorem overage_scenario (A B : gset string) :
  size (A ∩ B) = 70%nat ->
  let lc := calculate_license_counts A B in
  licenses_used lc = 70
  /\ licenses_available lc = -5
  /\ alert_message lc = overage_message lc
  /\ contains (alert_message lc) "Overage: 5".
Proof.
  intros Hsize lc.
  assert (Hused : licenses_used lc = 70).
  { subst lc. rewrite used_is_intersection_size, Hsize. reflexivity. }
  assert (Hmsg : alert_message lc = overage_message lc).
  { unfold alert_message. rewrite Hused. reflexivity. }
  repeat split.
  - exact Hused.
  - subst lc. rewrite available_is_total_minus_used, Hused. reflexivity.
  - exact Hmsg.
  - rewrite Hmsg. unfold overage_message. rewrite Hused.
    exists (":rotating_light:calendly: *Calendly License Alert* :calendly::rotating_light:"
            +:+ nl +:+ "Used Licenses: 70" +:+ nl +:+ "Total Licenses: 65" +:+ nl).
    exists (nl +:+ "*Immediate action required to resolve the overage.*").
    subst lc. vm_compute. reflexivity.
Qed.

Lemma overage_scenario_witness :
  size (({[ "extra@x.com" ]} ∪ seventy) ∩ (seventy ∪ {[ "other@x.com" ]})) = 70%nat
  /\ contains
       (alert_message
          (calculate_license_counts ({[ "extra@x.com" ]} ∪ seventy)
                                    (seventy ∪ {[ "other@x.com" ]})))
       "Overage: 5".
Proof.
  split.
  - vm_compute. reflexivity.
  - apply (overage_scenario ({[ "extra@x.com" ]} ∪ seventy)
                            (seventy ∪ {[ "other@x.com" ]})).
    vm_compute. reflexivity.
Defined.

(** ** The configuration check of [main] *)

Section Guard.

Context {server : Type}.
Variable transport : server -> request -> outcome * server.

(** [main] reads the six variables and does nothing else when one of them is
    false as a condition. *)
Lemma main_guard_fails (fuel : nat) (w : world server) :
  forallb env_truthy ((fun name => environ w !! name) <$> required_env) = false ->
  main transport fuel w = (Raise missing_env_error, w).
Proof.
  intros Hall. unfold main, bind, getenv, raise, lift.
  cbn [fmap list_fmap required_env] in Hall.
  rewrite Hall. reflexivity.
Qed.

Lemma falsy_variable_fails_guard (w : world server) (name : string) :
  name ∈ required_env ->
  env_truthy (environ w !! name) = false ->
  forallb env_truthy ((fun name => environ w !! name) <$> required_env) = false.
Proof.
  intros Hin Hfalse.
  apply not_true_is_false. intros Hall.
  rewrite forallb_forall in Hall.
  rewrite Hall in Hfalse; [discriminate |].
  apply list_elem_of_In, list_elem_of_fmap. exists name. split; [reflexivity | exact Hin].
Qed.

(** C3: when one of the six required environment variables is absent,
    [main] raises the ValueError and the trace of the run is the trace it
    started with: no HTTP request (no fetch of either source, no webhook
    POST) was issued. *)
Theorem missing_env_aborts_before_http (fuel : nat) (w : world server)
    (name : string) :
  name ∈ required_env ->
  environ w !! name = None ->
  fst (main transport fuel w) = Raise missing_env_error
  /\ trace (snd (main transport fuel w)) = trace w.
Proof.
  intros Hin Habsent.
  rewrite (main_guard_fails fuel w).
  - split; reflexivity.
  - apply (falsy_variable_fails_guard w name Hin).
    rewrite Habsent. reflexivity.
Qed.

(** C9: the same happens when one of the six variables is set to the empty
    string: the check tests the truth of each value, not its presence. *)
Theorem empty_env_aborts_before_http (fuel : nat) (w : world server)
    (name : string) :
  name ∈ required_env ->
  environ w !! name = Some "" ->
  fst (main transport fuel w) = Raise missing_env_error
  /\ trace (snd (main transport fuel w)) = trace w.
Proof.
  intros Hin Hempty.
  rewrite (main_guard_fails fuel w).
  - split; reflexivity.
  - apply (falsy_variable_fails_guard w name Hin).
    rewrite Hempty. reflexivity.
Qed.

End Guard.

Lemma missing_env_aborts_before_http_witness :
  "OKTA_BASE_URL" ∈ required_env
  /\ environ (start (delete "OKTA_BASE_URL" env_all)) !! "OKTA_BASE_URL" = None
  /\ fst (main (fixture []) 3 (start (delete "OKTA_BASE_URL" env_all)))
     = Raise missing_env_error
  /\ trace (snd (main (fixture []) 3 (start (delete "OKTA_BASE_URL" env_all)))) = [].
Proof.
  assert (Hin : "OKTA_BASE_URL" ∈ required_env).
  { apply list_elem_of_In. simpl. tauto. }
  assert (Habsent :
    environ (start (delete "OKTA_BASE_URL" env_all)) !! "OKTA_BASE_URL" = None).
  { vm_compute. reflexivity. }
  split; [exact Hin | split; [exact Habsent |]].
  exact (missing_env_aborts_before_http (fixture []) 3
           (start (delete "OKTA_BASE_URL" env_all)) "OKTA_BASE_URL" Hin Habsent).
Defined.

Lemma empty_env_aborts_before_http_witness :
  "SLACK_WEBHOOK_URL" ∈ required_env
  /\ environ (start (<[ "SLACK_WEBHOOK_URL" := "" ]> env_all)) !! "SLACK_WEBHOOK_URL"
     = Some ""
  /\ fst (main (fixture []) 3 (start (<[ "SLACK_WEBHOOK_URL" := "" ]> env_all)))
     = Raise missing_env_error
  /\ trace (snd (main (fixture []) 3 (start (<[ "SLACK_WEBHOOK_URL" := "" ]> env_all))))
     = [].
Proof.
  assert (Hin : "SLACK_WEBHOOK_URL" ∈ required_env).
  { apply list_elem_of_In. simpl. tauto. }
  assert (Hempty :
    environ (start (<[ "SLACK_WEBHOOK_URL" := "" ]> env_all)) !! "SLACK_WEBHOOK_URL"
    = Some "").
  { vm_compute. reflexivity. }
  split; [exact Hin | split; [exact Hempty |]].
  exact (empty_env_aborts_before_http (fixture []) 3
           (start (<[ "SLACK_WEBHOOK_URL" := "" ]> env_all)) "SLACK_WEBHOOK_URL"
           Hin Hempty).
Defined.

(** ** Reading one page *)

Lemma error_status_raises (r : response) :
  is_error_status (status_code r) = true ->
  raise_for_status r = Raise (HTTPError (status_code r)).
Proof. intros H. unfold raise_for_status. rewrite H. reflexivity. Qed.

Lemma good_status_passes (r : response) :
  is_error_status (status_code r) = false -> raise_for_status r = Ok tt.
Proof. intros H. unfold raise_for_status. rewrite H. reflexivity. Qed.

(** What the statements of the Calendly loop compute on a well-formed page. *)
Lemma calendly_page_reads (r : response) (members : list value) (next : value) :
  calendly_page r = Some (members, next) ->
  raise_for_status r = Ok tt
  /\ exists d collection pagination,
      json r = Ok (VDict d)
      /\ get (VDict d) "collection" (VList []) = Ok collection
      /\ iter collection = Ok members
      /\ get (VDict d) "pagination" (VDict []) = Ok pagination
      /\ get pagination "next_page" VNone = Ok next.
Proof.
  unfold calendly_page, json.
  destruct (is_error_status (status_code r)) eqn:Hst; [discriminate |].
  destruct (json_body r) as [[| | | | |d] |]; try discriminate.
  unfold calendly_collection, calendly_pointer. cbn [get].
  intros H. split; [now apply good_status_passes |].
  exists d.
  destruct (assoc "collection" d) as [[| | | |l|] |]; try discriminate;
    (destruct (assoc "pagination" d) as [[| | | | |p] |] eqn:Hp; try discriminate;
     [ destruct (assoc "next_page" p) eqn:Hn | ];
     inversion H; subst; eexists; eexists;
     repeat split; cbn [get iter]; try rewrite Hn; reflexivity).
Qed.

Lemma okta_page_reads (r : response) (members : list value) (next : value) :
  okta_page r = Some (members, next) ->
  raise_for_status r = Ok tt
  /\ json r = Ok (VList members)
  /\ links_next_url r = next.
Proof.
  unfold okta_page, json.
  destruct (is_error_status (status_code r)) eqn:Hst; [discriminate |].
  destruct (json_body r) as [[| | | |l|] |]; try discriminate.
  intros H. inversion H; subst.
  split; [now apply good_status_passes |]. split; reflexivity.
Qed.

(** ** The set comprehension and the dict of the two fetchers *)

Lemma nested_str_getitem (k1 k2 : string) (m : value) (e : string) :
  nested_str k1 k2 m = Some e ->
  rbind (getitem m k1) (fun inner => rbind (getitem inner k2) lower)
  = Ok (lower_str e).
Proof.
  unfold nested_str. destruct m as [| | | | |dm]; try discriminate.
  cbn [getitem].
  destruct (assoc k1 dm) as [[| | | | |di] |]; try discriminate.
  cbn [rbind getitem].
  destruct (assoc k2 di) as [[| | |s| |] |]; try discriminate.
  intros H. inversion H; subst. reflexivity.
Qed.

Lemma has_email_inv (k1 k2 : string) (m : value) :
  has_email k1 k2 m = true -> exists e, nested_str k1 k2 m = Some e.
Proof.
  unfold has_email. destruct (nested_str k1 k2 m) as [e |]; [eauto | discriminate].
Qed.

Lemma page_emails_cons (k1 k2 : string) (m : value) (e : string)
    (members : list value) :
  nested_str k1 k2 m = Some e ->
  page_emails k1 k2 (m :: members)
  = {[ lower_str e ]} ∪ page_emails k1 k2 members.
Proof.
  intros H. unfold page_emails, raw_emails. cbn [omap list_omap].
  rewrite H. reflexivity.
Qed.

Lemma page_emails_app (k1 k2 : string) (l1 l2 : list value) :
  page_emails k1 k2 (l1 ++ l2) = page_emails k1 k2 l1 ∪ page_emails k1 k2 l2.
Proof.
  unfold page_emails, raw_emails.
  rewrite omap_app, fmap_app, list_to_set_app_L. reflexivity.
Qed.

Lemma page_emails_concat (k1 k2 : string) (pages : list (list value)) :
  page_emails k1 k2 (List.concat pages) = ⋃ (page_emails k1 k2 <$> pages).
Proof.
  induction pages as [| p pages IH]; [reflexivity |].
  cbn [List.concat fmap list_fmap union_list foldr].
  rewrite page_emails_app, IH. reflexivity.
Qed.

(** When every record has its address, the comprehension returns the set of
    the case-normalised addresses. *)
Lemma calendly_emails_ok (users : list value) :
  forallb (has_email "user" "email") users = true ->
  calendly_emails users = Ok (page_emails "user" "email" users).
Proof.
  induction users as [| u users IH]; [reflexivity |].
  cbn [forallb]. intros [Hu Hrest]%andb_prop.
  destruct (has_email_inv _ _ _ Hu) as [e He].
  pose proof (nested_str_getitem _ _ _ _ He) as Hget.
  cbn [calendly_emails].
  destruct (getitem u "user") as [usr | |]; try discriminate.
  cbn [rbind] in Hget |- *.
  destruct (getitem usr "email") as [em | |]; try discriminate.
  cbn [rbind] in Hget |- *. rewrite Hget. cbn [rbind].
  rewrite (IH Hrest). cbn [rbind].
  rewrite (page_emails_cons _ _ _ _ _ He). reflexivity.
Qed.

(** The loop body of the Okta fetcher adds the addresses of the page to the
    keys of the dict. *)
Lemma okta_collect_ok (members : list value) (users : gmap string value) :
  forallb (has_email "profile" "email") members = true ->
  exists users',
    okta_collect members users = Ok users'
    /\ dom users' = dom users ∪ page_emails "profile" "email" members.
Proof.
  revert users. induction members as [| m members IH]; intros users.
  - intros _. exists users. split; [reflexivity |].
    unfold page_emails. cbn. now rewrite (right_id_L ∅ (∪)).
  - cbn [forallb]. intros [Hm Hrest]%andb_prop.
    destruct (has_email_inv _ _ _ Hm) as [e He].
    pose proof (nested_str_getitem _ _ _ _ He) as Hget.
    cbn [okta_collect].
    destruct (getitem m "profile") as [profile | |]; try discriminate.
    cbn [rbind] in Hget |- *.
    destruct (getitem profile "email") as [em | |]; try discriminate.
    cbn [rbind] in Hget |- *. rewrite Hget. cbn [rbind].
    destruct (IH (<[ lower_str e := m ]> users) Hrest) as (users' & Hrun & Hdom).
    exists users'. split; [exact Hrun |].
    rewrite Hdom, dom_insert_L, (page_emails_cons _ _ _ _ _ He).
    rewrite (assoc_L (∪)), (comm_L (∪) {[ lower_str e ]} (dom users)).
    reflexivity.
Qed.

(** ** The pagination loops *)

Section Pagination.

Context {server : Type}.
Variable transport : server -> request -> outcome * server.

Lemma http_answered (w : world server) (rq : request) (out : outcome)
    (s' : server) :
  transport (peer w) rq = (out, s') ->
  http transport rq w
  = (match out with inl e => Raise e | inr r => Ok r end, answered w rq out s').
Proof.
  intros H. unfold http. rewrite H. destruct out; reflexivity.
Qed.

(** One turn of the Calendly loop on a well-formed page. *)
Lemma calendly_loop_step (fuel : nat) (headers : list (string * string))
    (url : value) (users : list value) (w : world server)
    (r : response) (s' : server) (members : list value) (next : value) :
  truthy url = true ->
  transport (peer w) (get_request url headers) = (inr r, s') ->
  calendly_page r = Some (members, next) ->
  calendly_loop transport (S fuel) headers url users w
  = calendly_loop transport fuel headers next (users ++ members)
      (answered w (get_request url headers) (inr r) s').
Proof.
  intros Hurl Hget Hpage.
  destruct (calendly_page_reads _ _ _ Hpage)
    as (Hst & d & c & p & Hjson & Hc & Hiter & Hp & Hnext).
  cbn [calendly_loop]. rewrite Hurl.
  unfold bind at 1. unfold requests_get. fold (get_request url headers).
  rewrite (http_answered _ _ _ _ Hget).
  unfold bind, lift.
  rewrite Hst, Hjson, Hc, Hiter, Hp, Hnext. reflexivity.
Qed.

(** One turn of the Okta loop on a well-formed page. *)
Lemma okta_loop_step (fuel : nat) (headers : list (string * string))
    (url : value) (users users' : gmap string value) (w : world server)
    (r : response) (s' : server) (members : list value) (next : value) :
  truthy url = true ->
  transport (peer w) (get_request url headers) = (inr r, s') ->
  okta_page r = Some (members, next) ->
  okta_collect members users = Ok users' ->
  okta_loop transport (S fuel) headers url users w
  = okta_loop transport fuel headers next users'
      (answered w (get_request url headers) (inr r) s').
Proof.
  intros Hurl Hget Hpage Hcollect.
  destruct (okta_page_reads _ _ _ Hpage) as (Hst & Hjson & Hnext).
  cbn [okta_loop]. rewrite Hurl.
  unfold bind at 1. unfold requests_get. fold (get_request url headers).
  rewrite (http_answered _ _ _ _ Hget).
  unfold bind, lift.
  rewrite Hst, Hjson. cbn [iter]. rewrite Hcollect, Hnext. reflexivity.
Qed.

Lemma loop_stops_calendly (fuel : nat) (headers : list (string * string))
    (url : value) (users : list value) (w : world server) :
  truthy url = false ->
  calendly_loop transport fuel headers url users w = (Ok users, w).
Proof. intros H. destruct fuel; cbn [calendly_loop]; rewrite H; reflexivity. Qed.

Lemma loop_stops_okta (fuel : nat) (headers : list (string * string))
    (url : value) (users : gmap string value) (w : world server) :
  truthy url = false ->
  okta_loop transport fuel headers url users w = (Ok users, w).
Proof. intros H. destruct fuel; cbn [okta_loop]; rewrite H; reflexivity. Qed.

(** Along a walk the Calendly loop returns, with any fuel that covers the
    pages, the member records of all the pages in order. *)
Lemma calendly_loop_walk (headers : list (string * string)) (s : server)
    (url : value) (pages : list (list value)) (s' : server) :
  walk transport calendly_page headers s url pages s' ->
  forall (fuel : nat) (users : list value) (w : world server),
    peer w = s ->
    (length pages <= fuel)%nat ->
    exists w',
      calendly_loop transport fuel headers url users w
      = (Ok (users ++ List.concat pages), w')
      /\ peer w' = s'
      /\ environ w' = environ w
      /\ length (trace w') = (length (trace w) + length pages)%nat.
Proof.
  induction 1 as [s url r members next s' Hurl Hget Hpage Hnext
                 | s url r members next s' pages s'' Hurl Hget Hpage Hnext _ IH];
    intros fuel users w Hpeer Hfuel; subst s;
    (destruct fuel as [| fuel]; [cbn in Hfuel; lia |]);
    rewrite (calendly_loop_step _ _ _ _ _ _ _ _ _ Hurl Hget Hpage).
  - rewrite (loop_stops_calendly _ _ _ _ _ Hnext).
    eexists. split; [| split; [| split]].
    + cbn [List.concat]. rewrite app_nil_r. reflexivity.
    + reflexivity.
    + reflexivity.
    + cbn [answered trace]. rewrite length_app. reflexivity.
  - destruct (IH fuel (users ++ members)
                (answered w (get_request url headers) (inr r) s'))
      as (w' & Hrun & Hpeer' & Henv & Hlen).
    + reflexivity.
    + cbn in Hfuel. lia.
    + exists w'. split; [| split; [| split]].
      * rewrite Hrun. cbn [List.concat]. rewrite app_assoc. reflexivity.
      * exact Hpeer'.
      * exact Henv.
      * rewrite Hlen. cbn [answered trace]. rewrite length_app. cbn. lia.
Qed.

Lemma okta_loop_walk (headers : list (string * string)) (s : server)
    (url : value) (pages : list (list value)) (s' : server) :
  walk transport okta_page headers s url pages s' ->
  all_have_email "profile" "email" pages = true ->
  forall (fuel : nat) (users : gmap string value) (w : world server),
    peer w = s ->
    (length pages <= fuel)%nat ->
    exists users' w',
      okta_loop transport fuel headers url users w = (Ok users', w')
      /\ dom users' = dom users ∪ ⋃ (page_emails "profile" "email" <$> pages)
      /\ peer w' = s'
      /\ environ w' = environ w
      /\ length (trace w') = (length (trace w) + length pages)%nat.
Proof.
  induction 1 as [s url r members next s' Hurl Hget Hpage Hnext
                 | s url r members next s' pages s'' Hurl Hget Hpage Hnext _ IH];
    cbn [all_have_email forallb]; intros [Hmem Hall]%andb_prop;
    intros fuel users w Hpeer Hfuel; subst s;
    (destruct fuel as [| fuel]; [cbn in Hfuel; lia |]);
    destruct (okta_collect_ok members users Hmem) as (users1 & Hcollect & Hdom);
    rewrite (okta_loop_step _ _ _ _ _ _ _ _ _ _ Hurl Hget Hpage Hcollect).
  - rewrite (loop_stops_okta _ _ _ _ _ Hnext).
    eexists. eexists. split; [reflexivity | split; [| split; [| split]]].
    + rewrite Hdom. cbn [fmap list_fmap union_list foldr].
      now rewrite (right_id_L ∅ (∪)).
    + reflexivity.
    + reflexivity.
    + cbn [answered trace]. rewrite length_app. reflexivity.
  - destruct (IH Hall fuel users1
                (answered w (get_request url headers) (inr r) s'))
      as (users' & w' & Hrun & Hdom' & Hpeer' & Henv & Hlen).
    + reflexivity.
    + cbn in Hfuel. lia.
    + exists users', w'. split; [exact Hrun | split; [| split; [| split]]].
      * rewrite Hdom', Hdom. cbn [fmap list_fmap union_list foldr].
        now rewrite (assoc_L (∪)).
      * exact Hpeer'.
      * exact Henv.
      * rewrite Hlen. cbn [answered trace]. rewrite length_app. cbn. lia.
Qed.

(** The Calendly fetcher along a walk. *)
Lemma fetch_calendly_users_walk (fuel : nat)
    (calendly_token calendly_org_url : option string) (w : world server)
    (pages : list (list value)) (s' : server) :
  walk transport calendly_page (calendly_headers calendly_token)
       (peer w) (calendly_url calendly_org_url) pages s' ->
  all_have_email "user" "email" pages = true ->
  (length pages <= fuel)%nat ->
  exists w',
    fetch_calendly_users transport fuel calendly_token calendly_org_url w
    = (Ok (⋃ (page_emails "user" "email" <$> pages)), w')
    /\ peer w' = s'
    /\ environ w' = environ w
    /\ length (trace w') = (length (trace w) + length pages)%nat.
Proof.
  intros Hwalk Hall Hfuel.
  destruct (calendly_loop_walk _ _ _ _ _ Hwalk fuel [] w eq_refl Hfuel)
    as (w' & Hrun & Hpeer & Henv & Hlen).
  exists w'. unfold fetch_calendly_users, bind.
  fold (calendly_headers calendly_token). fold (calendly_url calendly_org_url).
  rewrite Hrun. cbn [app]. unfold lift.
  rewrite calendly_emails_ok, page_emails_concat.
  - repeat split; assumption.
  - unfold all_have_email in Hall. clear -Hall.
    induction pages as [| p pages IH]; [reflexivity |].
    cbn [forallb List.concat] in Hall |- *.
    apply andb_prop in Hall as [Hp Hrest].
    rewrite forallb_app, Hp. now apply IH.
Qed.

(** The Okta fetcher along a walk. *)
Lemma fetch_okta_group_members_walk (fuel : nat)
    (okta_token okta_base_url group_id : option string) (w : world server)
    (pages : list (list value)) (s' : server) :
  walk transport okta_page (okta_headers okta_token)
       (peer w) (okta_url okta_base_url group_id) pages s' ->
  all_have_email "profile" "email" pages = true ->
  (length pages <= fuel)%nat ->
  exists w',
    fetch_okta_group_members transport fuel okta_token okta_base_url group_id w
    = (Ok (⋃ (page_emails "profile" "email" <$> pages)), w')
    /\ peer w' = s'
    /\ environ w' = environ w
    /\ length (trace w') = (length (trace w) + length pages)%nat.
Proof.
  intros Hwalk Hall Hfuel.
  destruct (okta_loop_walk _ _ _ _ _ Hwalk Hall fuel ∅ w eq_refl Hfuel)
    as (users' & w' & Hrun & Hdom & Hpeer & Henv & Hlen).
  exists w'. unfold fetch_okta_group_members, bind.
  fold (okta_headers okta_token). fold (okta_url okta_base_url group_id).
  rewrite Hrun. unfold ret. rewrite Hdom, dom_empty_L, (left_id_L ∅ (∪)).
  repeat split; assumption.
Qed.

(** C4: when the responses to the first request and to each continuation
    pointer are well-formed pages and the pointer of the last one is absent
    or empty, each fetcher returns (with any fuel covering the number of
    pages, so the loop terminates), after exactly one request per page, the
    union of the case-normalised member addresses of all the pages. *)
Theorem pagination_terminates_and_accumulates :
  (forall (fuel : nat) (calendly_token calendly_org_url : option string)
          (w : world server) (pages : list (list value)) (s' : server),
      walk transport calendly_page (calendly_headers calendly_token)
           (peer w) (calendly_url calendly_org_url) pages s' ->
      all_have_email "user" "email" pages = true ->
      (length pages <= fuel)%nat ->
      exists w',
        fetch_calendly_users transport fuel calendly_token calendly_org_url w
        = (Ok (⋃ (page_emails "user" "email" <$> pages)), w')
        /\ length (trace w') = (length (trace w) + length pages)%nat)
  /\ (forall (fuel : nat) (okta_token okta_base_url group_id : option string)
             (w : world server) (pages : list (list value)) (s' : server),
         walk transport okta_page (okta_headers okta_token)
              (peer w) (okta_url okta_base_url group_id) pages s' ->
         all_have_email "profile" "email" pages = true ->
         (length pages <= fuel)%nat ->
         exists w',
           fetch_okta_group_members transport fuel okta_token okta_base_url
                                    group_id w
           = (Ok (⋃ (page_emails "profile" "email" <$> pages)), w')
           /\ length (trace w') = (length (trace w) + length pages)%nat).
Proof.
  split.
  - intros fuel token org w pages s' Hwalk Hall Hfuel.
    destruct (fetch_calendly_users_walk fuel token org w pages s' Hwalk Hall Hfuel)
      as (w' & Hrun & _ & _ & Hlen).
    exists w'. split; assumption.
  - intros fuel token base gid w pages s' Hwalk Hall Hfuel.
    destruct (fetch_okta_group_members_walk fuel token base gid w pages s'
                Hwalk Hall Hfuel) as (w' & Hrun & _ & _ & Hlen).
    exists w'. split; assumption.
Qed.

End Pagination.

(** The walks of the two three-page fixtures. *)
Lemma calendly_three_walk :
  walk (fixture calendly_three) calendly_page (calendly_headers (Some "tok"))
       0%nat (calendly_url (Some "org")) calendly_three_members 3%nat.
Proof.
  eapply walk_more; [reflexivity | reflexivity | reflexivity | reflexivity |].
  eapply walk_more; [reflexivity | reflexivity | reflexivity | reflexivity |].
  eapply walk_last; reflexivity.
Qed.

Lemma okta_three_walk :
  walk (fixture okta_three) okta_page (okta_headers (Some "otok"))
       0%nat (okta_url (Some "https://okta") (Some "g1")) okta_three_members 3%nat.
Proof.
  eapply walk_more; [reflexivity | reflexivity | reflexivity | reflexivity |].
  eapply walk_more; [reflexivity | reflexivity | reflexivity | reflexivity |].
  eapply walk_last; reflexivity.
Qed.

Lemma pagination_terminates_and_accumulates_witness :
  (exists w',
      fetch_calendly_users (fixture calendly_three) 3 (Some "tok") (Some "org")
                           (start env_all)
      = (Ok (⋃ (page_emails "user" "email" <$> calendly_three_members)), w')
      /\ length (trace w') = 3%nat)
  /\ (exists w',
         fetch_okta_group_members (fixture okta_three) 7 (Some "otok")
                                  (Some "https://okta") (Some "g1") (start env_all)
         = (Ok (⋃ (page_emails "profile" "email" <$> okta_three_members)), w')
         /\ length (trace w') = 3%nat).
Proof.
  split.
  - apply (proj1 (pagination_terminates_and_accumulates (fixture calendly_three))
             3%nat (Some "tok") (Some "org") (start env_all)
             calendly_three_members 3%nat).
    + exact calendly_three_walk.
    + reflexivity.
    + cbn. lia.
  - apply (proj2 (pagination_terminates_and_accumulates (fixture okta_three))
             7%nat (Some "otok") (Some "https://okta") (Some "g1") (start env_all)
             okta_three_members 3%nat).
    + exact okta_three_walk.
    + reflexivity.
    + cbn. lia.
Defined.

(** The three-page Calendly fixture yields the addresses of all three
    pages. *)
Example calendly_three_result :
  fst (fetch_calendly_users (fixture calendly_three) 3 (Some "tok") (Some "org")
                            (start env_all))
  = Ok {[ "ann@x.com"; "bob@x.com"; "cy@x.com"; "dee@x.com" ]}.
Proof. vm_compute. reflexivity. Qed.

(** ** Failed fetches and the webhook *)

Section Abort.

Context {server : Type}.
Variable transport : server -> request -> outcome * server.

Lemma fetch_safe_lift {A} (r : result A) : fetch_safe (server := server) (lift r).
Proof.
  intros w. exists []. unfold new_events, lift. cbn [fst snd existsb].
  rewrite app_nil_r. split; [reflexivity | split; [reflexivity | discriminate]].
Qed.

Lemma fetch_safe_getenv (name : string) : fetch_safe (server := server) (getenv name).
Proof.
  intros w. exists []. unfold new_events, getenv. cbn [fst snd existsb].
  rewrite app_nil_r. split; [reflexivity | split; [reflexivity | discriminate]].
Qed.

Lemma fetch_safe_print (line : string) : fetch_safe (server := server) (print line).
Proof.
  intros w. exists [EvPrint line]. unfold new_events, print, emit.
  cbn. split; [reflexivity | split; [reflexivity | discriminate]].
Qed.

Lemma fetch_safe_bind {A B} (m : io A) (k : A -> io B) :
  fetch_safe (server := server) m ->
  (forall a, fetch_safe (k a)) ->
  fetch_safe (bind m k).
Proof.
  intros Hm Hk w. destruct (Hm w) as (evs1 & Hev1 & Hpost1 & Hfail1).
  unfold bind, new_events in *.
  destruct (m w) as [[a | e |] w1] eqn:Hrun; cbn [fst snd] in *.
  - destruct (Hk a w1) as (evs2 & Hev2 & Hpost2 & Hfail2).
    exists (evs1 ++ evs2). unfold new_events in Hev2.
    rewrite Hev2, Hev1, app_assoc, !existsb_app, Hpost1, Hpost2.
    split; [reflexivity | split; [reflexivity |]].
    intros [H1 | H2]%orb_prop.
    + destruct (Hfail1 H1) as [code Hcode]. discriminate.
    + exact (Hfail2 H2).
  - exists evs1. split; [exact Hev1 | split; [exact Hpost1 |]].
    intros H. destruct (Hfail1 H) as [code Hcode].
    exists code. inversion Hcode. reflexivity.
  - exists evs1. split; [exact Hev1 | split; [exact Hpost1 |]].
    intros H. destruct (Hfail1 H) as [code Hcode]. discriminate.
Qed.

(** A GET followed by [raise_for_status]. *)
Lemma fetch_safe_get {A} (url : value) (headers : list (string * string))
    (k : response -> io A) :
  (forall r, fetch_safe (k r)) ->
  fetch_safe (server := server)
    (bind (requests_get transport url headers)
          (fun r => bind (lift (raise_for_status r)) (fun _ => k r))).
Proof.
  intros Hk w. unfold bind, requests_get, http, lift, new_events.
  destruct (transport (peer w) _) as [[e | r] s'] eqn:Hget; cbn [fst snd trace].
  - eexists. split; [reflexivity |]. cbn. split; [reflexivity | discriminate].
  - unfold raise_for_status.
    destruct (is_error_status (status_code r)) eqn:Hst; cbn [fst snd trace].
    + eexists. split; [reflexivity |]. cbn. split; [reflexivity | eauto].
    + match goal with
      | |- context [k r ?w1] =>
          destruct (Hk r w1) as (evs & Hev & Hpost & Hfail)
      end.
      unfold new_events in Hev. cbn [trace] in Hev.
      eexists (_ :: evs). rewrite Hev, <- app_assoc. cbn [app].
      split; [reflexivity |]. cbn [existsb is_post is_failed_get req_method].
      rewrite Hst, Hpost. cbn [orb]. split; [reflexivity | exact Hfail].
Qed.

Lemma fetch_safe_calendly_loop (fuel : nat) (headers : list (string * string))
    (url : value) (users : list value) :
  fetch_safe (calendly_loop transport fuel headers url users).
Proof.
  revert url users. induction fuel as [| fuel IH]; intros url users;
    cbn [calendly_loop]; destruct (truthy url);
    try (apply (fetch_safe_lift (Ok users)));
    try (apply fetch_safe_lift).
  apply fetch_safe_get. intros r.
  repeat (apply fetch_safe_bind; [apply fetch_safe_lift | intros ?]).
  apply IH.
Qed.

Lemma fetch_safe_okta_loop (fuel : nat) (headers : list (string * string))
    (url : value) (users : gmap string value) :
  fetch_safe (okta_loop transport fuel headers url users).
Proof.
  revert url users. induction fuel as [| fuel IH]; intros url users;
    cbn [okta_loop]; destruct (truthy url);
    try (apply (fetch_safe_lift (Ok users)));
    try (apply fetch_safe_lift).
  apply fetch_safe_get. intros r.
  repeat (apply fetch_safe_bind; [apply fetch_safe_lift | intros ?]).
  apply IH.
Qed.

Lemma fetch_safe_calendly (fuel : nat) (token org : option string) :
  fetch_safe (fetch_calendly_users transport fuel token org).
Proof.
  unfold fetch_calendly_users. apply fetch_safe_bind.
  - apply fetch_safe_calendly_loop.
  - intros users. apply fetch_safe_lift.
Qed.

Lemma fetch_safe_okta (fuel : nat) (token base gid : option string) :
  fetch_safe (fetch_okta_group_members transport fuel token base gid).
Proof.
  unfold fetch_okta_group_members. apply fetch_safe_bind.
  - apply fetch_safe_okta_loop.
  - intros users. apply (fetch_safe_lift (Ok (dom users))).
Qed.

Lemma fetch_safe_no_partial_alert {A} (m : io A) :
  fetch_safe (server := server) m -> no_partial_alert m.
Proof.
  intros Hm w. destruct (Hm w) as (evs & Hev & Hpost & Hfail).
  exists evs. split; [exact Hev |]. intros H. split; [exact (Hfail H) | exact Hpost].
Qed.

Lemma no_partial_alert_bind {A B} (m : io A) (k : A -> io B) :
  fetch_safe (server := server) m ->
  (forall a, no_partial_alert (k a)) ->
  no_partial_alert (bind m k).
Proof.
  intros Hm Hk w. destruct (Hm w) as (evs1 & Hev1 & Hpost1 & Hfail1).
  unfold bind, new_events in *.
  destruct (m w) as [[a | e |] w1] eqn:Hrun; cbn [fst snd] in *.
  - destruct (Hk a w1) as (evs2 & Hev2 & Hfail2).
    exists (evs1 ++ evs2). unfold new_events in Hev2.
    rewrite Hev2, Hev1, app_assoc, !existsb_app, Hpost1.
    split; [reflexivity |].
    intros [H1 | H2]%orb_prop.
    + destruct (Hfail1 H1) as [code Hcode]. discriminate.
    + exact (Hfail2 H2).
  - exists evs1. split; [exact Hev1 |]. intros H. split; [| exact Hpost1].
    destruct (Hfail1 H) as [code Hcode].
    exists code. inversion Hcode. reflexivity.
  - exists evs1. split; [exact Hev1 |]. intros H.
    destruct (Hfail1 H) as [code Hcode]. discriminate.
Qed.

Lemma no_partial_alert_post (url : option string) (message : string) :
  no_partial_alert (post_to_slack transport url message).
Proof.
  intros w. unfold post_to_slack, bind, requests_post, http, lift, new_events.
  destruct (transport (peer w) _) as [[e | r] s'] eqn:Hpost; cbn [fst snd trace];
    (eexists; split; [reflexivity |]); cbn; discriminate.
Qed.

Lemma no_partial_alert_main (fuel : nat) : no_partial_alert (main transport fuel).
Proof.
  unfold main.
  do 6 (apply no_partial_alert_bind; [apply fetch_safe_getenv | intros ?]).
  match goal with |- context [if ?c then _ else _] => destruct c end.
  - apply fetch_safe_no_partial_alert, fetch_safe_lift.
  - apply no_partial_alert_bind; [apply fetch_safe_print | intros _].
    apply no_partial_alert_bind; [apply fetch_safe_calendly | intros A].
    apply no_partial_alert_bind; [apply fetch_safe_print | intros _].
    apply no_partial_alert_bind; [apply fetch_safe_okta | intros B].
    apply no_partial_alert_bind; [apply fetch_safe_print | intros _].
    cbv zeta.
    apply no_partial_alert_bind; [apply fetch_safe_print | intros _].
    apply no_partial_alert_post.
Qed.

(** C8: in a run of [main], if a fetch of either source is answered with a
    status for which [raise_for_status] raises, then [main] raises that
    HTTPError and the run contains no POST: no alert is sent. *)
Theorem failed_fetch_sends_no_alert (fuel : nat) (w : world server)
    (evs : list event) :
  new_events w (snd (main transport fuel w)) evs ->
  existsb is_failed_get evs = true ->
  (exists code, fst (main transport fuel w) = Raise (HTTPError code))
  /\ existsb is_post evs = false.
Proof.
  intros Hev Hfailed.
  destruct (no_partial_alert_main fuel w) as (evs' & Hev' & Hspec).
  unfold new_events in *. rewrite Hev in Hev'.
  apply app_inv_head in Hev'. subst evs'. exact (Hspec Hfailed).
Qed.

End Abort.

Lemma failed_fetch_sends_no_alert_witness :
  let run := main (fixture okta_fails) 5 (start env_all) in
  new_events (start env_all) (snd run) (trace (snd run))
  /\ existsb is_failed_get (trace (snd run)) = true
  /\ fst run = Raise (HTTPError 500)
  /\ existsb is_post (trace (snd run)) = false.
Proof.
  intros run.
  assert (Hev : new_events (start env_all) (snd run) (trace (snd run))).
  { reflexivity. }
  assert (Hfailed : existsb is_failed_get (trace (snd run)) = true).
  { vm_compute. reflexivity. }
  split; [exact Hev | split; [exact Hfailed |]].
  destruct (failed_fetch_sends_no_alert (fixture okta_fails) 5 (start env_all)
              (trace (snd run)) Hev Hfailed) as [_ Hnopost].
  split; [vm_compute; reflexivity | exact Hnopost].
Defined.

(** ** Case normalisation *)

(** *** What lower-casing does to an ASCII address *)

Lemma lower_str_ascii (a : string) :
  is_ascii a = true -> lower_str a = lower_ascii_str a.
Proof. intros H. unfold lower_str. rewrite H. reflexivity. Qed.

Lemma lower_ascii_code (c : ascii) :
  N_of_ascii (lower_ascii c)
  = if is_upper (N_of_ascii c) then (N_of_ascii c + 32)%N else N_of_ascii c.
Proof.
  unfold lower_ascii, is_upper.
  destruct ((65 <=? N_of_ascii c)%N && (N_of_ascii c <=? 90)%N) eqn:Hup;
    [| reflexivity].
  apply andb_prop in Hup as [_ Hle%N.leb_le].
  apply N_ascii_embedding. lia.
Qed.

Lemma ascii_code_inj (c d : ascii) : N_of_ascii c = N_of_ascii d -> c = d.
Proof.
  intros H. rewrite <- (ascii_N_embedding c), <- (ascii_N_embedding d).
  now rewrite H.
Qed.

Lemma lower_ascii_same_letter (c d : ascii) :
  lower_ascii c = lower_ascii d <-> same_letter c d = true.
Proof.
  assert (Hiff : lower_ascii c = lower_ascii d
                 <-> N_of_ascii (lower_ascii c) = N_of_ascii (lower_ascii d)).
  { split; [now intros -> | apply ascii_code_inj]. }
  rewrite Hiff, !lower_ascii_code. unfold same_letter, is_upper.
  destruct (N.leb_spec 65 (N_of_ascii c)), (N.leb_spec (N_of_ascii c) 90),
           (N.leb_spec 65 (N_of_ascii d)), (N.leb_spec (N_of_ascii d) 90);
    cbn [andb orb];
    rewrite ?orb_false_r, ?orb_true_iff, ?N.eqb_eq; lia.
Qed.

Lemma lower_ascii_not_upper (c : ascii) :
  is_upper (N_of_ascii (lower_ascii c)) = false.
Proof.
  rewrite lower_ascii_code. unfold is_upper.
  destruct (N.leb_spec 65 (N_of_ascii c)), (N.leb_spec (N_of_ascii c) 90);
    cbn [andb];
    apply andb_false_iff; rewrite !N.leb_gt; lia.
Qed.

Lemma lower_ascii_str_same_address (a b : string) :
  lower_ascii_str a = lower_ascii_str b <-> same_address a b = true.
Proof.
  revert b. induction a as [| c a IH]; intros [| d b]; cbn [lower_ascii_str same_address].
  - split; reflexivity.
  - split; discriminate.
  - split; discriminate.
  - rewrite andb_true_iff, <- IH, <- lower_ascii_same_letter. split.
    + intros H. inversion H. auto.
    + intros [-> ->]. reflexivity.
Qed.

Lemma lower_ascii_str_no_upper (a : string) :
  no_upper (lower_ascii_str a) = true.
Proof.
  induction a as [| c a IH]; [reflexivity |].
  cbn [lower_ascii_str no_upper]. now rewrite lower_ascii_not_upper, IH.
Qed.

Lemma lower_ascii_str_idempotent (a : string) :
  lower_ascii_str (lower_ascii_str a) = lower_ascii_str a.
Proof.
  induction a as [| c a IH]; [reflexivity |].
  cbn [lower_ascii_str]. rewrite IH. f_equal.
  apply ascii_code_inj. rewrite (lower_ascii_code (lower_ascii c)).
  now rewrite lower_ascii_not_upper.
Qed.

(** *** What the fetchers put in their sets *)

Lemma lower_ok_lowered (v : value) (e : string) : lower v = Ok e -> lowered e.
Proof.
  destruct v as [| | |s| |]; try discriminate. cbn [lower]. intros H.
  inversion H. now exists s.
Qed.

(** Every element of the set built by the comprehension went through
    [lower]. *)
Lemma calendly_emails_lowered (users : list value) (A : gset string) :
  calendly_emails users = Ok A -> set_Forall lowered A.
Proof.
  revert A. induction users as [| u users IH]; intros A; cbn [calendly_emails].
  - intros H. inversion H. apply set_Forall_empty.
  - destruct (getitem u "user") as [usr | |]; try discriminate. cbn [rbind].
    destruct (getitem usr "email") as [em | |]; try discriminate. cbn [rbind].
    destruct (lower em) as [e | |] eqn:He; try discriminate. cbn [rbind].
    destruct (calendly_emails users) as [rest | |]; try discriminate. cbn [rbind].
    intros H. inversion H. apply set_Forall_union.
    + apply set_Forall_singleton. exact (lower_ok_lowered _ _ He).
    + now apply IH.
Qed.

(** Every key the Okta loop body adds to the dict went through [lower]. *)
Lemma okta_collect_lowered (members : list value)
    (users users' : gmap string value) :
  okta_collect members users = Ok users' ->
  set_Forall lowered (dom users) ->
  set_Forall lowered (dom users').
Proof.
  revert users. induction members as [| m members IH]; intros users;
    cbn [okta_collect].
  - intros H. inversion H. auto.
  - destruct (getitem m "profile") as [profile | |]; try discriminate.
    cbn [rbind].
    destruct (getitem profile "email") as [em | |]; try discriminate.
    cbn [rbind].
    destruct (lower em) as [e | |] eqn:He; try discriminate. cbn [rbind].
    intros Hrun Hdom. apply (IH _ Hrun).
    rewrite dom_insert_L. apply set_Forall_union; [| exact Hdom].
    apply set_Forall_singleton. exact (lower_ok_lowered _ _ He).
Qed.

Lemma pages_emails_are_lowered_raw (k1 k2 : string) (pages : list (list value)) :
  ⋃ (page_emails k1 k2 <$> pages)
  = list_to_set (lower_str <$> raw_emails k1 k2 (List.concat pages)).
Proof. rewrite <- page_emails_concat. reflexivity. Qed.

Lemma two_singletons_count (x y : string) :
  licenses_used (calculate_license_counts {[ x ]} {[ y ]})
  = if decide (x = y) then 1 else 0.
Proof.
  rewrite used_is_intersection_size. destruct (decide (x = y)) as [-> | Hne].
  - now rewrite (idemp_L (∩)), size_singleton.
  - assert (Hempty : ({[ x ]} : gset string) ∩ {[ y ]} = ∅).
    { apply disjoint_intersection_L, disjoint_singleton_l.
      intros Hin%elem_of_singleton. now apply Hne. }
    now rewrite Hempty, size_empty.
Qed.

Lemma raw_email_in_page (k1 k2 : string) (members : list value) (a : string) :
  a ∈ raw_emails k1 k2 members -> lower_str a ∈ page_emails k1 k2 members.
Proof.
  intros H. unfold page_emails.
  apply elem_of_list_to_set, list_elem_of_fmap. exists a. auto.
Qed.

Lemma common_address_is_counted (A B : gset string) (e : string) :
  e ∈ A -> e ∈ B -> 1 <= licenses_used (calculate_license_counts A B).
Proof.
  intros HA HB. rewrite used_is_intersection_size.
  assert (size (A ∩ B) <> 0%nat); [| lia].
  apply size_non_empty_iff. intros Hempty.
  apply (not_elem_of_empty (C := gset string) e).
  rewrite <- Hempty. apply elem_of_intersection. auto.
Qed.

Section Normalisation.

Context {server : Type}.
Variable transport : server -> request -> outcome * server.

Lemma returns_bind {A B} (m : io A) (k : A -> io B)
    (P : A -> Prop) (Q : B -> Prop) :
  returns (server := server) m P ->
  (forall a, P a -> returns (k a) Q) ->
  returns (bind m k) Q.
Proof.
  intros Hm Hk w b w'. unfold bind.
  destruct (m w) as [[a | e |] w1] eqn:Hrun; try discriminate.
  intros Hkrun. exact (Hk a (Hm _ _ _ Hrun) _ _ _ Hkrun).
Qed.

Lemma returns_any {A} (m : io A) : returns (server := server) m (fun _ => True).
Proof. intros w a w' _. exact I. Qed.

Lemma returns_lift {A} (r : result A) (P : A -> Prop) :
  (forall a, r = Ok a -> P a) -> returns (server := server) (lift r) P.
Proof. intros H w a w'. unfold lift. intros Heq. inversion Heq. now apply H. Qed.

Lemma okta_loop_lowered (fuel : nat) (headers : list (string * string))
    (url : value) (users : gmap string value) :
  set_Forall lowered (dom users) ->
  returns (okta_loop transport fuel headers url users)
          (fun users' => set_Forall lowered (dom users')).
Proof.
  revert url users. induction fuel as [| fuel IH]; intros url users Hdom;
    cbn [okta_loop]; destruct (truthy url).
  - intros w a w'. discriminate.
  - intros w a w' H. inversion H; subst. exact Hdom.
  - do 4 (eapply returns_bind; [apply returns_any | intros ? _]).
    eapply returns_bind.
    + apply returns_lift. intros users' Hrun.
      exact (okta_collect_lowered _ _ _ Hrun Hdom).
    + intros users' Hdom'. now apply IH.
  - intros w a w' H. inversion H; subst. exact Hdom.
Qed.

(** C5: matching between the two sources is case-insensitive.
    - What lower-casing is: on an ASCII address [str.lower] leaves no
      capital letter and gives an address that is the same up to case; two
      ASCII addresses have the same lower-case form exactly when they are
      the same up to case (so addresses that differ otherwise stay apart);
      "User@X.com" becomes "user@x.com", and a non-ASCII capital is
      lower-cased too ("ÄB@x.com" becomes "äb@x.com").
    - Both fetchers lower-case every extracted address: whatever the
      peer answers, every element of a returned set is the lower-case form
      of some string, and along well-formed pages the returned set is exactly
      the set of the lower-case forms of the addresses of the pages.
    - Hence an address of a Calendly page and an address of an Okta page with
      the same lower-case form are one element of both sets and are counted
      among the used licenses; two ASCII spellings on their own count as one
      used license when they are the same up to case, and as none
      otherwise. *)
Theorem email_matching_case_insensitive :
  (forall a : string,
      is_ascii a = true ->
      no_upper (lower_str a) = true /\ same_address a (lower_str a) = true)
  /\ (forall a b : string,
         is_ascii a = true -> is_ascii b = true ->
         (lower_str a = lower_str b <-> same_address a b = true))
  /\ lower_str "User@X.com" = "user@x.com"
  /\ lower_str "ÄB@x.com" = "äb@x.com"
  /\ (forall (fuel : nat) (token org : option string) (w : world server)
             (A : gset string),
         fst (fetch_calendly_users transport fuel token org w) = Ok A ->
         set_Forall lowered A)
  /\ (forall (fuel : nat) (token base gid : option string) (w : world server)
             (B : gset string),
         fst (fetch_okta_group_members transport fuel token base gid w) = Ok B ->
         set_Forall lowered B)
  /\ (forall (fuel : nat) (ctoken org otoken base gid : option string)
             (wA wB : world server) (pagesA pagesB : list (list value))
             (sA sB : server),
         walk transport calendly_page (calendly_headers ctoken)
              (peer wA) (calendly_url org) pagesA sA ->
         walk transport okta_page (okta_headers otoken)
              (peer wB) (okta_url base gid) pagesB sB ->
         all_have_email "user" "email" pagesA = true ->
         all_have_email "profile" "email" pagesB = true ->
         (length pagesA <= fuel)%nat ->
         (length pagesB <= fuel)%nat ->
         fst (fetch_calendly_users transport fuel ctoken org wA)
         = Ok (list_to_set
                 (lower_str <$> raw_emails "user" "email" (List.concat pagesA)))
         /\ fst (fetch_okta_group_members transport fuel otoken base gid wB)
            = Ok (list_to_set
                    (lower_str <$> raw_emails "profile" "email"
                                              (List.concat pagesB))))
  /\ (forall (fuel : nat) (ctoken org otoken base gid : option string)
             (wA wB : world server) (pagesA pagesB : list (list value))
             (sA sB : server) (a b : string),
         walk transport calendly_page (calendly_headers ctoken)
              (peer wA) (calendly_url org) pagesA sA ->
         walk transport okta_page (okta_headers otoken)
              (peer wB) (okta_url base gid) pagesB sB ->
         all_have_email "user" "email" pagesA = true ->
         all_have_email "profile" "email" pagesB = true ->
         (length pagesA <= fuel)%nat ->
         (length pagesB <= fuel)%nat ->
         a ∈ raw_emails "user" "email" (List.concat pagesA) ->
         b ∈ raw_emails "profile" "email" (List.concat pagesB) ->
         lower_str a = lower_str b ->
         exists A B,
           fst (fetch_calendly_users transport fuel ctoken org wA) = Ok A
           /\ fst (fetch_okta_group_members transport fuel otoken base gid wB) = Ok B
           /\ lower_str a ∈ A ∩ B
           /\ 1 <= licenses_used (calculate_license_counts A B))
  /\ (forall a b : string,
         is_ascii a = true -> is_ascii b = true ->
         licenses_used (calculate_license_counts {[ lower_str a ]} {[ lower_str b ]})
         = if same_address a b then 1 else 0).
Proof.
  split; [| split; [| split; [| split; [| split; [| split; [| split; [| split]]]]]]].
  - intros a Ha. rewrite (lower_str_ascii a Ha). split.
    + apply lower_ascii_str_no_upper.
    + apply lower_ascii_str_same_address. symmetry.
      apply lower_ascii_str_idempotent.
  - intros a b Ha Hb. rewrite (lower_str_ascii a Ha), (lower_str_ascii b Hb).
    apply lower_ascii_str_same_address.
  - vm_compute. reflexivity.
  - vm_compute. reflexivity.
  - intros fuel token org w A Hrun.
    destruct (fetch_calendly_users transport fuel token org w) as [r w'] eqn:Hfetch.
    cbn [fst] in Hrun. subst r. revert Hfetch.
    unfold fetch_calendly_users.
    apply (returns_bind _ _ (fun _ => True)); [apply returns_any |].
    intros users _. apply returns_lift. apply calendly_emails_lowered.
  - intros fuel token base gid w B Hrun.
    destruct (fetch_okta_group_members transport fuel token base gid w)
      as [r w'] eqn:Hfetch.
    cbn [fst] in Hrun. subst r. revert Hfetch.
    unfold fetch_okta_group_members.
    apply (returns_bind _ _ (fun users => set_Forall lowered (dom users))).
    + apply okta_loop_lowered. rewrite dom_empty_L. apply set_Forall_empty.
    + intros users Hdom w1 B' w2 H. inversion H; subst. exact Hdom.
  - intros fuel ctoken org otoken base gid wA wB pagesA pagesB sA sB
           HwalkA HwalkB HallA HallB HfuelA HfuelB.
    destruct (fetch_calendly_users_walk transport fuel ctoken org wA pagesA sA
                HwalkA HallA HfuelA) as (wA' & HrunA & _).
    destruct (fetch_okta_group_members_walk transport fuel otoken base gid wB
                pagesB sB HwalkB HallB HfuelB) as (wB' & HrunB & _).
    rewrite HrunA, HrunB. cbn [fst].
    rewrite !pages_emails_are_lowered_raw. split; reflexivity.
  - intros fuel ctoken org otoken base gid wA wB pagesA pagesB sA sB a b
           HwalkA HwalkB HallA HallB HfuelA HfuelB Ha Hb Hab.
    destruct (fetch_calendly_users_walk transport fuel ctoken org wA pagesA sA
                HwalkA HallA HfuelA) as (wA' & HrunA & _).
    destruct (fetch_okta_group_members_walk transport fuel otoken base gid wB
                pagesB sB HwalkB HallB HfuelB) as (wB' & HrunB & _).
    rewrite HrunA, HrunB. cbn [fst].
    eexists. eexists. split; [reflexivity | split; [reflexivity |]].
    assert (HinA : lower_str a ∈ ⋃ (page_emails "user" "email" <$> pagesA)).
    { rewrite <- page_emails_concat. now apply raw_email_in_page. }
    assert (HinB : lower_str a ∈ ⋃ (page_emails "profile" "email" <$> pagesB)).
    { rewrite <- page_emails_concat, Hab. now apply raw_email_in_page. }
    split.
    + apply elem_of_intersection. auto.
    + exact (common_address_is_counted _ _ _ HinA HinB).
  - intros a b Ha Hb. rewrite two_singletons_count.
    rewrite (lower_str_ascii a Ha), (lower_str_ascii b Hb).
    destruct (decide (lower_ascii_str a = lower_ascii_str b)) as [Heq | Hne].
    + apply lower_ascii_str_same_address in Heq. now rewrite Heq.
    + destruct (same_address a b) eqn:Hsame; [| reflexivity].
      apply lower_ascii_str_same_address in Hsame. contradiction.
Qed.

End Normalisation.

Lemma case_calendly_walk :
  walk (fixture case_peer) calendly_page (calendly_headers (Some "tok"))
       0%nat (calendly_url (Some "org")) [[calendly_member "User@X.com"]] 1%nat.
Proof. eapply walk_last; reflexivity. Qed.

Lemma case_okta_walk :
  walk (fixture case_peer) okta_page (okta_headers (Some "otok"))
       0%nat (okta_url (Some "https://okta") (Some "g1"))
       [[okta_member "user@x.com" "ACTIVE"]] 1%nat.
Proof. eapply walk_last; reflexivity. Qed.

Lemma email_matching_case_insensitive_witness :
  is_ascii "User@X.com" = true
  /\ is_ascii "user@x.com" = true
  /\ same_address "User@X.com" "user@x.com" = true
  /\ lower_str "User@X.com" = lower_str "user@x.com"
  /\ exists A B,
      fst (fetch_calendly_users (fixture case_peer) 2 (Some "tok") (Some "org")
                                (start env_all)) = Ok A
      /\ fst (fetch_okta_group_members (fixture case_peer) 2 (Some "otok")
                 (Some "https://okta") (Some "g1") (start env_all)) = Ok B
      /\ lower_str "User@X.com" ∈ A ∩ B
      /\ 1 <= licenses_used (calculate_license_counts A B).
Proof.
  assert (Ha : is_ascii "User@X.com" = true) by reflexivity.
  assert (Hb : is_ascii "user@x.com" = true) by reflexivity.
  assert (Hsame : same_address "User@X.com" "user@x.com" = true) by reflexivity.
  pose proof (email_matching_case_insensitive (fixture case_peer))
    as (_ & Hiff & _ & _ & _ & _ & _ & Hmatch & _).
  assert (Hlow : lower_str "User@X.com" = lower_str "user@x.com").
  { apply (proj2 (Hiff "User@X.com" "user@x.com" Ha Hb)). exact Hsame. }
  split; [exact Ha | split; [exact Hb | split; [exact Hsame | split; [exact Hlow |]]]].
  apply (Hmatch 2%nat (Some "tok") (Some "org") (Some "otok") (Some "https://okta")
           (Some "g1") (start env_all) (start env_all)
           [[calendly_member "User@X.com"]] [[okta_member "user@x.com" "ACTIVE"]]
           1%nat 1%nat "User@X.com" "user@x.com").
  - exact case_calendly_walk.
  - exact case_okta_walk.
  - reflexivity.
  - reflexivity.
  - cbn. lia.
  - cbn. lia.
  - apply list_elem_of_In. cbn. tauto.
  - apply list_elem_of_In. cbn. tauto.
  - exact Hlow.
Defined.

(** The whole run on that peer: one used license is reported. *)
Example case_run_reports_one_used :
  let lc := {| total_licenses := 65; licenses_used := 1; licenses_available := 64 |} in
  fst (main (fixture case_peer) 2 (start env_all)) = Ok tt
  /\ last (trace (snd (main (fixture case_peer) 2 (start env_all))))
     = Some (EvHttp {| req_method := POST; req_url := VStr url_hook;
                       req_headers := [];
                       req_json := Some (VDict [("text", VStr (normal_message lc))]) |}
                    (inr (json_page 200 VNone None))).
Proof. split; vm_compute; reflexivity. Qed.

(** ** Optional parts of a Calendly response *)

(** On records of the documented shape, the comprehension fails exactly when
    a record lacks [user] or [user.email], with the KeyError of that key. *)
Lemma calendly_emails_missing (users : list value) :
  Forall (fun m => member_shape m = true) users ->
  forallb (has_email "user" "email") users = false ->
  exists key, (key = "user" \/ key = "email")
              /\ calendly_emails users = Raise (KeyError key).
Proof.
  induction 1 as [| u users Hshape _ IH]; [discriminate |].
  cbn [forallb calendly_emails].
  unfold member_shape in Hshape. unfold has_email, nested_str.
  destruct u as [| | | | |dm]; try discriminate. cbn [getitem].
  destruct (assoc "user" dm) as [[| | | | |du] |]; try discriminate.
  - cbn [rbind getitem].
    destruct (assoc "email" du) as [[| | |e| |] |]; try discriminate.
    + cbn [andb rbind lower]. intros Hrest.
      destruct (IH Hrest) as (key & Hkey & Hraise).
      exists key. rewrite Hraise. auto.
    + intros _. exists "email". auto.
  - intros _. exists "user". auto.
Qed.

Lemma all_have_email_concat (k1 k2 : string) (pages : list (list value)) :
  forallb (has_email k1 k2) (List.concat pages) = all_have_email k1 k2 pages.
Proof.
  unfold all_have_email. induction pages as [| p pages IH]; [reflexivity |].
  cbn [List.concat forallb]. rewrite forallb_app, IH. reflexivity.
Qed.

Section Optional.

Context {server : Type}.
Variable transport : server -> request -> outcome * server.

(** C10: in [fetch_calendly_users], a page whose body is an object without
    a [collection] key adds no member and does not fail there: the loop goes
    on with the same list of members; a page whose body has no [pagination]
    key, or no [next_page] inside it, ends the loop without a failure, with
    no further request; and with pages of the documented shape, every part
    optional, the fetcher raises exactly when some member record lacks
    [user] or [user.email] (a KeyError for that key) and returns the set of
    addresses otherwise. *)
Theorem calendly_optional_fields :
  (forall (fuel : nat) (headers : list (string * string)) (url : value)
          (users : list value) (w : world server) (r : response) (s' : server)
          (d : list (string * value)),
      truthy url = true ->
      transport (peer w) (get_request url headers) = (inr r, s') ->
      is_error_status (status_code r) = false ->
      json_body r = Some (VDict d) ->
      assoc "collection" d = None ->
      calendly_loop transport (S fuel) headers url users w
      = bind (lift (get (VDict d) "pagination" (VDict [])))
          (fun pagination =>
             bind (lift (get pagination "next_page" VNone))
               (fun next_page =>
                  calendly_loop transport fuel headers next_page users))
          (answered w (get_request url headers) (inr r) s'))
  /\ (forall (fuel : nat) (headers : list (string * string)) (url : value)
             (users : list value) (w : world server) (r : response) (s' : server)
             (d : list (string * value)),
         truthy url = true ->
         transport (peer w) (get_request url headers) = (inr r, s') ->
         is_error_status (status_code r) = false ->
         json_body r = Some (VDict d) ->
         (assoc "pagination" d = None
          \/ exists p, assoc "pagination" d = Some (VDict p)
                       /\ assoc "next_page" p = None) ->
         calendly_loop transport (S fuel) headers url users w
         = bind (lift (get (VDict d) "collection" (VList [])))
             (fun collection =>
                bind (lift (iter collection))
                  (fun items => ret (users ++ items)))
             (answered w (get_request url headers) (inr r) s'))
  /\ (forall (fuel : nat) (token org : option string) (w : world server)
             (pages : list (list value)) (s' : server),
         walk transport calendly_page (calendly_headers token)
              (peer w) (calendly_url org) pages s' ->
         Forall (fun m => member_shape m = true) (List.concat pages) ->
         (length pages <= fuel)%nat ->
         (all_have_email "user" "email" pages = true
          /\ fst (fetch_calendly_users transport fuel token org w)
             = Ok (⋃ (page_emails "user" "email" <$> pages)))
         \/ (all_have_email "user" "email" pages = false
             /\ exists key, (key = "user" \/ key = "email")
                  /\ fst (fetch_calendly_users transport fuel token org w)
                     = Raise (KeyError key))).
Proof.
  split; [| split].
  - intros fuel headers url users w r s' d Hurl Hget Hst Hbody Hcoll.
    cbn [calendly_loop]. rewrite Hurl.
    unfold bind at 1. unfold requests_get. fold (get_request url headers).
    rewrite (http_answered transport _ _ _ _ Hget).
    unfold bind at 1. unfold lift at 1. rewrite (good_status_passes _ Hst).
    unfold bind at 1. unfold lift at 1. unfold json. rewrite Hbody.
    unfold bind at 1. unfold lift at 1. cbn [get]. rewrite Hcoll.
    unfold bind at 1. unfold lift at 1. cbn [iter].
    rewrite app_nil_r. reflexivity.
  - intros fuel headers url users w r s' d Hurl Hget Hst Hbody Hpag.
    cbn [calendly_loop]. rewrite Hurl.
    unfold bind at 1. unfold requests_get. fold (get_request url headers).
    rewrite (http_answered transport _ _ _ _ Hget).
    unfold bind at 1. unfold lift at 1. rewrite (good_status_passes _ Hst).
    unfold bind at 1. unfold lift at 1. unfold json. rewrite Hbody.
    unfold bind, lift.
    destruct (get (VDict d) "collection" (VList [])) as [c | e |];
      [| reflexivity | reflexivity].
    destruct (iter c) as [items | e |]; [| reflexivity | reflexivity].
    cbn [get].
    destruct Hpag as [-> | (p & -> & Hnext)]; cbn [get assoc]; try rewrite Hnext;
      apply loop_stops_calendly; reflexivity.
  - intros fuel token org w pages s' Hwalk Hshape Hfuel.
    destruct (all_have_email "user" "email" pages) eqn:Hall.
    + left. split; [reflexivity |].
      destruct (fetch_calendly_users_walk transport fuel token org w pages s'
                  Hwalk Hall Hfuel) as (w' & Hrun & _).
      rewrite Hrun. reflexivity.
    + right. split; [reflexivity |].
      destruct (calendly_loop_walk transport _ _ _ _ _ Hwalk fuel [] w eq_refl Hfuel)
        as (w' & Hrun & _).
      rewrite <- all_have_email_concat in Hall.
      destruct (calendly_emails_missing _ Hshape Hall) as (key & Hkey & Hraise).
      exists key. split; [exact Hkey |].
      unfold fetch_calendly_users, bind.
      fold (calendly_headers token). fold (calendly_url org).
      rewrite Hrun. cbn [app]. unfold lift. rewrite Hraise. reflexivity.
Qed.

End Optional.

Lemma bare_walk :
  walk (fixture bare_peer) calendly_page (calendly_headers (Some "tok"))
       0%nat (calendly_url (Some "org")) [[]] 1%nat.
Proof. eapply walk_last; reflexivity. Qed.

Lemma no_email_walk :
  walk (fixture no_email_peer) calendly_page (calendly_headers (Some "tok"))
       0%nat (calendly_url (Some "org"))
       [[calendly_member "ann@x.com"; no_email_member]] 1%nat.
Proof. eapply walk_last; reflexivity. Qed.

Lemma calendly_optional_fields_witness :
  calendly_loop (fixture bare_peer) 1 (calendly_headers (Some "tok"))
                (calendly_url (Some "org")) [] (start env_all)
  = (Ok [],
     answered (start env_all)
              (get_request (calendly_url (Some "org")) (calendly_headers (Some "tok")))
              (inr (json_page 200 (VDict []) None)) 1%nat)
  /\ fst (fetch_calendly_users (fixture bare_peer) 1 (Some "tok") (Some "org")
                               (start env_all)) = Ok ∅
  /\ exists key, (key = "user" \/ key = "email")
       /\ fst (fetch_calendly_users (fixture no_email_peer) 1 (Some "tok") (Some "org")
                                    (start env_all)) = Raise (KeyError key).
Proof.
  split; [| split].
  - rewrite (proj1 (proj2 (calendly_optional_fields (fixture bare_peer)))
               0%nat (calendly_headers (Some "tok")) (calendly_url (Some "org")) []
               (start env_all) (json_page 200 (VDict []) None) 1%nat []
               eq_refl eq_refl eq_refl eq_refl (or_introl eq_refl)).
    reflexivity.
  - destruct (proj2 (proj2 (calendly_optional_fields (fixture bare_peer)))
                1%nat (Some "tok") (Some "org") (start env_all) [[]] 1%nat
                bare_walk (List.Forall_nil _) (Nat.le_refl _))
      as [[_ Hok] | [Hno _]].
    + exact Hok.
    + discriminate Hno.
  - destruct (proj2 (proj2 (calendly_optional_fields (fixture no_email_peer)))
                1%nat (Some "tok") (Some "org") (start env_all)
                [[calendly_member "ann@x.com"; no_email_member]] 1%nat
                no_email_walk)
      as [[Hall _] | [_ Hraise]].
    + repeat constructor.
    + cbn. lia.
    + discriminate Hall.
    + exact Hraise.
Defined.

(** ** What a complete run posts *)

Section Report.

Context {server : Type}.
Variable transport : server -> request -> outcome * server.

(** When the configuration check passes and both fetches return, the one
    POST of [main] carries [alert_message] of the tally of the two sets. *)
Lemma main_posts_alert_message (fuel : nat) (w w1 w2 : world server)
    (A B : gset string) :
  forallb env_truthy ((fun name => environ w !! name) <$> required_env) = true ->
  fetch_calendly_users transport fuel
    (environ w !! "CALENDLY_API_TOKEN") (environ w !! "CALENDLY_ORG_URL")
    (emit (EvPrint "Fetching Calendly users...") w) = (Ok A, w1) ->
  fetch_okta_group_members transport fuel
    (environ w !! "OKTA_API_TOKEN") (environ w !! "OKTA_BASE_URL")
    (environ w !! "OKTA_CALENDLY_GROUP_ID")
    (emit (EvPrint "Fetching Okta group members...") w1) = (Ok B, w2) ->
  main transport fuel w
  = post_to_slack transport (environ w !! "SLACK_WEBHOOK_URL")
      (alert_message (calculate_license_counts A B))
      (emit (EvPrint "Sending alert to Slack...")
         (emit (EvPrint "Calculating license counts...") w2)).
Proof.
  intros Hall HA HB. unfold main.
  unfold bind at 1 2 3 4 5 6. unfold getenv.
  cbn [fmap list_fmap required_env] in Hall. rewrite Hall. cbn [negb].
  unfold bind at 1. unfold print at 1.
  unfold bind at 1. rewrite HA.
  unfold bind at 1. unfold print at 1.
  unfold bind at 1. rewrite HB.
  unfold bind at 1. unfold print at 1.
  cbv zeta.
  unfold bind at 1. unfold print at 1.
  reflexivity.
Qed.

End Report.

(** A run with seventy matched addresses posts the overage alert. *)
Example overage_run_posts_alert :
  let table :=
    [(url_c1, json_page 200 (calendly_body (elements seventy) None) None);
     (url_o1, json_page 200
                (VList ((fun e => okta_member e "ACTIVE") <$> elements seventy))
                None);
     (url_hook, json_page 200 VNone None)] in
  let lc := {| total_licenses := 65; licenses_used := 70;
               licenses_available := -5 |} in
  option_map
    (fun ev => match ev with EvHttp rq _ => req_json rq | EvPrint _ => None end)
    (last (trace (snd (main (fixture table) 1 (start env_all)))))
  = Some (Some (VDict [("text", VStr (overage_message lc))])).
Proof. vm_compute. reflexivity. Qed.

(** * Further properties of the script *)

(** ** The tally *)

(** X1: the used count grows with either set: more Calendly members or more
    Okta group members never lower it, and never raise the available
    count. *)
Theorem licenses_used_monotone (A A' B B' : gset string) :
  A ⊆ A' -> B ⊆ B' ->
  licenses_used (calculate_license_counts A B)
  <= licenses_used (calculate_license_counts A' B')
  /\ licenses_available (calculate_license_counts A' B')
     <= licenses_available (calculate_license_counts A B).
Proof.
  intros HA HB. rewrite !available_is_total_minus_used, !used_is_intersection_size.
  assert (size (A ∩ B) <= size (A' ∩ B'))%nat.
  { apply subseteq_size. intros e [Ha Hb]%elem_of_intersection.
    apply elem_of_intersection. split; [now apply HA | now apply HB]. }
  lia.
Qed.

Lemma licenses_used_monotone_witness :
  ({[ "a@x.com" ]} : gset string) ⊆ {[ "a@x.com"; "b@x.com" ]}
  /\ ({[ "a@x.com" ]} : gset string) ⊆ {[ "b@x.com"; "a@x.com" ]}
  /\ licenses_used (calculate_license_counts {[ "a@x.com" ]} {[ "a@x.com" ]})
     <= licenses_used (calculate_license_counts {[ "a@x.com"; "b@x.com" ]}
                                                {[ "b@x.com"; "a@x.com" ]}).
Proof.
  assert (H1 : ({[ "a@x.com" ]} : gset string) ⊆ {[ "a@x.com"; "b@x.com" ]}).
  { apply union_subseteq_l. }
  assert (H2 : ({[ "a@x.com" ]} : gset string) ⊆ {[ "b@x.com"; "a@x.com" ]}).
  { apply union_subseteq_r. }
  split; [exact H1 | split; [exact H2 |]].
  exact (proj1 (licenses_used_monotone _ _ _ _ H1 H2)).
Defined.

(** X2: no license is counted as used exactly when the two sets have no
    address in common (in particular when either source is empty); all 65
    are then available. *)
Theorem no_license_used_iff_disjoint (A B : gset string) :
  (licenses_used (calculate_license_counts A B) = 0 <-> A ## B)
  /\ (licenses_available (calculate_license_counts A B) = 65 <-> A ## B).
Proof.
  rewrite available_is_total_minus_used, used_is_intersection_size.
  assert (Hiff : size (A ∩ B) = 0%nat <-> A ## B).
  { rewrite disjoint_intersection_L. split.
    - intros H. apply leibniz_equiv, size_empty_iff. exact H.
    - intros ->. apply size_empty. }
  unfold TOTAL_LICENSES. split; (split; [intros H; apply Hiff; lia |]);
    intros H%Hiff; lia.
Qed.

(** X3: when every Calendly member is in the Okta group, the used count is
    the number of Calendly members. *)
Theorem all_members_in_group (A B : gset string) :
  A ⊆ B ->
  licenses_used (calculate_license_counts A B) = Z.of_nat (size A).
Proof.
  intros H. rewrite used_is_intersection_size.
  now rewrite (subseteq_intersection_1_L _ _ H).
Qed.

Lemma all_members_in_group_witness :
  ({[ "a@x.com" ]} : gset string) ⊆ {[ "a@x.com"; "b@x.com" ]}
  /\ licenses_used (calculate_license_counts {[ "a@x.com" ]}
                                             {[ "a@x.com"; "b@x.com" ]}) = 1.
Proof.
  assert (H : ({[ "a@x.com" ]} : gset string) ⊆ {[ "a@x.com"; "b@x.com" ]}).
  { apply union_subseteq_l. }
  split; [exact H |].
  rewrite (all_members_in_group _ _ H). vm_compute. reflexivity.
Defined.

(** ** The text of the alert *)

Lemma append_assoc (s1 s2 s3 : string) :
  (s1 +:+ s2) +:+ s3 = s1 +:+ (s2 +:+ s3).
Proof.
  induction s1 as [| c s1 IH]; [reflexivity |].
  change (String c ((s1 +:+ s2) +:+ s3) = String c (s1 +:+ (s2 +:+ s3))).
  f_equal. exact IH.
Qed.

(** X4: the threshold is strict.  With exactly 65 matched addresses the
    normal report is built and shows zero available licenses; with 66 the
    overage alert is built and shows an overage of one. *)
Theorem threshold_is_strict (A B : gset string) :
  (size (A ∩ B) = 65%nat ->
   alert_message (calculate_license_counts A B)
   = normal_message (calculate_license_counts A B)
   /\ contains (alert_message (calculate_license_counts A B))
               "Available Licenses: 0")
  /\ (size (A ∩ B) = 66%nat ->
      alert_message (calculate_license_counts A B)
      = overage_message (calculate_license_counts A B)
      /\ contains (alert_message (calculate_license_counts A B)) "Overage: 1").
Proof.
  split; intros Hsize.
  - assert (Hlc : calculate_license_counts A B
                  = {| total_licenses := 65; licenses_used := 65;
                       licenses_available := 0 |}).
    { unfold calculate_license_counts. rewrite Hsize. reflexivity. }
    rewrite Hlc. split; [reflexivity |].
    exists (":calendly: *Calendly License Report* :calendly:" +:+ nl
            +:+ "Used Licenses: 65" +:+ nl +:+ "Total Licenses: 65" +:+ nl).
    exists (nl +:+ "*All licenses are within the allocated limit.*").
    vm_compute. reflexivity.
  - assert (Hlc : calculate_license_counts A B
                  = {| total_licenses := 65; licenses_used := 66;
                       licenses_available := -1 |}).
    { unfold calculate_license_counts. rewrite Hsize. reflexivity. }
    rewrite Hlc. split; [reflexivity |].
    exists (":rotating_light:calendly: *Calendly License Alert* :calendly::rotating_light:"
            +:+ nl +:+ "Used Licenses: 66" +:+ nl +:+ "Total Licenses: 65" +:+ nl).
    exists (nl +:+ "*Immediate action required to resolve the overage.*").
    vm_compute. reflexivity.
Qed.

Lemma threshold_is_strict_witness :
  size (addresses 65 ∩ addresses 80) = 65%nat
  /\ size (addresses 70 ∩ addresses 66) = 66%nat
  /\ contains (alert_message (calculate_license_counts (addresses 65) (addresses 80)))
              "Available Licenses: 0"
  /\ contains (alert_message (calculate_license_counts (addresses 70) (addresses 66)))
              "Overage: 1".
Proof.
  assert (H65 : size (addresses 65 ∩ addresses 80) = 65%nat).
  { vm_compute. reflexivity. }
  assert (H66 : size (addresses 70 ∩ addresses 66) = 66%nat).
  { vm_compute. reflexivity. }
  split; [exact H65 | split; [exact H66 | split]].
  - exact (proj2 (proj1 (threshold_is_strict _ _) H65)).
  - exact (proj2 (proj2 (threshold_is_strict _ _) H66)).
Defined.

(** X5: whenever more than 65 licenses are used, the message is the overage
    alert and the overage it shows is the positive number of licenses
    missing, the opposite of the (negative) available count. *)
Theorem overage_figure (A B : gset string) :
  let lc := calculate_license_counts A B in
  licenses_used lc > 65 ->
  alert_message lc = overage_message lc
  /\ 1 <= - licenses_available lc
  /\ contains (alert_message lc)
              ("Overage: " +:+ fmt_int (- licenses_available lc)).
Proof.
  intros lc Hover.
  assert (Hmsg : alert_message lc = overage_message lc).
  { unfold alert_message, TOTAL_LICENSES.
    destruct (Z.gtb_spec (licenses_used lc) 65); [reflexivity | lia]. }
  assert (Hav : - licenses_available lc = licenses_used lc - TOTAL_LICENSES).
  { subst lc. rewrite available_is_total_minus_used. lia. }
  split; [exact Hmsg | split].
  - rewrite Hav. unfold TOTAL_LICENSES. lia.
  - rewrite Hmsg, Hav. unfold overage_message.
    exists (":rotating_light:calendly: *Calendly License Alert* :calendly::rotating_light:"
            +:+ nl +:+ "Used Licenses: " +:+ fmt_int (licenses_used lc) +:+ nl
            +:+ "Total Licenses: " +:+ fmt_int (total_licenses lc) +:+ nl).
    exists (nl +:+ "*Immediate action required to resolve the overage.*").
    rewrite !append_assoc. reflexivity.
Qed.

Lemma overage_figure_witness :
  licenses_used (calculate_license_counts seventy seventy) > 65
  /\ contains (alert_message (calculate_license_counts seventy seventy))
              ("Overage: " +:+ fmt_int
                 (- licenses_available (calculate_license_counts seventy seventy))).
Proof.
  assert (H : licenses_used (calculate_license_counts seventy seventy) > 65).
  { vm_compute. reflexivity. }
  split; [exact H |].
  exact (proj2 (proj2 (overage_figure seventy seventy H))).
Defined.

(** X6: whenever at most 65 licenses are used, the message is the normal
    report and the available count it shows lies between 0 and 65: the
    report never shows a negative number. *)
Theorem normal_report_figure (A B : gset string) :
  let lc := calculate_license_counts A B in
  licenses_used lc <= 65 ->
  alert_message lc = normal_message lc
  /\ 0 <= licenses_available lc <= 65
  /\ contains (alert_message lc)
              ("Available Licenses: " +:+ fmt_int (licenses_available lc)).
Proof.
  intros lc Hok.
  assert (Hmsg : alert_message lc = normal_message lc).
  { unfold alert_message, TOTAL_LICENSES.
    destruct (Z.gtb_spec (licenses_used lc) 65); [lia | reflexivity]. }
  split; [exact Hmsg | split].
  - subst lc. rewrite available_is_total_minus_used in *.
    rewrite used_is_intersection_size in *. unfold TOTAL_LICENSES. lia.
  - rewrite Hmsg. unfold normal_message.
    exists (":calendly: *Calendly License Report* :calendly:"
            +:+ nl +:+ "Used Licenses: " +:+ fmt_int (licenses_used lc) +:+ nl
            +:+ "Total Licenses: " +:+ fmt_int (total_licenses lc) +:+ nl).
    exists (nl +:+ "*All licenses are within the allocated limit.*").
    rewrite !append_assoc. reflexivity.
Qed.

Lemma normal_report_figure_witness :
  licenses_used (calculate_license_counts (addresses 3) (addresses 5)) <= 65
  /\ contains (alert_message (calculate_license_counts (addresses 3) (addresses 5)))
              ("Available Licenses: " +:+ fmt_int
                 (licenses_available
                    (calculate_license_counts (addresses 3) (addresses 5)))).
Proof.
  assert (H : licenses_used (calculate_license_counts (addresses 3) (addresses 5)) <= 65).
  { vm_compute. discriminate. }
  split; [exact H |].
  exact (proj2 (proj2 (normal_report_figure _ _ H))).
Defined.

(** ** How a fetch fails *)

Lemma okta_collect_missing (members : list value) (users : gmap string value) :
  Forall (fun m => okta_member_shape m = true) members ->
  forallb (has_email "profile" "email") members = false ->
  exists key, (key = "profile" \/ key = "email")
              /\ okta_collect members users = Raise (KeyError key).
Proof.
  intros Hshape. revert users.
  induction Hshape as [| m members Hm _ IH]; intros users; [discriminate |].
  cbn [forallb okta_collect].
  unfold okta_member_shape in Hm. unfold has_email, nested_str.
  destruct m as [| | | | |dm]; try discriminate. cbn [getitem].
  destruct (assoc "profile" dm) as [[| | | | |dp] |]; try discriminate.
  - cbn [rbind getitem].
    destruct (assoc "email" dp) as [[| | |e| |] |]; try discriminate.
    + cbn [andb rbind lower]. intros Hrest. exact (IH _ Hrest).
    + intros _. exists "email". auto.
  - intros _. exists "profile". auto.
Qed.

Lemma okta_url_truthy (okta_base_url group_id : option string) :
  truthy (okta_url okta_base_url group_id) = true.
Proof.
  unfold okta_url. cbn [truthy].
  destruct (fstr okta_base_url) as [| c s]; reflexivity.
Qed.

Lemma decode_cons (c : ascii) (s : string) :
  exists cp rest, decode (String c s) = cp :: rest.
Proof.
  cbn [decode].
  repeat match goal with
         | |- context [if ?b then _ else _] => destruct b
         | |- context [match ?t with EmptyString => _ | String _ _ => _ end] =>
             destruct t
         end;
    eexists; eexists; reflexivity.
Qed.

(** Iterating over a string that is not empty yields strings. *)
Lemma chars_cons (c : ascii) (s : string) :
  exists v rest, chars (String c s) = VStr v :: rest.
Proof.
  unfold chars. destruct (decode_cons c s) as (cp & rest & ->).
  eexists; eexists; reflexivity.
Qed.

Section Failures.

Context {server : Type}.
Variable transport : server -> request -> outcome * server.

(** X7: in either fetcher, a page request answered with a 4xx or 5xx status
    ends the loop at once with the HTTPError of that status: the request is
    the last event, the members collected so far are dropped. *)
Theorem error_status_ends_fetch :
  (forall (fuel : nat) (headers : list (string * string)) (url : value)
          (users : list value) (w : world server) (r : response) (s' : server),
      truthy url = true ->
      transport (peer w) (get_request url headers) = (inr r, s') ->
      is_error_status (status_code r) = true ->
      calendly_loop transport (S fuel) headers url users w
      = (Raise (HTTPError (status_code r)),
         answered w (get_request url headers) (inr r) s'))
  /\ (forall (fuel : nat) (headers : list (string * string)) (url : value)
             (users : gmap string value) (w : world server) (r : response)
             (s' : server),
         truthy url = true ->
         transport (peer w) (get_request url headers) = (inr r, s') ->
         is_error_status (status_code r) = true ->
         okta_loop transport (S fuel) headers url users w
         = (Raise (HTTPError (status_code r)),
            answered w (get_request url headers) (inr r) s')).
Proof.
  split; intros fuel headers url users w r s' Hurl Hget Hst.
  - cbn [calendly_loop]. rewrite Hurl.
    unfold bind at 1. unfold requests_get. fold (get_request url headers).
    rewrite (http_answered transport _ _ _ _ Hget).
    unfold bind, lift. rewrite (error_status_raises _ Hst). reflexivity.
  - cbn [okta_loop]. rewrite Hurl.
    unfold bind at 1. unfold requests_get. fold (get_request url headers).
    rewrite (http_answered transport _ _ _ _ Hget).
    unfold bind, lift. rewrite (error_status_raises _ Hst). reflexivity.
Qed.

(** X8: in either fetcher, an exception raised by [requests.get] itself,
    and a body that is not JSON, end the loop at once with that exception
    (JSONDecodeError for the body). *)
Theorem request_exceptions_end_fetch :
  (forall (fuel : nat) (headers : list (string * string)) (url : value)
          (users : list value) (w : world server) (e : exn) (s' : server),
      truthy url = true ->
      transport (peer w) (get_request url headers) = (inl e, s') ->
      calendly_loop transport (S fuel) headers url users w
      = (Raise e, answered w (get_request url headers) (inl e) s'))
  /\ (forall (fuel : nat) (headers : list (string * string)) (url : value)
             (users : gmap string value) (w : world server) (e : exn)
             (s' : server),
         truthy url = true ->
         transport (peer w) (get_request url headers) = (inl e, s') ->
         okta_loop transport (S fuel) headers url users w
         = (Raise e, answered w (get_request url headers) (inl e) s'))
  /\ (forall (fuel : nat) (headers : list (string * string)) (url : value)
             (users : list value) (w : world server) (r : response) (s' : server),
         truthy url = true ->
         transport (peer w) (get_request url headers) = (inr r, s') ->
         is_error_status (status_code r) = false ->
         json_body r = None ->
         calendly_loop transport (S fuel) headers url users w
         = (Raise JSONDecodeError,
            answered w (get_request url headers) (inr r) s'))
  /\ (forall (fuel : nat) (headers : list (string * string)) (url : value)
             (users : gmap string value) (w : world server) (r : response)
             (s' : server),
         truthy url = true ->
         transport (peer w) (get_request url headers) = (inr r, s') ->
         is_error_status (status_code r) = false ->
         json_body r = None ->
         okta_loop transport (S fuel) headers url users w
         = (Raise JSONDecodeError,
            answered w (get_request url headers) (inr r) s')).
Proof.
  split; [| split; [| split]].
  - intros fuel headers url users w e s' Hurl Hget.
    cbn [calendly_loop]. rewrite Hurl.
    unfold bind at 1. unfold requests_get. fold (get_request url headers).
    rewrite (http_answered transport _ _ _ _ Hget). reflexivity.
  - intros fuel headers url users w e s' Hurl Hget.
    cbn [okta_loop]. rewrite Hurl.
    unfold bind at 1. unfold requests_get. fold (get_request url headers).
    rewrite (http_answered transport _ _ _ _ Hget). reflexivity.
  - intros fuel headers url users w r s' Hurl Hget Hst Hbody.
    cbn [calendly_loop]. rewrite Hurl.
    unfold bind at 1. unfold requests_get. fold (get_request url headers).
    rewrite (http_answered transport _ _ _ _ Hget).
    unfold bind, lift, json. rewrite (good_status_passes _ Hst), Hbody.
    reflexivity.
  - intros fuel headers url users w r s' Hurl Hget Hst Hbody.
    cbn [okta_loop]. rewrite Hurl.
    unfold bind at 1. unfold requests_get. fold (get_request url headers).
    rewrite (http_answered transport _ _ _ _ Hget).
    unfold bind, lift, json. rewrite (good_status_passes _ Hst), Hbody.
    reflexivity.
Qed.

(** X9: a JSON body of the wrong kind.  The Calendly loop raises
    AttributeError when the body is not an object.  The Okta loop raises
    TypeError when the body is not an array, an empty object and an empty
    string apart (iterating them yields no member). *)
Theorem wrong_body_kind_ends_fetch :
  (forall (fuel : nat) (headers : list (string * string)) (url : value)
          (users : list value) (w : world server) (r : response) (s' : server)
          (body : value),
      truthy url = true ->
      transport (peer w) (get_request url headers) = (inr r, s') ->
      is_error_status (status_code r) = false ->
      json_body r = Some body ->
      (forall d, body <> VDict d) ->
      calendly_loop transport (S fuel) headers url users w
      = (Raise AttributeError,
         answered w (get_request url headers) (inr r) s'))
  /\ (forall (fuel : nat) (headers : list (string * string)) (url : value)
             (users : gmap string value) (w : world server) (r : response)
             (s' : server) (body : value),
         truthy url = true ->
         transport (peer w) (get_request url headers) = (inr r, s') ->
         is_error_status (status_code r) = false ->
         json_body r = Some body ->
         (forall l, body <> VList l) ->
         body <> VDict [] ->
         body <> VStr "" ->
         okta_loop transport (S fuel) headers url users w
         = (Raise TypeError,
            answered w (get_request url headers) (inr r) s')).
Proof.
  split.
  - intros fuel headers url users w r s' body Hurl Hget Hst Hbody Hkind.
    cbn [calendly_loop]. rewrite Hurl.
    unfold bind at 1. unfold requests_get. fold (get_request url headers).
    rewrite (http_answered transport _ _ _ _ Hget).
    unfold bind, lift, json. rewrite (good_status_passes _ Hst), Hbody.
    destruct body as [| | | | |d]; try reflexivity.
    destruct (Hkind d eq_refl).
  - intros fuel headers url users w r s' body Hurl Hget Hst Hbody
           Hlist Hdict Hstr.
    cbn [okta_loop]. rewrite Hurl.
    unfold bind at 1. unfold requests_get. fold (get_request url headers).
    rewrite (http_answered transport _ _ _ _ Hget).
    unfold bind, lift, json. rewrite (good_status_passes _ Hst), Hbody.
    destruct body as [| | |s|l|d]; try reflexivity.
    + destruct s as [| c s]; [destruct (Hstr eq_refl) |].
      cbn [iter]. destruct (chars_cons c s) as (v & rest & ->). reflexivity.
    + destruct (Hlist l eq_refl).
    + destruct d as [| [k v] d]; [destruct (Hdict eq_refl) | reflexivity].
Qed.

(** X10: the Okta loop fails on the page where a record lacks [profile] or
    [profile.email]: KeyError for that key, raised before the next page is
    requested, whatever the [Link] header says. *)
Theorem okta_missing_email_ends_fetch
    (fuel : nat) (headers : list (string * string)) (url : value)
    (users : gmap string value) (w : world server) (r : response) (s' : server)
    (members : list value) (next : value) :
  truthy url = true ->
  transport (peer w) (get_request url headers) = (inr r, s') ->
  okta_page r = Some (members, next) ->
  Forall (fun m => okta_member_shape m = true) members ->
  forallb (has_email "profile" "email") members = false ->
  exists key, (key = "profile" \/ key = "email")
    /\ okta_loop transport (S fuel) headers url users w
       = (Raise (KeyError key),
          answered w (get_request url headers) (inr r) s').
Proof.
  intros Hurl Hget Hpage Hshape Hmissing.
  destruct (okta_page_reads _ _ _ Hpage) as (Hst & Hjson & _).
  destruct (okta_collect_missing members users Hshape Hmissing)
    as (key & Hkey & Hraise).
  exists key. split; [exact Hkey |].
  cbn [okta_loop]. rewrite Hurl.
  unfold bind at 1. unfold requests_get. fold (get_request url headers).
  rewrite (http_answered transport _ _ _ _ Hget).
  unfold bind, lift. rewrite Hst, Hjson. cbn [iter]. rewrite Hraise.
  reflexivity.
Qed.

(** X11: the Calendly fetcher reads the addresses only after the last
    page: when a record of any page lacks [user] or [user.email], every page
    of the walk is still requested, and only then the KeyError is raised. *)
Theorem calendly_missing_email_fails_late
    (fuel : nat) (token org : option string) (w : world server)
    (pages : list (list value)) (s' : server) :
  walk transport calendly_page (calendly_headers token)
       (peer w) (calendly_url org) pages s' ->
  Forall (fun m => member_shape m = true) (List.concat pages) ->
  all_have_email "user" "email" pages = false ->
  (length pages <= fuel)%nat ->
  exists key w',
    (key = "user" \/ key = "email")
    /\ fetch_calendly_users transport fuel token org w = (Raise (KeyError key), w')
    /\ peer w' = s'
    /\ length (trace w') = (length (trace w) + length pages)%nat.
Proof.
  intros Hwalk Hshape Hall Hfuel.
  destruct (calendly_loop_walk transport _ _ _ _ _ Hwalk fuel [] w eq_refl Hfuel)
    as (w' & Hrun & Hpeer & _ & Hlen).
  rewrite <- all_have_email_concat in Hall.
  destruct (calendly_emails_missing _ Hshape Hall) as (key & Hkey & Hraise).
  exists key, w'. split; [exact Hkey | split; [| split; assumption]].
  unfold fetch_calendly_users, bind.
  fold (calendly_headers token). fold (calendly_url org).
  rewrite Hrun. cbn [app]. unfold lift. rewrite Hraise. reflexivity.
Qed.

(** X12: neither loop bounds the number of pages.  Against a peer that
    answers every request with a well-formed page carrying a continuation
    pointer, each fetcher is still running after any number of requests. *)
Theorem endless_pagination_never_returns :
  (forall (token org : option string),
      (forall s url, exists r members next s',
          transport s (get_request url (calendly_headers token)) = (inr r, s')
          /\ calendly_page r = Some (members, next)
          /\ truthy next = true) ->
      forall (fuel : nat) (w : world server),
        fst (fetch_calendly_users transport fuel token org w) = Diverged)
  /\ (forall (token base gid : option string),
         (forall s url, exists r members next s',
             transport s (get_request url (okta_headers token)) = (inr r, s')
             /\ okta_page r = Some (members, next)
             /\ forallb (has_email "profile" "email") members = true
             /\ truthy next = true) ->
         forall (fuel : nat) (w : world server),
           fst (fetch_okta_group_members transport fuel token base gid w)
           = Diverged).
Proof.
  split.
  - intros token org Hpeer fuel w.
    assert (Hloop : forall fuel url users w,
               truthy url = true ->
               fst (calendly_loop transport fuel (calendly_headers token)
                                  url users w) = Diverged).
    { clear fuel w. induction fuel as [| fuel IH]; intros url users w Hurl.
      - cbn [calendly_loop]. rewrite Hurl. reflexivity.
      - destruct (Hpeer (peer w) url) as (r & members & next & s' & Hget & Hpage & Hnext).
        rewrite (calendly_loop_step transport _ _ _ _ _ _ _ _ _ Hurl Hget Hpage).
        now apply IH. }
    unfold fetch_calendly_users, bind.
    fold (calendly_headers token). fold (calendly_url org).
    specialize (Hloop fuel (calendly_url org) [] w eq_refl).
    destruct (calendly_loop _ _ _ _ _ _) as [[users | e |] w']; cbn [fst] in *;
      try discriminate. reflexivity.
  - intros token base gid Hpeer fuel w.
    assert (Hloop : forall fuel url users w,
               truthy url = true ->
               fst (okta_loop transport fuel (okta_headers token)
                              url users w) = Diverged).
    { clear fuel w. induction fuel as [| fuel IH]; intros url users w Hurl.
      - cbn [okta_loop]. rewrite Hurl. reflexivity.
      - destruct (Hpeer (peer w) url)
          as (r & members & next & s' & Hget & Hpage & Hmem & Hnext).
        destruct (okta_collect_ok members users Hmem) as (users' & Hcollect & _).
        rewrite (okta_loop_step transport _ _ _ _ _ _ _ _ _ _
                   Hurl Hget Hpage Hcollect).
        now apply IH. }
    unfold fetch_okta_group_members, bind.
    fold (okta_headers token). fold (okta_url base gid).
    specialize (Hloop fuel (okta_url base gid) ∅ w (okta_url_truthy base gid)).
    destruct (okta_loop _ _ _ _ _ _) as [[users | e |] w']; cbn [fst] in *;
      try discriminate. reflexivity.
Qed.

End Failures.

Lemma error_status_ends_fetch_witness :
  calendly_loop (fixture unavailable_peer) 1 (calendly_headers (Some "tok"))
                (calendly_url (Some "org")) [] (start env_all)
  = (Raise (HTTPError 503),
     answered (start env_all)
       (get_request (calendly_url (Some "org")) (calendly_headers (Some "tok")))
       (inr (json_page 503 (VDict []) None)) 1%nat)
  /\ okta_loop (fixture unavailable_peer) 1 (okta_headers (Some "otok"))
               (okta_url (Some "https://okta") (Some "g1")) ∅ (start env_all)
     = (Raise (HTTPError 503),
        answered (start env_all)
          (get_request (okta_url (Some "https://okta") (Some "g1"))
                       (okta_headers (Some "otok")))
          (inr (json_page 503 (VDict []) None)) 1%nat).
Proof.
  split.
  - exact (proj1 (error_status_ends_fetch (fixture unavailable_peer))
             0%nat (calendly_headers (Some "tok")) (calendly_url (Some "org")) []
             (start env_all) (json_page 503 (VDict []) None) 1%nat
             eq_refl eq_refl eq_refl).
  - exact (proj2 (error_status_ends_fetch (fixture unavailable_peer))
             0%nat (okta_headers (Some "otok"))
             (okta_url (Some "https://okta") (Some "g1")) ∅
             (start env_all) (json_page 503 (VDict []) None) 1%nat
             eq_refl eq_refl eq_refl).
Defined.

Lemma request_exceptions_end_fetch_witness :
  fst (calendly_loop (fixture []) 1 (calendly_headers (Some "tok"))
                     (calendly_url (Some "org")) [] (start env_all))
  = Raise RequestException
  /\ fst (okta_loop (fixture []) 1 (okta_headers (Some "otok"))
                    (okta_url (Some "https://okta") (Some "g1")) ∅ (start env_all))
     = Raise RequestException
  /\ fst (calendly_loop (fixture html_peer) 1 (calendly_headers (Some "tok"))
                        (calendly_url (Some "org")) [] (start env_all))
     = Raise JSONDecodeError
  /\ fst (okta_loop (fixture html_peer) 1 (okta_headers (Some "otok"))
                    (okta_url (Some "https://okta") (Some "g1")) ∅ (start env_all))
     = Raise JSONDecodeError.
Proof.
  split; [| split; [| split]].
  - rewrite (proj1 (request_exceptions_end_fetch (fixture []))
               0%nat (calendly_headers (Some "tok")) (calendly_url (Some "org")) []
               (start env_all) RequestException 1%nat eq_refl eq_refl).
    reflexivity.
  - rewrite (proj1 (proj2 (request_exceptions_end_fetch (fixture [])))
               0%nat (okta_headers (Some "otok"))
               (okta_url (Some "https://okta") (Some "g1")) ∅
               (start env_all) RequestException 1%nat eq_refl eq_refl).
    reflexivity.
  - rewrite (proj1 (proj2 (proj2 (request_exceptions_end_fetch (fixture html_peer))))
               0%nat (calendly_headers (Some "tok")) (calendly_url (Some "org")) []
               (start env_all) html_page 1%nat eq_refl eq_refl eq_refl eq_refl).
    reflexivity.
  - rewrite (proj2 (proj2 (proj2 (request_exceptions_end_fetch (fixture html_peer))))
               0%nat (okta_headers (Some "otok"))
               (okta_url (Some "https://okta") (Some "g1")) ∅
               (start env_all) html_page 1%nat eq_refl eq_refl eq_refl eq_refl).
    reflexivity.
Defined.

Lemma wrong_body_kind_ends_fetch_witness :
  fst (calendly_loop (fixture [(url_c1, json_page 200 (VList []) None)]) 1
                     (calendly_headers (Some "tok")) (calendly_url (Some "org")) []
                     (start env_all))
  = Raise AttributeError
  /\ fst (okta_loop
            (fixture [(url_o1, json_page 200 (VDict [("errorCode", VStr "E0000011")])
                                         None)])
            1 (okta_headers (Some "otok"))
            (okta_url (Some "https://okta") (Some "g1")) ∅ (start env_all))
     = Raise TypeError.
Proof.
  split.
  - rewrite (proj1 (wrong_body_kind_ends_fetch
                      (fixture [(url_c1, json_page 200 (VList []) None)]))
               0%nat (calendly_headers (Some "tok")) (calendly_url (Some "org")) []
               (start env_all) (json_page 200 (VList []) None) 1%nat (VList [])
               eq_refl eq_refl eq_refl eq_refl).
    + reflexivity.
    + intros d. discriminate.
  - rewrite (proj2 (wrong_body_kind_ends_fetch
                      (fixture [(url_o1,
                                 json_page 200 (VDict [("errorCode", VStr "E0000011")])
                                           None)]))
               0%nat (okta_headers (Some "otok"))
               (okta_url (Some "https://okta") (Some "g1")) ∅
               (start env_all)
               (json_page 200 (VDict [("errorCode", VStr "E0000011")]) None)
               1%nat (VDict [("errorCode", VStr "E0000011")])
               eq_refl eq_refl eq_refl eq_refl).
    + reflexivity.
    + intros l. discriminate.
    + discriminate.
    + discriminate.
Defined.

Lemma okta_missing_email_ends_fetch_witness :
  exists key, (key = "profile" \/ key = "email")
    /\ okta_loop (fixture okta_no_email_peer) 5 (okta_headers (Some "otok"))
                 (okta_url (Some "https://okta") (Some "g1")) ∅ (start env_all)
       = (Raise (KeyError key),
          answered (start env_all)
            (get_request (okta_url (Some "https://okta") (Some "g1"))
                         (okta_headers (Some "otok")))
            (inr (json_page 200 (VList [okta_member "ann@x.com" "ACTIVE";
                                        okta_no_email_member])
                            (Some "o/2")))
            1%nat).
Proof.
  apply (okta_missing_email_ends_fetch (fixture okta_no_email_peer) 4
           (okta_headers (Some "otok")) (okta_url (Some "https://okta") (Some "g1"))
           ∅ (start env_all) _ 1%nat
           [okta_member "ann@x.com" "ACTIVE"; okta_no_email_member]
           (VStr "o/2")).
  - reflexivity.
  - reflexivity.
  - reflexivity.
  - repeat constructor.
  - reflexivity.
Defined.

Lemma calendly_late_failure_walk :
  walk (fixture calendly_late_failure) calendly_page (calendly_headers (Some "tok"))
       0%nat (calendly_url (Some "org"))
       [[no_email_member]; [calendly_member "bob@x.com"]] 2%nat.
Proof.
  eapply walk_more; [reflexivity | reflexivity | reflexivity | reflexivity |].
  eapply walk_last; reflexivity.
Qed.

Lemma calendly_missing_email_fails_late_witness :
  exists key w',
    (key = "user" \/ key = "email")
    /\ fetch_calendly_users (fixture calendly_late_failure) 2 (Some "tok")
                            (Some "org") (start env_all)
       = (Raise (KeyError key), w')
    /\ peer w' = 2%nat
    /\ length (trace w') = 2%nat.
Proof.
  apply (calendly_missing_email_fails_late (fixture calendly_late_failure) 2
           (Some "tok") (Some "org") (start env_all)
           [[no_email_member]; [calendly_member "bob@x.com"]] 2%nat).
  - exact calendly_late_failure_walk.
  - repeat constructor.
  - reflexivity.
  - cbn. lia.
Defined.

Lemma endless_pagination_never_returns_witness :
  fst (fetch_calendly_users (endless endless_page) 50 (Some "tok") (Some "org")
                            (start env_all)) = Diverged
  /\ fst (fetch_okta_group_members (endless endless_list_page) 50 (Some "otok")
            (Some "https://okta") (Some "g1") (start env_all)) = Diverged.
Proof.
  split.
  - apply (proj1 (endless_pagination_never_returns (endless endless_page))
             (Some "tok") (Some "org")).
    intros s url.
    exists endless_page, [calendly_member "a@x.com"], (VStr "https://next"), (S s).
    split; [reflexivity | split; reflexivity].
  - apply (proj2 (endless_pagination_never_returns (endless endless_list_page))
             (Some "otok") (Some "https://okta") (Some "g1")).
    intros s url.
    exists endless_list_page, [okta_member "a@x.com" "ACTIVE"],
           (VStr "https://next"), (S s).
    split; [reflexivity | split; [reflexivity | split; reflexivity]].
Defined.

(** ** The requests of a fetch *)

Section Requests.

Context {server : Type}.
Variable transport : server -> request -> outcome * server.

Lemma only_gets_lift {A} (headers : list (string * string)) (r : result A) :
  only_gets (server := server) headers (lift r).
Proof.
  intros w. exists []. unfold new_events, lift. cbn [snd].
  rewrite app_nil_r. split; [reflexivity | constructor].
Qed.

Lemma only_gets_bind {A B} (headers : list (string * string))
    (m : io A) (k : A -> io B) :
  only_gets (server := server) headers m ->
  (forall a, only_gets headers (k a)) ->
  only_gets headers (bind m k).
Proof.
  intros Hm Hk w. destruct (Hm w) as (evs1 & Hev1 & Hall1).
  unfold bind, new_events in *.
  destruct (m w) as [[a | e |] w1]; cbn [snd] in *.
  - destruct (Hk a w1) as (evs2 & Hev2 & Hall2). unfold new_events in Hev2.
    exists (evs1 ++ evs2). rewrite Hev2, Hev1, app_assoc.
    split; [reflexivity | now apply Forall_app].
  - exists evs1. auto.
  - exists evs1. auto.
Qed.

(** A GET followed by anything that only issues GETs with the same headers:
    the request comes first in the trace. *)
Lemma get_then_only_gets {A} (headers : list (string * string)) (url : value)
    (k : response -> io A) :
  (forall r, only_gets headers (k r)) ->
  forall w, exists out evs,
    new_events w (snd (bind (requests_get transport url headers) k w))
               (EvHttp (get_request url headers) out :: evs)
    /\ Forall (is_get_of headers) evs.
Proof.
  intros Hk w. unfold bind, requests_get, http, new_events.
  fold (get_request url headers).
  destruct (transport (peer w) _) as [[e | r] s']; cbn [snd trace].
  - exists (inl e), []. split; [reflexivity | constructor].
  - match goal with
    | |- context [k r ?w1] => destruct (Hk r w1) as (evs & Hev & Hall)
    end.
    unfold new_events in Hev. cbn [trace] in Hev.
    exists (inr r), evs. rewrite Hev, <- app_assoc. split; [reflexivity | exact Hall].
Qed.

Lemma only_gets_get {A} (headers : list (string * string)) (url : value)
    (k : response -> io A) :
  (forall r, only_gets headers (k r)) ->
  only_gets headers (bind (requests_get transport url headers) k).
Proof.
  intros Hk w. destruct (get_then_only_gets headers url k Hk w)
    as (out & evs & Hev & Hall).
  eexists. split; [exact Hev |]. constructor; [| exact Hall].
  exists url, out. reflexivity.
Qed.

Lemma only_gets_calendly_loop (fuel : nat) (headers : list (string * string))
    (url : value) (users : list value) :
  only_gets headers (calendly_loop transport fuel headers url users).
Proof.
  revert url users. induction fuel as [| fuel IH]; intros url users;
    cbn [calendly_loop]; destruct (truthy url);
    try (apply (only_gets_lift headers (Ok users)));
    try (apply only_gets_lift).
  apply only_gets_get. intros r.
  repeat (apply only_gets_bind; [apply only_gets_lift | intros ?]).
  apply IH.
Qed.

Lemma only_gets_okta_loop (fuel : nat) (headers : list (string * string))
    (url : value) (users : gmap string value) :
  only_gets headers (okta_loop transport fuel headers url users).
Proof.
  revert url users. induction fuel as [| fuel IH]; intros url users;
    cbn [okta_loop]; destruct (truthy url);
    try (apply (only_gets_lift headers (Ok users)));
    try (apply only_gets_lift).
  apply only_gets_get. intros r.
  repeat (apply only_gets_bind; [apply only_gets_lift | intros ?]).
  apply IH.
Qed.

(** The first request of each fetcher, when it runs at all. *)
Lemma fetch_calendly_users_first_request (fuel : nat)
    (token org : option string) (w : world server) :
  exists out evs,
    new_events w (snd (fetch_calendly_users transport (S fuel) token org w))
      (EvHttp (get_request (calendly_url org) (calendly_headers token)) out :: evs)
    /\ Forall (is_get_of (calendly_headers token)) evs.
Proof.
  unfold fetch_calendly_users.
  fold (calendly_headers token). fold (calendly_url org).
  cbn [calendly_loop]. change (truthy (calendly_url org)) with true. cbv iota.
  set (k := fun response : response => _).
  assert (Hk : forall r, only_gets (calendly_headers token) (k r)).
  { intros r. subst k. cbv beta.
    repeat (apply only_gets_bind; [apply only_gets_lift | intros ?]).
    apply only_gets_calendly_loop. }
  assert (Hassoc : forall w,
    bind (bind (requests_get transport (calendly_url org) (calendly_headers token)) k)
         (fun users => lift (calendly_emails users)) w
    = bind (requests_get transport (calendly_url org) (calendly_headers token))
           (fun r => bind (k r) (fun users => lift (calendly_emails users))) w).
  { intros w0. unfold bind.
    destruct (requests_get _ _ _ w0) as [[r | e |] w1]; reflexivity. }
  rewrite Hassoc. apply get_then_only_gets.
  intros r. apply only_gets_bind; [apply Hk | intros users; apply only_gets_lift].
Qed.

Lemma fetch_okta_group_members_first_request (fuel : nat)
    (token base gid : option string) (w : world server) :
  exists out evs,
    new_events w (snd (fetch_okta_group_members transport (S fuel) token base gid w))
      (EvHttp (get_request (okta_url base gid) (okta_headers token)) out :: evs)
    /\ Forall (is_get_of (okta_headers token)) evs.
Proof.
  unfold fetch_okta_group_members.
  fold (okta_headers token). fold (okta_url base gid).
  cbn [okta_loop]. rewrite okta_url_truthy.
  set (k := fun response : response => _).
  assert (Hk : forall r, only_gets (okta_headers token) (k r)).
  { intros r. subst k. cbv beta.
    repeat (apply only_gets_bind; [apply only_gets_lift | intros ?]).
    apply only_gets_okta_loop. }
  assert (Hassoc : forall w,
    bind (bind (requests_get transport (okta_url base gid) (okta_headers token)) k)
         (fun users => ret (dom users)) w
    = bind (requests_get transport (okta_url base gid) (okta_headers token))
           (fun r => bind (k r) (fun users => ret (dom users))) w).
  { intros w0. unfold bind.
    destruct (requests_get _ _ _ w0) as [[r | e |] w1]; reflexivity. }
  rewrite Hassoc. apply get_then_only_gets.
  intros r. apply only_gets_bind; [apply Hk |].
  intros users. apply (only_gets_lift _ (Ok (dom users))).
Qed.

Lemma bind_lift {A B} (r : result A) (k : A -> io B) (w : world server) :
  bind (lift r) k w
  = match r with
    | Ok a => k a w
    | Raise e => (Raise e, w)
    | Diverged => (Diverged, w)
    end.
Proof. unfold bind, lift. destruct r; reflexivity. Qed.

Lemma pointer_reads (d : list (string * value)) (p next : value) :
  get (VDict d) "pagination" (VDict []) = Ok p ->
  get p "next_page" VNone = Ok next ->
  calendly_pointer d = Some next.
Proof.
  unfold calendly_pointer. cbn [get].
  destruct (assoc "pagination" d) as [[| | | | |p'] |]; intros Hp Hn;
    inversion Hp; subst; try discriminate; cbn [get assoc] in Hn.
  - destruct (assoc "next_page" p'); inversion Hn; reflexivity.
  - inversion Hn. reflexivity.
Qed.

(** The requests of the Calendly loop follow the pointers of the bodies. *)
Lemma calendly_loop_chain (fuel : nat) (headers : list (string * string))
    (url : value) (users : list value) (w : world server) :
  exists evs,
    new_events w (snd (calendly_loop transport fuel headers url users w)) evs
    /\ url_chain headers calendly_next url evs.
Proof.
  revert url users w. induction fuel as [| fuel IH]; intros url users w;
    cbn [calendly_loop]; destruct (truthy url);
    try (exists []; split; [unfold new_events; cbn; now rewrite app_nil_r
                           | apply chain_nil]).
  unfold bind at 1. unfold requests_get. fold (get_request url headers).
  destruct (transport (peer w) (get_request url headers)) as [out s'] eqn:Hget.
  rewrite (http_answered transport _ _ _ _ Hget).
  set (w1 := answered w (get_request url headers) out s').
  assert (Hstop : forall (res : result (list value)),
             exists evs,
               new_events w (snd (res, w1)) evs
               /\ url_chain headers calendly_next url evs).
  { intros res. exists [EvHttp (get_request url headers) out].
    split; [reflexivity | apply chain_stop]. }
  destruct out as [e | r]; [apply Hstop |].
  rewrite bind_lift. destruct (raise_for_status r); try apply Hstop.
  rewrite bind_lift. destruct (json r) as [data | |] eqn:Hjson; try apply Hstop.
  rewrite bind_lift.
  destruct (get data "collection" (VList [])) as [c | |] eqn:Hc; try apply Hstop.
  rewrite bind_lift. destruct (iter c) as [items | |]; try apply Hstop.
  rewrite bind_lift.
  destruct (get data "pagination" (VDict [])) as [p | |] eqn:Hp; try apply Hstop.
  rewrite bind_lift.
  destruct (get p "next_page" VNone) as [next | |] eqn:Hn; try apply Hstop.
  destruct (IH next (users ++ items) w1) as (evs & Hev & Hchain).
  exists (EvHttp (get_request url headers) (inr r) :: evs). split.
  - unfold new_events in *. rewrite Hev. subst w1. cbn [answered trace].
    now rewrite <- app_assoc.
  - apply (chain_cons _ _ _ _ next); [| exact Hchain].
    unfold calendly_next. unfold json in Hjson.
    destruct (json_body r) as [body |]; [| discriminate].
    inversion Hjson; subst body.
    destruct data as [| | | | |d]; try discriminate.
    exact (pointer_reads d p next Hp Hn).
Qed.

(** The requests of the Okta loop follow the [next] links. *)
Lemma okta_loop_chain (fuel : nat) (headers : list (string * string))
    (url : value) (users : gmap string value) (w : world server) :
  exists evs,
    new_events w (snd (okta_loop transport fuel headers url users w)) evs
    /\ url_chain headers okta_next url evs.
Proof.
  revert url users w. induction fuel as [| fuel IH]; intros url users w;
    cbn [okta_loop]; destruct (truthy url);
    try (exists []; split; [unfold new_events; cbn; now rewrite app_nil_r
                           | apply chain_nil]).
  unfold bind at 1. unfold requests_get. fold (get_request url headers).
  destruct (transport (peer w) (get_request url headers)) as [out s'] eqn:Hget.
  rewrite (http_answered transport _ _ _ _ Hget).
  set (w1 := answered w (get_request url headers) out s').
  assert (Hstop : forall (res : result (gmap string value)),
             exists evs,
               new_events w (snd (res, w1)) evs
               /\ url_chain headers okta_next url evs).
  { intros res. exists [EvHttp (get_request url headers) out].
    split; [reflexivity | apply chain_stop]. }
  destruct out as [e | r]; [apply Hstop |].
  rewrite bind_lift. destruct (raise_for_status r); try apply Hstop.
  rewrite bind_lift. destruct (json r) as [data | |]; try apply Hstop.
  rewrite bind_lift. destruct (iter data) as [members | |]; try apply Hstop.
  rewrite bind_lift.
  destruct (okta_collect members users) as [users' | |]; try apply Hstop.
  destruct (IH (links_next_url r) users' w1) as (evs & Hev & Hchain).
  exists (EvHttp (get_request url headers) (inr r) :: evs). split.
  - unfold new_events in *. rewrite Hev. subst w1. cbn [answered trace].
    now rewrite <- app_assoc.
  - apply (chain_cons _ _ _ _ (links_next_url r)); [reflexivity | exact Hchain].
Qed.

Lemma snd_bind_pure {A B} (m : io A) (f : A -> result B) (w : world server) :
  snd (bind m (fun a => lift (f a)) w) = snd (m w).
Proof. unfold bind, lift. destruct (m w) as [[a | e |] w']; reflexivity. Qed.

(** X13: every event of a Calendly fetch is a GET carrying the two headers
    built from the token ([Authorization: Bearer ...] and [Content-Type]),
    the first one to the organization-memberships URL; each later one goes
    to what the body of the response before it holds under
    [pagination.next_page], whatever that URL is, with the same headers.
    Nothing is printed or posted. *)
Theorem calendly_requests_carry_token (fuel : nat)
    (token org : option string) (w : world server) (evs : list event) :
  new_events w (snd (fetch_calendly_users transport fuel token org w)) evs ->
  Forall (is_get_of (calendly_headers token)) evs
  /\ ((1 <= fuel)%nat ->
      exists out evs',
        evs = EvHttp (get_request (calendly_url org) (calendly_headers token)) out
              :: evs')
  /\ url_chain (calendly_headers token) calendly_next (calendly_url org) evs.
Proof.
  intros Hev. split; [| split].
  3:{ destruct (calendly_loop_chain fuel (calendly_headers token)
                  (calendly_url org) [] w) as (evs0 & Hev0 & Hchain).
      unfold new_events in *. unfold fetch_calendly_users in Hev.
      fold (calendly_headers token) in Hev. fold (calendly_url org) in Hev.
      rewrite snd_bind_pure, Hev0 in Hev.
      apply app_inv_head in Hev. now subst evs0. }
  - assert (Hgets : only_gets (calendly_headers token)
                      (fetch_calendly_users transport fuel token org)).
    { unfold fetch_calendly_users. apply only_gets_bind.
      - apply only_gets_calendly_loop.
      - intros users. apply only_gets_lift. }
    destruct (Hgets w) as (evs0 & Hev0 & Hall).
    unfold new_events in *. rewrite Hev in Hev0.
    apply app_inv_head in Hev0. now subst evs0.
  - intros Hfuel. destruct fuel as [| fuel]; [lia |].
    destruct (fetch_calendly_users_first_request fuel token org w)
      as (out & evs' & Hev' & _).
    unfold new_events in *. rewrite Hev in Hev'.
    apply app_inv_head in Hev'. eauto.
Qed.

(** X14: every event of an Okta fetch is a GET carrying the two headers
    built from the token ([Authorization: SSWS ...] and [Accept]), the
    first one to the group-members URL; each later one goes to the URL of
    the [next] link of the response before it.  Nothing is printed or
    posted. *)
Theorem okta_requests_carry_token (fuel : nat)
    (token base gid : option string) (w : world server) (evs : list event) :
  new_events w (snd (fetch_okta_group_members transport fuel token base gid w)) evs ->
  Forall (is_get_of (okta_headers token)) evs
  /\ ((1 <= fuel)%nat ->
      exists out evs',
        evs = EvHttp (get_request (okta_url base gid) (okta_headers token)) out
              :: evs')
  /\ url_chain (okta_headers token) okta_next (okta_url base gid) evs.
Proof.
  intros Hev. split; [| split].
  3:{ destruct (okta_loop_chain fuel (okta_headers token)
                  (okta_url base gid) ∅ w) as (evs0 & Hev0 & Hchain).
      unfold new_events in *. unfold fetch_okta_group_members in Hev.
      fold (okta_headers token) in Hev. fold (okta_url base gid) in Hev.
      change (fun users : gmap string value => ret (dom users))
        with (fun users : gmap string value => lift (server := server) (Ok (dom users)))
        in Hev.
      rewrite (snd_bind_pure _ (fun users => Ok (dom users))), Hev0 in Hev.
      apply app_inv_head in Hev. now subst evs0. }
  - assert (Hgets : only_gets (okta_headers token)
                      (fetch_okta_group_members transport fuel token base gid)).
    { unfold fetch_okta_group_members. apply only_gets_bind.
      - apply only_gets_okta_loop.
      - intros users. apply (only_gets_lift _ (Ok (dom users))). }
    destruct (Hgets w) as (evs0 & Hev0 & Hall).
    unfold new_events in *. rewrite Hev in Hev0.
    apply app_inv_head in Hev0. now subst evs0.
  - intros Hfuel. destruct fuel as [| fuel]; [lia |].
    destruct (fetch_okta_group_members_first_request fuel token base gid w)
      as (out & evs' & Hev' & _).
    unfold new_events in *. rewrite Hev in Hev'.
    apply app_inv_head in Hev'. eauto.
Qed.

End Requests.

Lemma calendly_requests_carry_token_witness :
  let run := fetch_calendly_users (fixture calendly_three) 3 (Some "tok") (Some "org")
                                  (start env_all) in
  new_events (start env_all) (snd run) (trace (snd run))
  /\ Forall (is_get_of (calendly_headers (Some "tok"))) (trace (snd run))
  /\ url_chain (calendly_headers (Some "tok")) calendly_next
               (calendly_url (Some "org")) (trace (snd run)).
Proof.
  intros run.
  assert (H : new_events (start env_all) (snd run) (trace (snd run))).
  { reflexivity. }
  split; [exact H |].
  pose proof (calendly_requests_carry_token (fixture calendly_three) 3
                (Some "tok") (Some "org") (start env_all) (trace (snd run)) H)
    as (Hgets & _ & Hchain).
  split; [exact Hgets | exact Hchain].
Defined.

Lemma okta_requests_carry_token_witness :
  let run := fetch_okta_group_members (fixture okta_three) 3 (Some "otok")
               (Some "https://okta") (Some "g1") (start env_all) in
  new_events (start env_all) (snd run) (trace (snd run))
  /\ Forall (is_get_of (okta_headers (Some "otok"))) (trace (snd run))
  /\ url_chain (okta_headers (Some "otok")) okta_next
               (okta_url (Some "https://okta") (Some "g1")) (trace (snd run)).
Proof.
  intros run.
  assert (H : new_events (start env_all) (snd run) (trace (snd run))).
  { reflexivity. }
  split; [exact H |].
  pose proof (okta_requests_carry_token (fixture okta_three) 3
                (Some "otok") (Some "https://okta") (Some "g1") (start env_all)
                (trace (snd run)) H)
    as (Hgets & _ & Hchain).
  split; [exact Hgets | exact Hchain].
Defined.

(** ** A run of [main] past the configuration check *)

Section MainRun.

Context {server : Type}.
Variable transport : server -> request -> outcome * server.

(** [post_to_slack] issues one request and returns what
    [raise_for_status] says of the answer. *)
Lemma post_to_slack_run (url : option string) (message : string)
    (w : world server) (out : outcome) (s' : server) :
  transport (peer w) (post_request (env_value url) message) = (out, s') ->
  post_to_slack transport url message w
  = (checked out, answered w (post_request (env_value url) message) out s').
Proof.
  intros Hpost. unfold post_to_slack, bind, requests_post.
  fold (post_request (env_value url) message).
  rewrite (http_answered transport _ _ _ _ Hpost).
  destruct out as [e | r]; reflexivity.
Qed.

Lemma main_calendly_raises (fuel : nat) (w w1 : world server) (e : exn) :
  configured w = true ->
  fetch_calendly_users transport fuel
    (environ w !! "CALENDLY_API_TOKEN") (environ w !! "CALENDLY_ORG_URL")
    (emit (EvPrint "Fetching Calendly users...") w) = (Raise e, w1) ->
  main transport fuel w = (Raise e, w1).
Proof.
  intros Hall HA. unfold main.
  unfold bind at 1 2 3 4 5 6. unfold getenv.
  unfold configured in Hall. cbn [fmap list_fmap required_env] in Hall.
  rewrite Hall. cbn [negb].
  unfold bind at 1. unfold print at 1.
  unfold bind at 1. rewrite HA. reflexivity.
Qed.

Lemma main_calendly_diverges (fuel : nat) (w w1 : world server) :
  configured w = true ->
  fetch_calendly_users transport fuel
    (environ w !! "CALENDLY_API_TOKEN") (environ w !! "CALENDLY_ORG_URL")
    (emit (EvPrint "Fetching Calendly users...") w) = (Diverged, w1) ->
  main transport fuel w = (Diverged, w1).
Proof.
  intros Hall HA. unfold main.
  unfold bind at 1 2 3 4 5 6. unfold getenv.
  unfold configured in Hall. cbn [fmap list_fmap required_env] in Hall.
  rewrite Hall. cbn [negb].
  unfold bind at 1. unfold print at 1.
  unfold bind at 1. rewrite HA. reflexivity.
Qed.

Lemma main_okta_raises (fuel : nat) (w w1 w2 : world server)
    (A : gset string) (e : exn) :
  configured w = true ->
  fetch_calendly_users transport fuel
    (environ w !! "CALENDLY_API_TOKEN") (environ w !! "CALENDLY_ORG_URL")
    (emit (EvPrint "Fetching Calendly users...") w) = (Ok A, w1) ->
  fetch_okta_group_members transport fuel
    (environ w !! "OKTA_API_TOKEN") (environ w !! "OKTA_BASE_URL")
    (environ w !! "OKTA_CALENDLY_GROUP_ID")
    (emit (EvPrint "Fetching Okta group members...") w1) = (Raise e, w2) ->
  main transport fuel w = (Raise e, w2).
Proof.
  intros Hall HA HB. unfold main.
  unfold bind at 1 2 3 4 5 6. unfold getenv.
  unfold configured in Hall. cbn [fmap list_fmap required_env] in Hall.
  rewrite Hall. cbn [negb].
  unfold bind at 1. unfold print at 1.
  unfold bind at 1. rewrite HA.
  unfold bind at 1. unfold print at 1.
  unfold bind at 1. rewrite HB. reflexivity.
Qed.

Lemma main_okta_diverges (fuel : nat) (w w1 w2 : world server)
    (A : gset string) :
  configured w = true ->
  fetch_calendly_users transport fuel
    (environ w !! "CALENDLY_API_TOKEN") (environ w !! "CALENDLY_ORG_URL")
    (emit (EvPrint "Fetching Calendly users...") w) = (Ok A, w1) ->
  fetch_okta_group_members transport fuel
    (environ w !! "OKTA_API_TOKEN") (environ w !! "OKTA_BASE_URL")
    (environ w !! "OKTA_CALENDLY_GROUP_ID")
    (emit (EvPrint "Fetching Okta group members...") w1) = (Diverged, w2) ->
  main transport fuel w = (Diverged, w2).
Proof.
  intros Hall HA HB. unfold main.
  unfold bind at 1 2 3 4 5 6. unfold getenv.
  unfold configured in Hall. cbn [fmap list_fmap required_env] in Hall.
  rewrite Hall. cbn [negb].
  unfold bind at 1. unfold print at 1.
  unfold bind at 1. rewrite HA.
  unfold bind at 1. unfold print at 1.
  unfold bind at 1. rewrite HB. reflexivity.
Qed.

(** X15: no recovery.  Past the configuration check, an exception raised by
    the Calendly fetch ends the run with that exception in the world the
    fetch left: Okta is never contacted and nothing is posted.  An exception
    raised by the Okta fetch ends the run the same way. *)
Theorem fetch_failure_ends_run :
  (forall (fuel : nat) (w w1 : world server) (e : exn),
      configured w = true ->
      fetch_calendly_users transport fuel
        (environ w !! "CALENDLY_API_TOKEN") (environ w !! "CALENDLY_ORG_URL")
        (emit (EvPrint "Fetching Calendly users...") w) = (Raise e, w1) ->
      main transport fuel w = (Raise e, w1))
  /\ (forall (fuel : nat) (w w1 w2 : world server) (A : gset string) (e : exn),
         configured w = true ->
         fetch_calendly_users transport fuel
           (environ w !! "CALENDLY_API_TOKEN") (environ w !! "CALENDLY_ORG_URL")
           (emit (EvPrint "Fetching Calendly users...") w) = (Ok A, w1) ->
         fetch_okta_group_members transport fuel
           (environ w !! "OKTA_API_TOKEN") (environ w !! "OKTA_BASE_URL")
           (environ w !! "OKTA_CALENDLY_GROUP_ID")
           (emit (EvPrint "Fetching Okta group members...") w1) = (Raise e, w2) ->
         main transport fuel w = (Raise e, w2)).
Proof.
  split.
  - intros. now apply main_calendly_raises.
  - intros. now apply (main_okta_raises _ _ w1 _ A).
Qed.

(** X16: a complete run.  When the six variables are set, the Calendly
    pages and then the Okta pages are well-formed walks, [main] posts once,
    as its last action, the alert built from the tally of the two unions to
    the webhook URL, and ends with what [raise_for_status] says of the
    answer: it returns when the webhook accepts, raises HTTPError when the
    webhook answers 4xx or 5xx.  The run makes one request per page and
    prints four lines. *)
Theorem complete_run (fuel : nat) (w : world server)
    (pagesA pagesB : list (list value)) (sA sB s3 : server) (out : outcome) :
  configured w = true ->
  walk transport calendly_page
       (calendly_headers (environ w !! "CALENDLY_API_TOKEN"))
       (peer w) (calendly_url (environ w !! "CALENDLY_ORG_URL")) pagesA sA ->
  walk transport okta_page
       (okta_headers (environ w !! "OKTA_API_TOKEN"))
       sA (okta_url (environ w !! "OKTA_BASE_URL")
                    (environ w !! "OKTA_CALENDLY_GROUP_ID")) pagesB sB ->
  all_have_email "user" "email" pagesA = true ->
  all_have_email "profile" "email" pagesB = true ->
  (length pagesA <= fuel)%nat ->
  (length pagesB <= fuel)%nat ->
  let rq := post_request (env_value (environ w !! "SLACK_WEBHOOK_URL"))
              (alert_message
                 (calculate_license_counts
                    (⋃ (page_emails "user" "email" <$> pagesA))
                    (⋃ (page_emails "profile" "email" <$> pagesB)))) in
  transport sB rq = (out, s3) ->
  exists w',
    main transport fuel w = (checked out, w')
    /\ peer w' = s3
    /\ last (trace w') = Some (EvHttp rq out)
    /\ length (trace w')
       = (length (trace w) + length pagesA + length pagesB + 5)%nat.
Proof.
  intros Hall HwalkA HwalkB HallA HallB HfuelA HfuelB rq Hpost.
  destruct (fetch_calendly_users_walk transport fuel _ _
              (emit (EvPrint "Fetching Calendly users...") w) pagesA sA
              HwalkA HallA HfuelA) as (w1 & HA & Hpeer1 & Henv1 & Hlen1).
  assert (HwalkB' :
    walk transport okta_page (okta_headers (environ w !! "OKTA_API_TOKEN"))
         (peer (emit (EvPrint "Fetching Okta group members...") w1))
         (okta_url (environ w !! "OKTA_BASE_URL")
                   (environ w !! "OKTA_CALENDLY_GROUP_ID")) pagesB sB).
  { cbn [emit peer]. rewrite Hpeer1. exact HwalkB. }
  destruct (fetch_okta_group_members_walk transport fuel _ _ _
              (emit (EvPrint "Fetching Okta group members...") w1) pagesB sB
              HwalkB' HallB HfuelB) as (w2 & HB & Hpeer2 & Henv2 & Hlen2).
  rewrite (main_posts_alert_message transport fuel w w1 w2 _ _ Hall HA HB).
  set (w4 := emit (EvPrint "Sending alert to Slack...")
               (emit (EvPrint "Calculating license counts...") w2)).
  assert (Hpost' : transport (peer w4) rq = (out, s3)).
  { subst w4. cbn [emit peer]. rewrite Hpeer2. exact Hpost. }
  rewrite (post_to_slack_run _ _ _ _ _ Hpost'). fold rq.
  eexists. split; [reflexivity | split; [reflexivity | split]].
  - cbn [answered trace]. apply last_snoc.
  - cbn [answered trace]. subst w4. cbn [emit trace].
    rewrite !length_app, Hlen2. cbn [emit trace].
    rewrite !length_app, Hlen1. cbn [emit trace].
    rewrite !length_app. cbn [length]. lia.
Qed.

(** The shape of the trace of a run past the configuration check. *)
Lemma main_trace_shape (fuel : nat) (w : world server) :
  configured w = true ->
  exists evsA tail,
    new_events w (snd (main transport fuel w))
               (EvPrint "Fetching Calendly users..." :: evsA ++ tail)
    /\ new_events (emit (EvPrint "Fetching Calendly users...") w)
         (snd (fetch_calendly_users transport fuel
                 (environ w !! "CALENDLY_API_TOKEN")
                 (environ w !! "CALENDLY_ORG_URL")
                 (emit (EvPrint "Fetching Calendly users...") w))) evsA
    /\ existsb is_post evsA = false
    /\ (tail = []
        \/ exists evsB,
             existsb is_post evsB = false
             /\ (tail = EvPrint "Fetching Okta group members..." :: evsB
                 \/ exists A B out,
                      tail = EvPrint "Fetching Okta group members..." :: evsB
                             ++ [EvPrint "Calculating license counts...";
                                 EvPrint "Sending alert to Slack...";
                                 EvHttp (post_request
                                           (env_value (environ w !! "SLACK_WEBHOOK_URL"))
                                           (alert_message
                                              (calculate_license_counts A B)))
                                        out])).
Proof.
  intros Hall.
  set (w0 := emit (EvPrint "Fetching Calendly users...") w).
  destruct (fetch_safe_calendly transport fuel
              (environ w !! "CALENDLY_API_TOKEN") (environ w !! "CALENDLY_ORG_URL") w0)
    as (evsA & HevA & HpostA & _).
  exists evsA.
  destruct (fetch_calendly_users transport fuel _ _ w0) as [rA w1] eqn:HA.
  unfold new_events in HevA. cbn [snd] in HevA.
  assert (Hw1 : trace w1 = trace w ++ EvPrint "Fetching Calendly users..." :: evsA).
  { rewrite HevA. subst w0. cbn [emit trace]. now rewrite <- app_assoc. }
  destruct rA as [A | e |].
  - set (w1' := emit (EvPrint "Fetching Okta group members...") w1).
    destruct (fetch_safe_okta transport fuel
                (environ w !! "OKTA_API_TOKEN") (environ w !! "OKTA_BASE_URL")
                (environ w !! "OKTA_CALENDLY_GROUP_ID") w1')
      as (evsB & HevB & HpostB & _).
    destruct (fetch_okta_group_members transport fuel _ _ _ w1') as [rB w2] eqn:HB.
    unfold new_events in HevB. cbn [snd] in HevB.
    assert (Hw2 : trace w2
                  = trace w ++ EvPrint "Fetching Calendly users..."
                      :: evsA ++ EvPrint "Fetching Okta group members..." :: evsB).
    { rewrite HevB. subst w1'. cbn [emit trace]. rewrite Hw1.
      rewrite <- !app_assoc. reflexivity. }
    destruct rB as [B | e |].
    + rewrite (main_posts_alert_message transport fuel w w1 w2 A B Hall HA HB).
      set (w4 := emit _ (emit _ w2)).
      destruct (transport (peer w4)
                  (post_request (env_value (environ w !! "SLACK_WEBHOOK_URL"))
                     (alert_message (calculate_license_counts A B))))
        as [out s3] eqn:Hpost.
      rewrite (post_to_slack_run _ _ _ _ _ Hpost).
      eexists. split; [| split; [exact HevA | split; [exact HpostA |]]].
      2:{ right. exists evsB. split; [exact HpostB |]. right.
          exists A, B, out. reflexivity. }
      unfold new_events. cbn [snd answered trace]. subst w4. cbn [emit trace].
      rewrite Hw2. rewrite <- !app_assoc. cbn [app].
      rewrite <- !app_assoc. reflexivity.
    + rewrite (main_okta_raises fuel w w1 w2 A e Hall HA HB).
      eexists. split; [| split; [exact HevA | split; [exact HpostA |]]].
      2:{ right. exists evsB. split; [exact HpostB |]. left. reflexivity. }
      unfold new_events. cbn [snd]. exact Hw2.
    + rewrite (main_okta_diverges fuel w w1 w2 A Hall HA HB).
      eexists. split; [| split; [exact HevA | split; [exact HpostA |]]].
      2:{ right. exists evsB. split; [exact HpostB |]. left. reflexivity. }
      unfold new_events. cbn [snd]. exact Hw2.
  - rewrite (main_calendly_raises fuel w w1 e Hall HA).
    exists []. split; [| split; [exact HevA | split; [exact HpostA | now left]]].
    unfold new_events. cbn [snd]. rewrite app_nil_r. exact Hw1.
  - rewrite (main_calendly_diverges fuel w w1 Hall HA).
    exists []. split; [| split; [exact HevA | split; [exact HpostA | now left]]].
    unfold new_events. cbn [snd]. rewrite app_nil_r. exact Hw1.
Qed.

End MainRun.

Section MainTrace.

Context {server : Type}.
Variable transport : server -> request -> outcome * server.

(** X17: in any run, [main] posts at most once, as its last action, to the
    webhook URL of the environment, and what it posts is the alert built
    from a tally: there is never a second message nor anything after it. *)
Theorem main_posts_at_most_once (fuel : nat) (w : world server)
    (evs : list event) :
  new_events w (snd (main transport fuel w)) evs ->
  existsb is_post evs = false
  \/ exists pre A B out,
       evs = pre ++ [EvHttp (post_request
                               (env_value (environ w !! "SLACK_WEBHOOK_URL"))
                               (alert_message (calculate_license_counts A B)))
                            out]
       /\ existsb is_post pre = false.
Proof.
  intros Hev. unfold new_events in Hev.
  destruct (configured w) eqn:Hc.
  - destruct (main_trace_shape transport fuel w Hc)
      as (evsA & tail & Hshape & _ & HpostA & Htail).
    unfold new_events in Hshape. rewrite Hev in Hshape.
    apply app_inv_head in Hshape. subst evs.
    destruct Htail as [-> | (evsB & HpostB & [-> | (A & B & out & ->)])].
    + left. rewrite app_nil_r. cbn [existsb is_post]. exact HpostA.
    + left. cbn [existsb is_post]. rewrite existsb_app, HpostA.
      cbn [existsb is_post orb]. exact HpostB.
    + right.
      exists (EvPrint "Fetching Calendly users..."
                :: evsA ++ EvPrint "Fetching Okta group members..."
                :: evsB ++ [EvPrint "Calculating license counts...";
                            EvPrint "Sending alert to Slack..."]),
             A, B, out.
      split.
      * cbn [app]. rewrite <- !app_assoc. cbn [app].
        rewrite <- !app_assoc. reflexivity.
      * cbn [existsb is_post]. rewrite existsb_app, HpostA.
        cbn [existsb is_post orb]. rewrite existsb_app, HpostB. reflexivity.
  - rewrite (main_guard_fails transport fuel w Hc) in Hev. cbn [snd] in Hev.
    rewrite <- (app_nil_r (trace w)) in Hev at 1.
    apply app_inv_head in Hev. subst evs. left. reflexivity.
Qed.

(** X18: the configuration check is exact: [main] ends with the ValueError
    and an unchanged trace if and only if one of the six variables is absent
    or empty. *)
Theorem configuration_check_exact (fuel : nat) (w : world server) :
  (fst (main transport fuel w) = Raise missing_env_error
   /\ trace (snd (main transport fuel w)) = trace w)
  <-> exists name, name ∈ required_env
                   /\ env_truthy (environ w !! name) = false.
Proof.
  split.
  - intros [_ Htrace].
    destruct (configured w) eqn:Hc.
    + destruct (main_trace_shape transport fuel w Hc) as (evsA & tail & Hshape & _).
      unfold new_events in Hshape. rewrite Htrace in Hshape.
      rewrite <- (app_nil_r (trace w)) in Hshape at 1.
      apply app_inv_head in Hshape. discriminate.
    + unfold configured in Hc.
      cbn [fmap list_fmap required_env forallb] in Hc.
      repeat match type of Hc with
             | (env_truthy (environ w !! ?name) && _)%bool = false =>
                 let H := fresh "H" in
                 destruct (env_truthy (environ w !! name)) eqn:H;
                 [cbn [andb] in Hc
                 | exists name; split;
                   [apply list_elem_of_In; cbn; tauto | exact H]]
             end.
      all: try discriminate.
  - intros (name & Hin & Hfalse).
    rewrite (main_guard_fails transport fuel w
               (falsy_variable_fails_guard w name Hin Hfalse)).
    split; reflexivity.
Qed.

(** X19: when the six variables are set and not empty, the run starts by
    printing its first progress line and then requests the organization
    memberships of [CALENDLY_ORG_URL] with the bearer token of
    [CALENDLY_API_TOKEN]. *)
Theorem configured_run_starts_fetch (fuel : nat) (w : world server) :
  configured w = true ->
  (1 <= fuel)%nat ->
  exists out evs,
    new_events w (snd (main transport fuel w))
      (EvPrint "Fetching Calendly users..."
         :: EvHttp (get_request
                      (calendly_url (environ w !! "CALENDLY_ORG_URL"))
                      (calendly_headers (environ w !! "CALENDLY_API_TOKEN")))
                   out
         :: evs).
Proof.
  intros Hc Hfuel.
  destruct (main_trace_shape transport fuel w Hc)
    as (evsA & tail & Hshape & HevA & _).
  destruct fuel as [| fuel]; [lia |].
  destruct (fetch_calendly_users_first_request transport fuel
              (environ w !! "CALENDLY_API_TOKEN") (environ w !! "CALENDLY_ORG_URL")
              (emit (EvPrint "Fetching Calendly users...") w))
    as (out & evs' & Hfirst & _).
  unfold new_events in HevA, Hfirst. rewrite HevA in Hfirst.
  apply app_inv_head in Hfirst. subst evsA.
  exists out, (evs' ++ tail). exact Hshape.
Qed.

End MainTrace.

Lemma start_configured : configured (start env_all) = true.
Proof. vm_compute. reflexivity. Qed.

Lemma fetch_failure_ends_run_witness :
  fst (main (fixture unavailable_peer) 2 (start env_all)) = Raise (HTTPError 503)
  /\ length (trace (snd (main (fixture unavailable_peer) 2 (start env_all)))) = 2%nat
  /\ fst (main (fixture okta_fails) 2 (start env_all)) = Raise (HTTPError 500).
Proof.
  assert (HA :
    fetch_calendly_users (fixture unavailable_peer) 2
      (environ (start env_all) !! "CALENDLY_API_TOKEN")
      (environ (start env_all) !! "CALENDLY_ORG_URL")
      (emit (EvPrint "Fetching Calendly users...") (start env_all))
    = (Raise (HTTPError 503),
       snd (fetch_calendly_users (fixture unavailable_peer) 2 (Some "tok") (Some "org")
              (emit (EvPrint "Fetching Calendly users...") (start env_all))))).
  { vm_compute. reflexivity. }
  assert (HA' :
    fetch_calendly_users (fixture okta_fails) 2
      (environ (start env_all) !! "CALENDLY_API_TOKEN")
      (environ (start env_all) !! "CALENDLY_ORG_URL")
      (emit (EvPrint "Fetching Calendly users...") (start env_all))
    = (Ok {[ "ann@x.com" ]},
       snd (fetch_calendly_users (fixture okta_fails) 2 (Some "tok") (Some "org")
              (emit (EvPrint "Fetching Calendly users...") (start env_all))))).
  { vm_compute. reflexivity. }
  assert (HB :
    fetch_okta_group_members (fixture okta_fails) 2
      (environ (start env_all) !! "OKTA_API_TOKEN")
      (environ (start env_all) !! "OKTA_BASE_URL")
      (environ (start env_all) !! "OKTA_CALENDLY_GROUP_ID")
      (emit (EvPrint "Fetching Okta group members...")
         (snd (fetch_calendly_users (fixture okta_fails) 2 (Some "tok") (Some "org")
                 (emit (EvPrint "Fetching Calendly users...") (start env_all)))))
    = (Raise (HTTPError 500),
       snd (fetch_okta_group_members (fixture okta_fails) 2 (Some "otok")
              (Some "https://okta") (Some "g1")
              (emit (EvPrint "Fetching Okta group members...")
                 (snd (fetch_calendly_users (fixture okta_fails) 2 (Some "tok")
                         (Some "org")
                         (emit (EvPrint "Fetching Calendly users...")
                            (start env_all)))))))).
  { vm_compute. reflexivity. }
  rewrite (proj1 (fetch_failure_ends_run (fixture unavailable_peer))
             2%nat (start env_all) _ _ start_configured HA).
  rewrite (proj2 (fetch_failure_ends_run (fixture okta_fails))
             2%nat (start env_all) _ _ _ _ start_configured HA' HB).
  split; [reflexivity | split; [vm_compute; reflexivity | reflexivity]].
Defined.

Lemma full_calendly_walk (hook_status : Z) :
  walk (fixture (full_peer hook_status)) calendly_page
       (calendly_headers (Some "tok")) 0%nat (calendly_url (Some "org"))
       [calendly_member <$> ["Ann@x.com"; "bob@x.com"];
        calendly_member <$> ["cy@x.com"]] 2%nat.
Proof.
  eapply walk_more; [reflexivity | reflexivity | reflexivity | reflexivity |].
  eapply walk_last; reflexivity.
Qed.

Lemma full_okta_walk (hook_status : Z) :
  walk (fixture (full_peer hook_status)) okta_page
       (okta_headers (Some "otok")) 2%nat
       (okta_url (Some "https://okta") (Some "g1"))
       [[okta_member "ann@x.com" "ACTIVE"];
        [okta_member "CY@x.com" "SUSPENDED"]] 4%nat.
Proof.
  eapply walk_more; [reflexivity | reflexivity | reflexivity | reflexivity |].
  eapply walk_last; reflexivity.
Qed.

Lemma complete_run_witness :
  (exists w',
      main (fixture (full_peer 200)) 2 (start env_all) = (Ok tt, w')
      /\ peer w' = 5%nat
      /\ length (trace w') = 9%nat)
  /\ (exists w',
         main (fixture (full_peer 500)) 2 (start env_all)
         = (Raise (HTTPError 500), w')
         /\ peer w' = 5%nat
         /\ length (trace w') = 9%nat).
Proof.
  split.
  - destruct (complete_run (fixture (full_peer 200)) 2 (start env_all)
                [calendly_member <$> ["Ann@x.com"; "bob@x.com"];
                 calendly_member <$> ["cy@x.com"]]
                [[okta_member "ann@x.com" "ACTIVE"];
                 [okta_member "CY@x.com" "SUSPENDED"]]
                2%nat 4%nat 5%nat (inr (json_page 200 VNone None))
                start_configured (full_calendly_walk 200) (full_okta_walk 200)
                eq_refl eq_refl (Nat.le_refl _) (Nat.le_refl _) eq_refl)
      as (w' & Hrun & Hpeer & _ & Hlen).
    exists w'. split; [exact Hrun | split; [exact Hpeer | exact Hlen]].
  - destruct (complete_run (fixture (full_peer 500)) 2 (start env_all)
                [calendly_member <$> ["Ann@x.com"; "bob@x.com"];
                 calendly_member <$> ["cy@x.com"]]
                [[okta_member "ann@x.com" "ACTIVE"];
                 [okta_member "CY@x.com" "SUSPENDED"]]
                2%nat 4%nat 5%nat (inr (json_page 500 VNone None))
                start_configured (full_calendly_walk 500) (full_okta_walk 500)
                eq_refl eq_refl (Nat.le_refl _) (Nat.le_refl _) eq_refl)
      as (w' & Hrun & Hpeer & _ & Hlen).
    exists w'. split; [exact Hrun | split; [exact Hpeer | exact Hlen]].
Defined.

Lemma main_posts_at_most_once_witness :
  let run := main (fixture (full_peer 200)) 2 (start env_all) in
  new_events (start env_all) (snd run) (trace (snd run))
  /\ (existsb is_post (trace (snd run)) = false
      \/ exists pre A B out,
           trace (snd run)
           = pre ++ [EvHttp (post_request
                               (env_value (environ (start env_all)
                                             !! "SLACK_WEBHOOK_URL"))
                               (alert_message (calculate_license_counts A B)))
                            out]
           /\ existsb is_post pre = false).
Proof.
  intros run.
  assert (H : new_events (start env_all) (snd run) (trace (snd run))).
  { reflexivity. }
  split; [exact H |].
  exact (main_posts_at_most_once (fixture (full_peer 200)) 2 (start env_all)
           (trace (snd run)) H).
Defined.

Lemma configured_run_starts_fetch_witness :
  configured (start env_all) = true
  /\ exists out evs,
       new_events (start env_all)
         (snd (main (fixture (full_peer 200)) 2 (start env_all)))
         (EvPrint "Fetching Calendly users..."
            :: EvHttp (get_request
                         (calendly_url (environ (start env_all) !! "CALENDLY_ORG_URL"))
                         (calendly_headers
                            (environ (start env_all) !! "CALENDLY_API_TOKEN")))
                      out
            :: evs).
Proof.
  split; [exact start_configured |].
  apply (configured_run_starts_fetch (fixture (full_peer 200)) 2 (start env_all)
           start_configured).
  lia.
Defined.
